(** * isfread: reading Tektronix ISF waveform files

    A shallow embedding of the two scripts of the repository,

    - [isfread_py3.py] (the current reader: two header conventions, point
      formats Y and ENV, fatal errors through [sys.exit]), and
    - [isfread.py] (the original Python 2 reader: legacy convention only,
      point format Y only),

    followed by the properties of the decoder that the specification states.

    Python values are modelled as follows.
    - [str] : a list of code points; [bytes] : a list of integers in 0..255
      (obtained from the file, which is a [list byte]);
    - numbers : [PInt] (unbounded) or [PFloat] (IEEE 754 binary64, through the
      executable specification of Corelib's [SpecFloat]);
    - exceptions : a sum type; [sys.exit] raises [SystemExit];
    - [numpy.array] : the array of the rows in their common element type,
      for the NumPy before 1.24 and the NumPy since, which differ on rows of
      unequal lengths;
    - the open file and the standard output : a [world] threaded through a
      state-and-exception monad [M] (the state survives an exception, as the
      side effects of a Python program do). *)

From Stdlib Require Import ZArith List String Ascii Bool Lia ZifyBool.
From Stdlib Require Import Floats.SpecFloat.
From Stdlib.Strings Require Byte.
Import ListNotations.
Local Open Scope Z_scope.

(** ** Strings and byte strings *)

Definition str := list Z.
Definition bytes := list Z.

(** A string literal of the source, as its code points. *)
Definition lit (s : string) : str :=
  map (fun a => Z.of_N (N_of_ascii a)) (list_ascii_of_string s).

(** The double quote, which a Rocq literal cannot hold. *)
Definition DQUOTE : Z := 34.

Definition len {A : Type} (l : list A) : Z := Z.of_nat (List.length l).

Fixpoint str_eqb (a b : str) : bool :=
  match a, b with
  | [], [] => true
  | x :: a', y :: b' => (x =? y) && str_eqb a' b'
  | _, _ => false
  end.

(** [startswith sub s]: [sub] is a prefix of [s]. *)
Fixpoint startswith (sub s : str) : bool :=
  match sub, s with
  | [], _ => true
  | _ :: _, [] => false
  | a :: sub', b :: s' => (a =? b) && startswith sub' s'
  end.

(** The scan of [str.find]: [s] is the text from index [i] on. *)
Fixpoint find_from (sub s : str) (i : Z) : Z :=
  if startswith sub s then i
  else match s with
       | [] => -1
       | _ :: s' => find_from sub s' (i + 1)
       end.

(** [s.find(sub, start)]: the lowest index at or after [start] where [sub]
    occurs, or -1.  A negative [start] counts from the end. *)
Definition find (s sub : str) (start : Z) : Z :=
  let st := if start <? 0 then Z.max 0 (start + len s) else start in
  if len s <? st then -1
  else find_from sub (skipn (Z.to_nat st) s) st.

(** Index adjustment of a slice bound, as [PySlice_AdjustIndices] does for a
    positive step. *)
Definition clamp (i n : Z) : Z :=
  if i <? 0 then Z.max 0 (i + n) else Z.min i n.

(** [s[a:b]] *)
Definition slice {A : Type} (s : list A) (a b : Z) : list A :=
  let a' := clamp a (len s) in
  let b' := clamp b (len s) in
  firstn (Z.to_nat (b' - a')) (skipn (Z.to_nat a') s).

(** Every [k]-th element, [i] elements being skipped first. *)
Fixpoint stride_aux {A : Type} (k i : nat) (l : list A) : list A :=
  match l with
  | [] => []
  | x :: l' =>
      match i with
      | O => x :: stride_aux k (k - 1) l'
      | S i' => stride_aux k i' l'
      end
  end.

(** [s[a:b:k]] for a positive step [k]. *)
Definition slice_step {A : Type} (s : list A) (a b : Z) (k : nat) : list A :=
  stride_aux k 0 (slice s a b).

(** [s[i]], with [IndexError] as [None]. *)
Definition getitem {A : Type} (s : list A) (i : Z) : option A :=
  let j := if i <? 0 then i + len s else i in
  if (j <? 0) || (len s <=? j) then None else nth_error s (Z.to_nat j).

Fixpoint lstrip_by (p : Z -> bool) (s : str) : str :=
  match s with
  | [] => []
  | c :: s' => if p c then lstrip_by p s' else s
  end.

Definition rstrip_by (p : Z -> bool) (s : str) : str :=
  rev (lstrip_by p (rev s)).

(** Comparison of strings, by code points. *)
Fixpoint str_compare (a b : str) : comparison :=
  match a, b with
  | [], [] => Eq
  | [], _ :: _ => Lt
  | _ :: _, [] => Gt
  | x :: a', y :: b' =>
      match x ?= y with
      | Eq => str_compare a' b'
      | c => c
      end
  end.

Definition str_gt (a b : str) : bool :=
  match str_compare a b with Gt => true | _ => false end.
Definition str_lt (a b : str) : bool :=
  match str_compare a b with Lt => true | _ => false end.

(** [range(n)] *)
Definition range (n : Z) : list Z :=
  map Z.of_nat (seq 0 (Z.to_nat n)).

(** Character classes of CPython's [pyctype]. *)
Definition Py_ISSPACE (c : Z) : bool :=
  (c =? 32) || ((9 <=? c) && (c <=? 13)).

Definition Py_ISDIGIT (c : Z) : bool :=
  (48 <=? c) && (c <=? 57).

(** [Py_UNICODE_ISSPACE]: bidirectional type WS, B or S, or category Zs. *)
Definition Py_UNICODE_ISSPACE (c : Z) : bool :=
  ((9 <=? c) && (c <=? 13)) || ((28 <=? c) && (c <=? 32))
  || (c =? 133) || (c =? 160) || (c =? 5760)
  || ((8192 <=? c) && (c <=? 8202))
  || (c =? 8232) || (c =? 8233) || (c =? 8239) || (c =? 8287)
  || (c =? 12288).

(** ** Exceptions and the two monads *)

Inductive exn : Type :=
| SystemExit (msg : str)          (* sys.exit(msg) *)
| ValueError (why : string)       (* invalid literal, closed file, ... *)
| KeyError (key : str)            (* a dictionary without the key *)
| IndexError
| struct_error                    (* struct.error *)
| UnicodeDecodeError
| OverflowError
| TypeError
| OSError.

(** A pure computation that may raise. *)
Definition res (A : Type) : Type := (exn + A)%type.

Definition rbind {A B : Type} (c : res A) (k : A -> res B) : res B :=
  match c with
  | inl e => inl e
  | inr a => k a
  end.

(** A list comprehension whose body may raise. *)
Fixpoint mapM {A B : Type} (f : A -> res B) (l : list A) : res (list B) :=
  match l with
  | [] => inr []
  | x :: l' =>
      rbind (f x) (fun y => rbind (mapM f l') (fun ys => inr (y :: ys)))
  end.

(** The part of the outside world that [isfread] touches: the position and
    the state of the one file it opens, and what it has printed. *)
Record world : Type := mkWorld {
  fpos : Z;
  fclosed : bool;
  stdout : list str
}.

Definition M (A : Type) : Type := world -> res A * world.

Definition ret {A : Type} (a : A) : M A := fun w => (inr a, w).

Definition bind {A B : Type} (c : M A) (k : A -> M B) : M B :=
  fun w => match c w with
           | (inl e, w') => (inl e, w')
           | (inr a, w') => k a w'
           end.

Definition raise {A : Type} (e : exn) : M A := fun w => (inl e, w).

Definition lift {A : Type} (c : res A) : M A := fun w => (c, w).

Declare Scope py_scope.
Delimit Scope py_scope with py.
Notation "x <- c ;; k" := (bind c (fun x => k))
  (at level 61, c at next level, right associativity) : py_scope.
Notation "c ;; k" := (bind c (fun _ => k))
  (at level 61, right associativity) : py_scope.
Notation "x <-? c ;; k" := (rbind c (fun x => k))
  (at level 61, c at next level, right associativity) : py_scope.
Local Open Scope py_scope.

(** *** The file object *)

Definition byte_val (b : Byte.byte) : Z := Z.of_N (Byte.to_N b).

Definition closed_file : exn := ValueError "I/O operation on closed file".

(** [open(filename, 'rb')]: a fresh handle at position 0. *)
Definition open : M unit :=
  fun w => (inr tt, mkWorld 0 false (stdout w)).

(** [f.read(n)]: at most [n] bytes from the current position (all the rest
    when [n] is negative). *)
Definition read (file : list Byte.byte) (n : Z) : M bytes :=
  fun w =>
    if fclosed w then (inl closed_file, w)
    else
      let rest := skipn (Z.to_nat (fpos w)) file in
      let chunk := if n <? 0 then rest else firstn (Z.to_nat n) rest in
      (inr (map byte_val chunk),
       mkWorld (fpos w + len chunk) false (stdout w)).

(** [f.seek(p)] *)
Definition seek (p : Z) : M unit :=
  fun w =>
    if fclosed w then (inl closed_file, w)
    else if p <? 0 then (inl OSError, w)
    else (inr tt, mkWorld p false (stdout w)).

(** [f.close()] *)
Definition close : M unit :=
  fun w => (inr tt, mkWorld (fpos w) true (stdout w)).

(** [print s] *)
Definition print (s : str) : M unit :=
  fun w => (inr tt, mkWorld (fpos w) (fclosed w) (stdout w ++ [s])).

(** ** Numbers *)

Definition float : Type := spec_float.
Definition prec : Z := 53.
Definition emax : Z := 1024.

Inductive pynum : Type :=
| PInt (z : Z)
| PFloat (f : float).

Definition float_of_Z (z : Z) : float := binary_normalize prec emax z 0 false.

Definition is_finite (f : float) : bool :=
  match f with
  | S754_zero _ | S754_finite _ _ _ => true
  | _ => false
  end.

(** The conversion of an [int] operand of a mixed operation
    ([PyLong_AsDouble]): correctly rounded, [OverflowError] beyond the range. *)
Definition int_to_float (z : Z) : res float :=
  let f := float_of_Z z in
  if is_finite f then inr f else inl OverflowError.

Definition arith (iop : Z -> Z -> Z) (fop : float -> float -> float)
    (a b : pynum) : res pynum :=
  match a, b with
  | PInt x, PInt y => inr (PInt (iop x y))
  | PInt x, PFloat y => fx <-? int_to_float x ;; inr (PFloat (fop fx y))
  | PFloat x, PInt y => fy <-? int_to_float y ;; inr (PFloat (fop x fy))
  | PFloat x, PFloat y => inr (PFloat (fop x y))
  end.

Definition py_add : pynum -> pynum -> res pynum := arith Z.add (SFadd prec emax).
Definition py_sub : pynum -> pynum -> res pynum := arith Z.sub (SFsub prec emax).
Definition py_mul : pynum -> pynum -> res pynum := arith Z.mul (SFmul prec emax).

(** [a / d] for a float [d] other than zero. *)
Definition py_div_float (a : pynum) (d : float) : res float :=
  match a with
  | PInt x => fx <-? int_to_float x ;; inr (SFdiv prec emax fx d)
  | PFloat x => inr (SFdiv prec emax x d)
  end.

(** [int(f)]: truncation towards zero. *)
Definition int_of_float (f : float) : res Z :=
  match f with
  | S754_zero _ => inr 0
  | S754_finite s m e =>
      let a := if 0 <=? e then Z.shiftl (Zpos m) e else Z.shiftr (Zpos m) (- e) in
      inr (if s then - a else a)
  | S754_infinity _ => inl OverflowError
  | S754_nan => inl (ValueError "cannot convert float NaN to integer")
  end.

(** [a != k] for an integer constant [k]: Python compares an [int] and a
    [float] by value. *)
Definition py_ne_int (a : pynum) (k : Z) : bool :=
  match a with
  | PInt x => negb (x =? k)
  | PFloat f => negb (SFeqb f (float_of_Z k))
  end.

(** ** The built-in conversions [int()] and [float()]

    Modelled after CPython 3: [PyLong_FromString] in base 10 and
    [float_from_string_inner] over [_Py_dg_strtod].  A text is first mapped to
    ASCII by [_PyUnicode_TransformDecimalAndSpaceToASCII]; the table of the
    decimal digits outside ASCII changes with the Unicode version and is a
    parameter of the development ([todecimal]). *)

Fixpoint span (p : Z -> bool) (s : str) : str * str :=
  match s with
  | [] => ([], [])
  | c :: s' =>
      if p c then let '(a, b) := span p s' in (c :: a, b) else ([], s)
  end.

Definition digits_value (ds : str) : Z :=
  fold_left (fun acc c => 10 * acc + (c - 48)) ds 0.

(** An optional sign; [true] for a minus. *)
Definition take_sign (s : str) : bool * str :=
  match s with
  | 45 :: r => (true, r)
  | 43 :: r => (false, r)
  | _ => (false, s)
  end.

Definition UNDERSCORE : Z := 95.

(** The placing of underscores: only between two digits. [prev] is the
    character before [s] (0 at the start). The underscores are removed. *)
Fixpoint strip_underscores (prev : Z) (s : str) : option str :=
  match s with
  | [] => if prev =? UNDERSCORE then None else Some []
  | c :: s' =>
      if c =? UNDERSCORE then
        if Py_ISDIGIT prev then strip_underscores c s' else None
      else if (prev =? UNDERSCORE) && negb (Py_ISDIGIT c) then None
      else option_map (cons c) (strip_underscores c s')
  end.

Definition invalid_int : exn := ValueError "invalid literal for int() with base 10".
Definition invalid_float : exn := ValueError "could not convert string to float".

(** [int(s)] for an ASCII string or a bytes object. *)
Definition int_ascii (s : str) : res Z :=
  let s1 := lstrip_by Py_ISSPACE s in
  let '(neg, s2) := take_sign s1 in
  let '(body, rest) := span (fun c => Py_ISDIGIT c || (c =? UNDERSCORE)) s2 in
  match strip_underscores 0 body with
  | Some (d :: ds) =>
      if forallb Py_ISSPACE rest
      then inr (if neg then - digits_value (d :: ds) else digits_value (d :: ds))
      else inl invalid_int
  | _ => inl invalid_int
  end.

(** The double nearest to [m * 10 ^ e10] (ties to even), with sign [neg]. *)
Definition decimal_to_float (neg : bool) (m e10 : Z) : float :=
  match m with
  | Z0 => S754_zero neg
  | Zpos p =>
      if 0 <=? e10
      then binary_round prec emax neg (Z.to_pos (Zpos p * 10 ^ e10)) 0
      else SFdiv prec emax (S754_finite neg p 0)
             (S754_finite false (Z.to_pos (10 ^ (- e10))) 0)
  | Zneg _ => S754_nan
  end.

(** The fraction of a decimal literal: a point and the digits after it. *)
Definition frac_part (s : str) : str * str :=
  match s with
  | 46 :: r => span Py_ISDIGIT r
  | _ => ([], s)
  end.

(** The exponent of a decimal literal: [e] or [E], an optional sign and one
    digit at least; without a digit nothing is taken. *)
Definition exp_part (s : str) : Z * str :=
  match s with
  | c :: r =>
      if (c =? 101) || (c =? 69) then
        let '(eneg, r1) := take_sign r in
        let '(ed, r2) := span Py_ISDIGIT r1 in
        match ed with
        | [] => (0, s)
        | _ :: _ => (if eneg then - digits_value ed else digits_value ed, r2)
        end
      else (0, s)
  | [] => (0, s)
  end.

(** [_Py_dg_strtod]: the longest prefix that is a decimal literal, and the
    rest; [None] when there is no digit. *)
Definition dg_strtod (s : str) : option (float * str) :=
  let '(neg, s1) := take_sign s in
  let '(ip, s2) := span Py_ISDIGIT s1 in
  let '(fp, s3) := frac_part s2 in
  match ip ++ fp with
  | [] => None
  | _ :: _ =>
      let '(ex, s4) := exp_part s3 in
      Some (decimal_to_float neg (digits_value (ip ++ fp)) (ex - len fp), s4)
  end.

Definition Py_TOLOWER (c : Z) : Z :=
  if (65 <=? c) && (c <=? 90) then c + 32 else c.

Definition case_insensitive_match (s : str) (t : string) : bool :=
  startswith (lit t) (map Py_TOLOWER s).

(** [_Py_parse_inf_or_nan] *)
Definition parse_inf_or_nan (s : str) : option (float * str) :=
  let '(neg, s1) := take_sign s in
  if case_insensitive_match s1 "inf" then
    let r := skipn 3 s1 in
    Some (S754_infinity neg,
          if case_insensitive_match r "inity" then skipn 5 r else r)
  else if case_insensitive_match s1 "nan" then Some (S754_nan, skipn 3 s1)
  else None.

Definition float_from_string_inner (s : str) : res float :=
  let s' := rstrip_by Py_ISSPACE (lstrip_by Py_ISSPACE s) in
  let parsed :=
    match dg_strtod s' with
    | Some r => Some r
    | None => parse_inf_or_nan s'
    end in
  match parsed with
  | Some (x, []) => inr x
  | _ => inl invalid_float
  end.

(** [float(s)] for an ASCII string. *)
Definition float_ascii (s : str) : res float :=
  if existsb (Z.eqb UNDERSCORE) s then
    match strip_underscores 0 s with
    | Some s' => float_from_string_inner s'
    | None => inl invalid_float
    end
  else float_from_string_inner s.

(** [_PyUnicode_TransformDecimalAndSpaceToASCII] *)
Fixpoint transform_decimal_and_space (todecimal : Z -> option Z) (s : str) : str :=
  match s with
  | [] => []
  | ch :: s' =>
      if ch <? 127 then ch :: transform_decimal_and_space todecimal s'
      else if Py_UNICODE_ISSPACE ch then 32 :: transform_decimal_and_space todecimal s'
      else match todecimal ch with
           | Some d =>
               if (0 <=? d) && (d <=? 9)
               then (48 + d) :: transform_decimal_and_space todecimal s'
               else [63]
           | None => [63]
           end
  end.

(** The built-ins that the tag readers call, as an interface: the Python 3
    reader has the instance below, the Python 2 reader takes its own. *)
Record builtins : Type := mkBuiltins {
  py_int : str -> res Z;       (* int(s) *)
  py_float : str -> res float; (* float(s) *)
  py_lstrip : str -> str       (* s.lstrip() *)
}.

Definition python3 (todecimal : Z -> option Z) : builtins :=
  {| py_int := fun s => int_ascii (transform_decimal_and_space todecimal s);
     py_float := fun s => float_ascii (transform_decimal_and_space todecimal s);
     py_lstrip := lstrip_by Py_UNICODE_ISSPACE |}.

(** ** [bytes.decode('utf-8')], strict *)

Definition is_cont (b : Z) : bool := (128 <=? b) && (b <=? 191).
Definition cont_bits (b : Z) : Z := Z.land b 63.

Fixpoint utf8_decode (b : bytes) : option str :=
  match b with
  | [] => Some []
  | b0 :: r0 =>
      if b0 <? 128 then option_map (cons b0) (utf8_decode r0)
      else if (194 <=? b0) && (b0 <=? 223) then
        match r0 with
        | b1 :: r1 =>
            if is_cont b1
            then option_map
                   (cons (Z.lor (Z.shiftl (Z.land b0 31) 6) (cont_bits b1)))
                   (utf8_decode r1)
            else None
        | _ => None
        end
      else if (224 <=? b0) && (b0 <=? 239) then
        match r0 with
        | b1 :: b2 :: r2 =>
            if is_cont b1 && is_cont b2
               && (negb (b0 =? 224) || (160 <=? b1))
               && (negb (b0 =? 237) || (b1 <=? 159))
            then option_map
                   (cons (Z.lor (Z.shiftl (Z.land b0 15) 12)
                            (Z.lor (Z.shiftl (cont_bits b1) 6) (cont_bits b2))))
                   (utf8_decode r2)
            else None
        | _ => None
        end
      else if (240 <=? b0) && (b0 <=? 244) then
        match r0 with
        | b1 :: b2 :: b3 :: r3 =>
            if is_cont b1 && is_cont b2 && is_cont b3
               && (negb (b0 =? 240) || (144 <=? b1))
               && (negb (b0 =? 244) || (b1 <=? 143))
            then option_map
                   (cons (Z.lor (Z.shiftl (Z.land b0 7) 18)
                            (Z.lor (Z.shiftl (cont_bits b1) 12)
                               (Z.lor (Z.shiftl (cont_bits b2) 6) (cont_bits b3)))))
                   (utf8_decode r3)
            else None
        | _ => None
        end
      else None
  end.

Definition decode (b : bytes) : res str :=
  match utf8_decode b with
  | Some s => inr s
  | None => inl UnicodeDecodeError
  end.

(** ** The [struct] module, for the formats that [isfread] builds

    A format is a byte-order character followed by items, each an optional
    repeat count and a code.  Only the standard-size modes are modelled; the
    scripts always pass ['<'] or ['>'] first. *)

(** [str(n)] for an [int]. *)
Fixpoint dec_digits (fuel : nat) (n : Z) (acc : str) : str :=
  match fuel with
  | O => acc
  | S f =>
      let acc' := (48 + n mod 10) :: acc in
      if n <? 10 then acc' else dec_digits f (n / 10) acc'
  end.

Definition str_int (n : Z) : str :=
  if n <? 0 then 45 :: dec_digits (S (Z.to_nat (Z.log2 (- n)))) (- n) []
  else dec_digits (S (Z.to_nat (Z.log2 n))) n [].

(** [PY_SSIZE_T_MAX] of a 64-bit build. *)
Definition PY_SSIZE_T_MAX : Z := 2 ^ 63 - 1.

(** The sizes of the standard-mode codes ([lilendian_table], [bigendian_table]). *)
Definition format_size (c : Z) : option Z :=
  match c with
  | 120 | 98 | 66 | 99 | 115 | 112 | 63 => Some 1     (* x b B c s p ? *)
  | 104 | 72 | 101 => Some 2                          (* h H e *)
  | 105 | 73 | 108 | 76 | 102 => Some 4               (* i I l L f *)
  | 113 | 81 | 100 => Some 8                          (* q Q d *)
  | _ => None
  end.

(** The loop of [prepare_s]: [num] is the repeat count read so far, [size] the
    size of the items before it. *)
Fixpoint prepare_s (s : str) (num : option Z) (size : Z) : res Z :=
  match s with
  | [] =>
      match num with
      | Some _ => inl struct_error       (* repeat count without a code *)
      | None => inr size
      end
  | c :: s' =>
      let item (n : Z) :=
        match format_size c with
        | None => inl struct_error       (* bad char in struct format *)
        | Some itemsize =>
            if (PY_SSIZE_T_MAX - size) / itemsize <? n then inl struct_error
            else prepare_s s' None (size + n * itemsize)
        end in
      match num with
      | None =>
          if Py_ISSPACE c then prepare_s s' None size
          else if Py_ISDIGIT c then prepare_s s' (Some (c - 48)) size
          else item 1
      | Some n =>
          if Py_ISDIGIT c then
            if PY_SSIZE_T_MAX <? n * 10 + (c - 48) then inl struct_error
            else prepare_s s' (Some (n * 10 + (c - 48))) size
          else item n
      end
  end.

Definition LESS : Z := 60.      (* '<' *)
Definition GREATER : Z := 62.   (* '>' *)

(** [struct.calcsize(fmt)] *)
Definition calcsize (fmt : str) : res Z :=
  match fmt with
  | c :: items =>
      if (c =? LESS) || (c =? GREATER) then prepare_s items None 0
      else inl struct_error              (* a mode that the scripts never ask for *)
  | [] => inl struct_error
  end.

(** A signed 16-bit integer from its high and low bytes. *)
Definition int16 (hi lo : Z) : Z :=
  let u := Z.lor (Z.shiftl hi 8) lo in
  if Z.testbit u 15 then u - 65536 else u.

Fixpoint unpack_h (big : bool) (b : bytes) : list Z :=
  match b with
  | x :: y :: r => (if big then int16 x y else int16 y x) :: unpack_h big r
  | _ => []
  end.

(** The items of the format are one repeated [h]. *)
Definition only_h (items : str) : bool :=
  let '(_, code) := span Py_ISDIGIT items in
  str_eqb code (lit "h").

(** [struct.unpack(fmt, buffer)] for a format [<order><count>h]: the buffer
    must have exactly the size of the format. *)
Definition unpack (fmt : str) (buffer : bytes) : res (list Z) :=
  size <-? calcsize fmt ;;
  match fmt with
  | c :: items =>
      if negb (only_h items) then inl struct_error
      else if len buffer =? size then inr (unpack_h (c =? GREATER) buffer)
      else inl struct_error
  | [] => inl struct_error
  end.

(** ** The header *)

(** The dictionary that both scripts build, with its sixteen keys. *)
Record header : Type := mkHeader {
  bytenum : pynum;
  bitnum : pynum;
  encoding : str;
  binformat : str;
  byteorder : str;
  wfid : str;
  pointformat : str;
  xunit : str;
  yunit : str;
  xzero : pynum;
  xincr : pynum;
  ptoff : pynum;
  ymult : pynum;
  yzero : pynum;
  yoff : pynum;
  npts : pynum
}.

(** The tag under which each key is looked for. *)
Record tagset : Type := mkTags {
  t_bytenum : str; t_bitnum : str; t_encoding : str; t_binformat : str;
  t_byteorder : str; t_wfid : str; t_pointformat : str; t_xunit : str;
  t_yunit : str; t_xzero : str; t_xincr : str; t_ptoff : str;
  t_ymult : str; t_yzero : str; t_yoff : str; t_npts : str
}.

(** The tags of a file with [:CURVE #] (and the only ones of the Python 2
    script). *)
Definition legacy_tags : tagset :=
  mkTags (lit "BYT_NR") (lit "BIT_NR") (lit "ENCDG") (lit "BN_FMT")
         (lit "BYT_OR") (lit "WFID") (lit "PT_FMT") (lit "XUNIT")
         (lit "YUNIT") (lit "XZERO") (lit "XINCR") (lit "PT_OFF")
         (lit "YMULT") (lit "YZERO") (lit "YOFF") (lit "NR_PT").

(** The tags of a file with [:CURV #]. *)
Definition current_tags : tagset :=
  mkTags (lit "BYT_N") (lit "BIT_N") (lit "ENC") (lit "BN_F")
         (lit "BYT_O") (lit "WFI") (lit "PT_F") (lit "XUN")
         (lit "YUN") (lit "XZE") (lit "XIN") (lit "PT_O")
         (lit "YMU") (lit "YZE") (lit "YOF") (lit "NR_P").

Definition numeric_tags (t : tagset) : list str :=
  [t_bytenum t; t_bitnum t; t_xzero t; t_xincr t; t_ptoff t; t_ymult t;
   t_yzero t; t_yoff t; t_npts t].

(** ** The tag readers (the same text in both scripts) *)

Section TagReaders.
Variable B : builtins.

(** Look into the string for the tag and extract the consequent number. *)
Definition getnum (string tag : str) : res pynum :=
  let n1 := find string tag 0 in
  let n2 := find string (lit ";") n1 in
  let s2 := slice string (n1 + len tag) n2 in
  let j := find s2 (lit ".") 0 in
  if j =? -1 then
    x <-? py_int B (slice string (n1 + len tag) n2) ;; inr (PInt x)
  else
    x <-? py_float B (slice string (n1 + len tag) n2) ;; inr (PFloat x).

(** Look into the string for the tag and extract the consequent string. *)
Definition getstr (string tag : str) : str :=
  let n1 := find string tag 0 in
  let n2 := find string (lit ";") n1 in
  py_lstrip B (slice string (n1 + len tag) n2).

(** Look into the string for the tag and extract the consequent quoted
    string. *)
Definition getquotedstr (string tag : str) : str :=
  let n1 := find string tag 0 in
  let n2 := find string [DQUOTE] (n1 + 1) in
  let n3 := find string [DQUOTE] (n2 + 1) in
  slice string (n2 + 1) n3.

(** The dictionary literal: the values are computed in the order of the
    keys, and the first one that raises ends the evaluation. *)
Definition read_header (t : tagset) (hdata : str) : res header :=
  v_bytenum <-? getnum hdata (t_bytenum t) ;;
  v_bitnum <-? getnum hdata (t_bitnum t) ;;
  let v_encoding := getstr hdata (t_encoding t) in
  let v_binformat := getstr hdata (t_binformat t) in
  let v_byteorder := getstr hdata (t_byteorder t) in
  let v_wfid := getquotedstr hdata (t_wfid t) in
  let v_pointformat := getstr hdata (t_pointformat t) in
  let v_xunit := getquotedstr hdata (t_xunit t) in
  let v_yunit := getquotedstr hdata (t_yunit t) in
  v_xzero <-? getnum hdata (t_xzero t) ;;
  v_xincr <-? getnum hdata (t_xincr t) ;;
  v_ptoff <-? getnum hdata (t_ptoff t) ;;
  v_ymult <-? getnum hdata (t_ymult t) ;;
  v_yzero <-? getnum hdata (t_yzero t) ;;
  v_yoff <-? getnum hdata (t_yoff t) ;;
  v_npts <-? getnum hdata (t_npts t) ;;
  inr (mkHeader v_bytenum v_bitnum v_encoding v_binformat v_byteorder
         v_wfid v_pointformat v_xunit v_yunit v_xzero v_xincr v_ptoff
         v_ymult v_yzero v_yoff v_npts).
End TagReaders.

(** ** What both scripts share after the header *)

(** Dictionary to convert significant-bit information to [struct] module
    definitions. *)
Definition dict_endian : list (str * str) :=
  [(lit "MSB", [GREATER]); (lit "LSB", [LESS])].

(** [d[k]] *)
Fixpoint dict_get (d : list (str * str)) (k : str) : res str :=
  match d with
  | [] => inl (KeyError k)
  | (k', v) :: d' => if str_eqb k k' then inr v else dict_get d' k
  end.

(** [dict_endian[byteorder] + str(npts) + 'h'].  The text of a float ([str]
    of it) always holds a ['.'], an exponent sign or the letters of [inf] or
    [nan], none of which is a code after ['<'] or ['>']: [struct.calcsize],
    the next call, raises [struct.error] on it. *)
Definition fmt_of (order : str) (npts : pynum) : res str :=
  match npts with
  | PInt n => inr (order ++ str_int n ++ lit "h")
  | PFloat _ => inl struct_error
  end.

(** [yzero + ymult*(y-yoff)] *)
Definition value_of (h : header) (y : Z) : res pynum :=
  d <-? py_sub (PInt y) (yoff h) ;;
  p <-? py_mul (ymult h) d ;;
  py_add (yzero h) p.

(** [xzero + xincr*(i-ptoff)] *)
Definition time_of (h : header) (i : Z) : res pynum :=
  d <-? py_sub (PInt i) (ptoff h) ;;
  p <-? py_mul (xincr h) d ;;
  py_add (xzero h) p.

(** [xzero + xincr*(i-ptoff)*2] *)
Definition env_time_of (h : header) (i : Z) : res pynum :=
  d <-? py_sub (PInt i) (ptoff h) ;;
  p <-? py_mul (xincr h) d ;;
  q <-? py_mul p (PInt 2) ;;
  py_add (xzero h) q.

(** [cmp(a, b)]: the built-in of Python 2, and
    [(a > b) - (a < b)] in [isfread_py3.py]. *)
Definition cmp (a b : str) : Z := Z.b2z (str_gt a b) - Z.b2z (str_lt a b).

(** [range(npts)] (or [xrange]): the count must be an [int]. *)
Definition range_num (npts : pynum) : res (list Z) :=
  match npts with
  | PInt n => inr (range n)
  | PFloat _ => inl TypeError
  end.

(** ** [numpy.array] on rows of numbers

    [numpy.array(rows)] for a list of lists of Python numbers, on a platform
    whose C [long] has 64 bits.  NumPy finds the element type from the
    entries and converts every entry to it. *)

(** Rows of unequal lengths are taken by the NumPy of the script's time
    (with a deprecation warning, on the standard error, from NumPy 1.19 on)
    and refused since NumPy 1.24. *)
Inductive numpy_version : Type :=
| numpy_before_1_24
| numpy_from_1_24.

Inductive dtype : Type :=
| int64
| uint64
| float64
| object.

(** The element type that one entry asks for: [float64] for a [float]; for an
    [int], [int64] when it fits, else [uint64] when that fits, else
    [object]. *)
Definition scalar_dtype (a : pynum) : dtype :=
  match a with
  | PFloat _ => float64
  | PInt z =>
      if (- 2 ^ 63 <=? z) && (z <? 2 ^ 63) then int64
      else if (0 <=? z) && (z <? 2 ^ 64) then uint64
      else object
  end.

(** [numpy.promote_types] on these four. *)
Definition promote (a b : dtype) : dtype :=
  match a, b with
  | object, _ | _, object => object
  | float64, _ | _, float64 => float64
  | int64, int64 => int64
  | uint64, uint64 => uint64
  | int64, uint64 | uint64, int64 => float64
  end.

(** The element type of an array of these entries ([float64] when there is
    none). *)
Definition common_dtype (entries : list pynum) : dtype :=
  match entries with
  | [] => float64
  | a :: rest =>
      fold_left (fun d b => promote d (scalar_dtype b)) rest (scalar_dtype a)
  end.

(** The entry as the array holds it: an [int] of a [float64] array becomes
    the nearest double; every other entry keeps its value. *)
Definition cast (d : dtype) (a : pynum) : pynum :=
  match d, a with
  | float64, PInt z => PFloat (float_of_Z z)
  | _, _ => a
  end.

(** The value of [numpy.array(rows)]: an array of two dimensions, or, from
    rows of unequal lengths before NumPy 1.24, an array of one dimension that
    holds the rows themselves, as the list objects they are. *)
Inductive ndarray : Type :=
| nd_array (d : dtype) (rows : list (list pynum))
| nd_ragged (rows : list (list pynum)).

Definition same_length (rows : list (list pynum)) : bool :=
  match rows with
  | [] => true
  | r :: rest => forallb (fun r' => len r' =? len r) rest
  end.

(** The [ValueError] of NumPy 1.24 and later on rows of unequal lengths (its
    message, which goes on with the number of dimensions and the shape that
    was detected). *)
Definition inhomogeneous : exn :=
  ValueError
    "setting an array element with a sequence. The requested array has an inhomogeneous shape".

(** [numpy.array(rows)] *)
Definition np_array (v : numpy_version) (rows : list (list pynum)) : res ndarray :=
  if same_length rows then
    let d := common_dtype (List.concat rows) in
    inr (nd_array d (map (map (cast d)) rows))
  else
    match v with
    | numpy_before_1_24 => inr (nd_ragged rows)
    | numpy_from_1_24 => inl inhomogeneous
    end.

(** ** [isfread_py3.py] *)

Module isfread_py3.
Section Reader.
(** [Py_UNICODE_TODECIMAL] outside ASCII. *)
Variable todecimal : Z -> option Z.
(** The NumPy that is installed. *)
Variable numpy : numpy_version.

Definition B : builtins := python3 todecimal.

Definition no_marker : str :=
  lit "error: can`t find " ++ [DQUOTE] ++ lit ":CURV #" ++ [DQUOTE]
  ++ lit " nor " ++ [DQUOTE] ++ lit ":CURVE #" ++ [DQUOTE] ++ lit ".".

Definition byte_count_mismatch : str :=
  lit "error: intNofDataBytes != intCalculatedNofBytes.".

Definition bad_point_format : str :=
  lit "error: plotformat != " ++ [DQUOTE] ++ lit "Y" ++ [DQUOTE]
  ++ lit " or " ++ [DQUOTE] ++ lit "ENV" ++ [DQUOTE] ++ lit ".".

(** Lines 81-91: the position of the marker, its length, and whether the
    file is of the older version. *)
Definition locate (bytesHeader : bytes) : res (Z * Z * bool) :=
  let key := lit ":CURV #" in
  let intLocationOfColon := find bytesHeader key 0 in
  let keylength := len key in
  let older_version := false in
  let '(intLocationOfColon, keylength, older_version) :=
    if intLocationOfColon =? -1 then
      let key := lit ":CURVE #" in
      (find bytesHeader key 0, len key, true)
    else (intLocationOfColon, keylength, older_version) in
  if intLocationOfColon =? -1 then inl (SystemExit no_marker)
  else inr (intLocationOfColon, keylength, older_version).

(** Lines 93-95: the number of digits of the byte count, and the text of
    the header, cut after these digits. *)
Definition preamble (bytesHeader : bytes) (intLocationOfColon keylength : Z)
    : res (Z * str) :=
  match getitem bytesHeader (intLocationOfColon + keylength) with
  | None => inl IndexError
  | Some b =>
      intNofDigits <-? py_int B [b] ;;
      let bytesHeader :=
        slice bytesHeader 0 (intLocationOfColon + keylength + 1 + intNofDigits) in
      bytesHeader <-? decode bytesHeader ;;
      inr (intNofDigits, bytesHeader)
  end.

(** Lines 136-169. *)
Definition tupleHeader (older_version : bool) (bytesHeader : str) : res header :=
  if older_version then read_header B legacy_tags bytesHeader
  else read_header B current_tags bytesHeader.

(** Lines 194-222: the byte count, the format, the check of the two sizes,
    and the samples. *)
Definition read_block (file : list Byte.byte)
    (intLocationOfColon keylength intNofDigits : Z) (tupleHeader : header)
    : M (list Z) :=
  seek (intLocationOfColon + keylength + 1) ;;
  digits <- read file intNofDigits ;;
  intNofDataBytes <- lift (int_ascii digits) ;;
  order <- lift (dict_get dict_endian (byteorder tupleHeader)) ;;
  fmt <- lift (fmt_of order (npts tupleHeader)) ;;
  intCalculatedNofBytes <- lift (calcsize fmt) ;;
  if negb (intNofDataBytes =? intCalculatedNofBytes)
  then raise (SystemExit byte_count_mismatch)
  else
    string_data <- read file intCalculatedNofBytes ;;
    string_data2 <- read file intCalculatedNofBytes ;;
    lift (unpack fmt string_data).

(** Lines 236-251. *)
Definition convert (tupleHeader : header) (data : list Z) : M ndarray :=
  if cmp (pointformat tupleHeader) (lit "Y") =? 0 then
    listTime <- lift (idx <-? range_num (npts tupleHeader) ;;
                      mapM (time_of tupleHeader) idx) ;;
    listValue <- lift (mapM (value_of tupleHeader) data) ;;
    ndarrayValue <- lift (np_array numpy [listTime; listValue]) ;;
    close ;;
    ret ndarrayValue
  else if cmp (pointformat tupleHeader) (lit "ENV") =? 0 then
    npts <- lift (half <-? py_div_float (npts tupleHeader) (float_of_Z 2) ;;
                  int_of_float half) ;;
    listTime <- lift (mapM (env_time_of tupleHeader) (range npts)) ;;
    listMinValue <- lift (mapM (value_of tupleHeader)
                            (slice_step data 0 (len data) 2)) ;;
    listMaxValue <- lift (mapM (value_of tupleHeader)
                            (slice_step data 1 (len data) 2)) ;;
    ndarrayValue <- lift (np_array numpy [listTime; listMinValue; listMaxValue]) ;;
    close ;;
    ret ndarrayValue
  else raise (SystemExit bad_point_format).

(** Lines 81-169 together: everything that is computed from the first 511
    bytes. *)
Definition read_preamble (bytesHeader : bytes) : res (Z * Z * Z * header) :=
  found <-? locate bytesHeader ;;
  let '(intLocationOfColon, keylength, older_version) := found in
  cut <-? preamble bytesHeader intLocationOfColon keylength ;;
  let '(intNofDigits, bytesHeader) := cut in
  tupleHeader <-? tupleHeader older_version bytesHeader ;;
  inr (intLocationOfColon, keylength, intNofDigits, tupleHeader).

(** [isfread(filename)], for the file that [filename] names, with the
    default [verbose=False, debug=False] (no diagnostic print is taken). *)
Definition isfread (file : list Byte.byte) : M (ndarray * header) :=
  open ;;
  bytesHeader <- read file 511 ;;
  parsed <- lift (read_preamble bytesHeader) ;;
  let '(intLocationOfColon, keylength, intNofDigits, tupleHeader) := parsed in
  data <- read_block file intLocationOfColon keylength intNofDigits tupleHeader ;;
  ndarrayValue <- convert tupleHeader data ;;
  ret (ndarrayValue, tupleHeader).
End Reader.
End isfread_py3.

(** ** [isfread.py] (Python 2) *)

Module isfread_py2.
Section Reader.
(** The built-ins of the Python 2 interpreter. *)
Variable B : builtins.

Definition unable : str := lit "Unable to process IFS file.".
Definition warning : str :=
  lit "WARNING: Something is not going as is was planned!!!".

(** Lines 113-115: the cases that the code does not take into account. *)
Definition unsupported (head : header) : bool :=
  py_ne_int (bytenum head) 2 || py_ne_int (bitnum head) 16
  || negb (cmp (encoding head) (lit "BIN") =? 0)
  || negb (cmp (binformat head) (lit "RI") =? 0)
  || negb (cmp (pointformat head) (lit "Y") =? 0).

Definition isfread (file : list Byte.byte) : M (list pynum * list pynum * header) :=
  open ;;
  hdata <- read file 511 ;;
  head <- lift (read_header B legacy_tags hdata) ;;
  (if unsupported head
   then close ;; print unable
   else ret tt) ;;
  let ii := find hdata (lit ":CURVE #") 0 in
  seek (ii + 8) ;;
  one <- read file 1 ;;
  skip <- lift (py_int B one) ;;
  digits <- read file skip ;;
  n1 <- lift (py_int B digits) ;;
  order <- lift (dict_get dict_endian (byteorder head)) ;;
  fmt <- lift (fmt_of order (npts head)) ;;
  n2 <- lift (calcsize fmt) ;;
  (if negb (n1 =? n2) then print warning else ret tt) ;;
  string_data <- read file n2 ;;
  data <- lift (unpack fmt string_data) ;;
  v <- lift (mapM (value_of head) data) ;;
  x <- lift (idx <-? range_num (npts head) ;; mapM (time_of head) idx) ;;
  close ;;
  ret (x, v, head).
End Reader.
End isfread_py2.

(** ** What the statements below speak of *)

(** The bytes that the first [read(511)] returns. *)
Definition header_bytes (file : list Byte.byte) : bytes :=
  map byte_val (firstn 511 file).

(** The bytes of the file from index [start] on, [n] of them at most. *)
Definition file_bytes (file : list Byte.byte) (start n : Z) : bytes :=
  map byte_val (firstn (Z.to_nat n) (skipn (Z.to_nat start) file)).

(** [sub] occurs in [s] at index [i]. *)
Definition occurs_at (sub s : str) (i : Z) : Prop :=
  0 <= i /\ firstn (List.length sub) (skipn (Z.to_nat i) s) = sub.

(** [sub] occurs nowhere in [s]. *)
Definition absent (sub s : str) : Prop :=
  forall i, ~ occurs_at sub s i.

(** The first occurrence of [sub] in [s] is at index [i]. *)
Definition first_at (sub s : str) (i : Z) : Prop :=
  occurs_at sub s i /\ forall k, k < i -> ~ occurs_at sub s k.

(** A file from the codes of its bytes (a code outside 0..255 gives none). *)
Definition file_of (codes : list Z) : list Byte.byte :=
  flat_map (fun z => match Byte.of_N (Z.to_N z) with
                     | Some b => [b]
                     | None => []
                     end) codes.

(** A world to start from: nothing printed yet. *)
Definition fresh_world : world := mkWorld 0 false [].

(** A table without any digit outside ASCII. *)
Definition ascii_only : Z -> option Z := fun _ => None.

(** *** The arithmetic in which the formulas are stated

    The numbers of the header are Python numbers, and so are the terms of
    the rows.  A sum, a difference or a product of two [int] is exact; as
    soon as one operand is a [float] the operation is the one of IEEE 754
    binary64, an [int] operand being converted first to the nearest double
    (ties to even). *)

Definition nearest_double (z : Z) : spec_float :=
  binary_normalize 53 1024 z 0 false.

Definition as_double (a : pynum) : spec_float :=
  match a with
  | PInt z => nearest_double z
  | PFloat f => f
  end.

Definition num_op (iop : Z -> Z -> Z)
    (fop : spec_float -> spec_float -> spec_float) (a b : pynum) : pynum :=
  match a, b with
  | PInt x, PInt y => PInt (iop x y)
  | _, _ => PFloat (fop (as_double a) (as_double b))
  end.

(** [zero + mult * (k - off)] *)
Definition scaled (zero mult off : pynum) (k : Z) : pynum :=
  num_op Z.add (SFadd 53 1024) zero
    (num_op Z.mul (SFmul 53 1024) mult
       (num_op Z.sub (SFsub 53 1024) (PInt k) off)).

(** [zero + mult * (k - off) * 2] *)
Definition scaled_twice (zero mult off : pynum) (k : Z) : pynum :=
  num_op Z.add (SFadd 53 1024) zero
    (num_op Z.mul (SFmul 53 1024)
       (num_op Z.mul (SFmul 53 1024) mult
          (num_op Z.sub (SFsub 53 1024) (PInt k) off))
       (PInt 2)).

(** The number that two bytes are on 16 bits in two's complement, [hi]
    being the high byte. *)
Definition signed16 (hi lo : Z) : Z :=
  if hi <? 128 then 256 * hi + lo else 256 * hi + lo - 65536.

(** A number read as a float. *)
Definition is_float (a : pynum) : Prop :=
  match a with PFloat _ => True | PInt _ => False end.

(** The number as an array of element type [d] holds it: an [int] of a
    [float64] array is held as the nearest double, every other number as it
    is. *)
Definition held_as (d : dtype) (a : pynum) : pynum :=
  match d, a with
  | float64, PInt z => PFloat (nearest_double z)
  | _, _ => a
  end.

(** ** Auxiliary notions of the statements *)

Definition value_acc (a : Z) (ds : str) : Z :=
  fold_left (fun acc c => 10 * acc + (c - 48)) ds a.

(** The world after the first [read(511)]. *)
Definition after_header (file : list Byte.byte) (w : world) : world :=
  mkWorld (len (header_bytes file)) false (stdout w).

(** The digits of the byte count, as read from the file. *)
Definition count_digits (file : list Byte.byte) (loc kl nd : Z) : bytes :=
  file_bytes file (loc + kl + 1) nd.

(** The world after the digits of the byte count are read. *)
Definition after_digits (file : list Byte.byte) (loc kl nd : Z) (w : world) : world :=
  mkWorld (loc + kl + 1 + len (count_digits file loc kl nd)) false (stdout w).

(** The world after the two reads of the samples. *)
Definition after_samples (file : list Byte.byte) (size : Z) (w : world) : world :=
  let p1 := fpos w + len (file_bytes file (fpos w) size) in
  mkWorld (p1 + len (file_bytes file p1 size)) false (stdout w).

(** The world after [close()]. *)
Definition closed (w : world) : world := mkWorld (fpos w) true (stdout w).

(** The characters that a literal of an integer is made of. *)
Definition int_char (c : Z) : bool :=
  Py_ISSPACE c || Py_ISDIGIT c || (c =? 43) || (c =? 45) || (c =? UNDERSCORE).

Definition is_letter (c : Z) : bool :=
  ((65 <=? c) && (c <=? 90)) || ((97 <=? c) && (c <=? 122)).

(** The characters that a literal of a float is made of. *)
Definition float_char (c : Z) : bool :=
  Py_ISSPACE c || Py_ISDIGIT c || (c =? 43) || (c =? 45) || (c =? 46)
  || (c =? UNDERSCORE) || is_letter c.

(** The tags whose absence [isfread] (Python 3) cannot survive: those of the
    numbers, of the byte order and of the point format. *)
Definition checked_tags (t : tagset) : list str :=
  numeric_tags t ++ [t_byteorder t; t_pointformat t].

(** ** Sample files *)

(** A quoted string of a header. *)
Definition quoted (s : string) : str := [DQUOTE] ++ lit s ++ [DQUOTE].

(** The fields of a header in the current convention, but for the waveform
    identifier and the number of points. *)
Definition current_fields (order fmt : string) : str :=
  lit ":WFMP:BYT_N 2;BIT_N 16;ENC BIN;BN_F RI;BYT_O " ++ lit order
  ++ lit ";PT_F " ++ lit fmt
  ++ lit ";XUN " ++ quoted "s" ++ lit ";XIN 4.0E-9;XZE -1.0E-6;PT_O 0;YUN "
  ++ quoted "V" ++ lit ";YMU 2.0E-2;YOF -5.0E0;YZE 0.0E0;".

Definition wfid_field : str := lit "WFI " ++ quoted "Ch1, DC coupling" ++ lit ";".

(** The same fields in the legacy convention. *)
Definition legacy_fields (order fmt : string) : str :=
  lit ":WFMPRE:BYT_NR 2;BIT_NR 16;ENCDG BIN;BN_FMT RI;BYT_OR " ++ lit order
  ++ lit ";NR_PT 4;WFID " ++ quoted "Ch1, DC coupling"
  ++ lit ";PT_FMT " ++ lit fmt
  ++ lit ";XUNIT " ++ quoted "s" ++ lit ";XINCR 4.0E-9;XZERO -1.0E-6;PT_OFF 0;YUNIT "
  ++ quoted "V" ++ lit ";YMULT 2.0E-2;YOFF -5.0E0;YZERO 0.0E0;".

(** Four samples, high byte first: 10, -5, 0, 100. *)
Definition four_samples : bytes := [0; 10; 255; 251; 0; 0; 0; 100].

(** A file of four points in format Y. *)
Definition sample_Y : list Byte.byte :=
  file_of (current_fields "MSB" "Y" ++ wfid_field ++ lit "NR_P 4;"
           ++ lit ":CURV #18" ++ four_samples).

(** A file of three points in format ENV. *)
Definition sample_ENV_odd : list Byte.byte :=
  file_of (current_fields "MSB" "ENV" ++ wfid_field ++ lit "NR_P 3;"
           ++ lit ":CURV #16" ++ [0; 10; 255; 251; 0; 0]).

(** A file that says nine bytes for four points. *)
Definition sample_mismatch : list Byte.byte :=
  file_of (current_fields "MSB" "Y" ++ wfid_field ++ lit "NR_P 4;"
           ++ lit ":CURV #19" ++ four_samples ++ [0]).


(** A file with a byte order that is not known. *)
Definition sample_bad_order : list Byte.byte :=
  file_of (current_fields "PDP" "Y" ++ wfid_field ++ lit "NR_P 4;"
           ++ lit ":CURV #18" ++ four_samples).

(** A file with a point format that is not known. *)
Definition sample_bad_format : list Byte.byte :=
  file_of (current_fields "MSB" "XY" ++ wfid_field ++ lit "NR_P 4;"
           ++ lit ":CURV #18" ++ four_samples).

(** A file without the tag of the waveform identifier. *)
Definition sample_no_wfid : list Byte.byte :=
  file_of (current_fields "MSB" "Y" ++ lit "NR_P 4;"
           ++ lit ":CURV #18" ++ four_samples).

(** A file without the tag of the number of points. *)
Definition sample_no_npts : list Byte.byte :=
  file_of (current_fields "MSB" "Y" ++ wfid_field
           ++ lit ":CURV #18" ++ four_samples).

(** A legacy file in format ENV, which the Python 2 script does not support. *)
Definition sample_legacy_ENV : list Byte.byte :=
  file_of (legacy_fields "MSB" "ENV" ++ lit ":CURVE #18" ++ four_samples).


(** A legacy file in format Y that says nine bytes for four points. *)
Definition sample_legacy_mismatch : list Byte.byte :=
  file_of (legacy_fields "MSB" "Y" ++ lit ":CURVE #19" ++ four_samples ++ [0]).

(** The built-ins given to the Python 2 script in the examples. *)
Definition python2_example : builtins :=
  {| py_int := int_ascii; py_float := float_ascii;
     py_lstrip := lstrip_by Py_ISSPACE |}.

(** A file whose header says four points below zero. *)
Definition sample_negative_count : list Byte.byte :=
  file_of (current_fields "MSB" "Y" ++ wfid_field ++ lit "NR_P -4;"
           ++ lit ":CURV #18" ++ four_samples).

(** The file [sample_Y] without its last sample. *)
Definition sample_truncated : list Byte.byte :=
  file_of (current_fields "MSB" "Y" ++ wfid_field ++ lit "NR_P 4;"
           ++ lit ":CURV #18" ++ [0; 10; 255; 251; 0; 0]).

(** A file that ends with its marker. *)
Definition sample_marker_at_end : list Byte.byte :=
  file_of (current_fields "MSB" "Y" ++ wfid_field ++ lit "NR_P 4;"
           ++ lit ":CURV #").

(** A file with a letter where the number of digits is expected. *)
Definition sample_no_digit_count : list Byte.byte :=
  file_of (current_fields "MSB" "Y" ++ wfid_field ++ lit "NR_P 4;"
           ++ lit ":CURV #X8" ++ four_samples).

(** A file whose unit of the ordinate is written in Latin-1: the byte 181,
    the micro sign, before the [V]. *)
Definition sample_latin1 : list Byte.byte :=
  file_of (lit ":WFMP:BYT_N 2;BIT_N 16;ENC BIN;BN_F RI;BYT_O MSB;PT_F Y;YUN "
           ++ [DQUOTE; 181; 86; DQUOTE]
           ++ lit ";XUN " ++ quoted "s"
           ++ lit ";XIN 4.0E-9;XZE -1.0E-6;PT_O 0;YMU 2.0E-2;YOF -5.0E0;YZE 0.0E0;"
           ++ wfid_field ++ lit "NR_P 4;" ++ lit ":CURV #18" ++ four_samples).

(** A legacy file in format Y. *)
Definition sample_legacy_Y : list Byte.byte :=
  file_of (legacy_fields "MSB" "Y" ++ lit ":CURVE #18" ++ four_samples).

(** A legacy header in format Y and no marker after it. *)
Definition sample_legacy_no_marker : list Byte.byte :=
  file_of (legacy_fields "MSB" "Y" ++ four_samples).

(** A file of four points in format ENV. *)
Definition sample_ENV_even : list Byte.byte :=
  file_of (current_fields "MSB" "ENV" ++ wfid_field ++ lit "NR_P 4;"
           ++ lit ":CURV #18" ++ four_samples).

(** The file [sample_Y] with the low byte of each sample first. *)
Definition sample_Y_LSB : list Byte.byte :=
  file_of (current_fields "LSB" "Y" ++ wfid_field ++ lit "NR_P 4;"
           ++ lit ":CURV #18" ++ four_samples).



(** The part of the header that the block is read and converted with. *)
Definition decoding_fields (h : header)
    : str * str * pynum * (pynum * pynum * pynum) * (pynum * pynum * pynum) :=
  (byteorder h, pointformat h, npts h,
   (xzero h, xincr h, ptoff h), (ymult h, yzero h, yoff h)).

(** The exceptions that [isfread] (Python 3) can end in: those of the code's
    own calls, and the one of [numpy.array] since NumPy 1.24. *)
Definition raised_by_isfread (numpy : numpy_version) (e : exn) : Prop :=
  e = SystemExit isfread_py3.no_marker
  \/ e = SystemExit isfread_py3.byte_count_mismatch
  \/ e = SystemExit isfread_py3.bad_point_format
  \/ e = IndexError
  \/ e = invalid_int
  \/ e = invalid_float
  \/ e = UnicodeDecodeError
  \/ (exists k, e = KeyError k)
  \/ e = struct_error
  \/ e = OverflowError
  \/ (numpy = numpy_from_1_24 /\ e = inhomogeneous).

(** A float, or an integer that a double holds exactly. *)
Definition float_or_exact (a : pynum) : Prop :=
  match a with PFloat _ => True | PInt z => - 2 ^ 53 < z < 2 ^ 53 end.

(** A float, or an integer below [2 ^ 52] in absolute value. *)
Definition float_or_small (a : pynum) : Prop :=
  match a with PFloat _ => True | PInt z => - 2 ^ 52 < z < 2 ^ 52 end.

(** * Properties *)

(** ** Lists, indices *)

Lemma len_nonneg {A : Type} (l : list A) : 0 <= len l.
Proof. unfold len. lia. Qed.

Lemma len_app {A : Type} (a b : list A) : len (a ++ b) = len a + len b.
Proof. unfold len. rewrite length_app. lia. Qed.

Lemma len_cons {A : Type} (x : A) (l : list A) : len (x :: l) = 1 + len l.
Proof. unfold len. cbn [List.length]. lia. Qed.

Lemma len_nil {A : Type} : len (@nil A) = 0.
Proof. reflexivity. Qed.

Lemma len_map {A B : Type} (f : A -> B) (l : list A) : len (map f l) = len l.
Proof. unfold len. now rewrite length_map. Qed.

Lemma len_firstn {A : Type} (n : Z) (l : list A) :
  0 <= n -> len (firstn (Z.to_nat n) l) = Z.min n (len l).
Proof. intros Hn. unfold len. rewrite length_firstn. lia. Qed.

Lemma len_skipn {A : Type} (n : Z) (l : list A) :
  0 <= n -> len (skipn (Z.to_nat n) l) = Z.max 0 (len l - n).
Proof. intros Hn. unfold len. rewrite length_skipn. lia. Qed.

Lemma skipn_app_exact {A : Type} (a b : list A) :
  skipn (List.length a) (a ++ b) = b.
Proof. induction a; simpl; auto. Qed.

Lemma firstn_app_exact {A : Type} (a b : list A) :
  firstn (List.length a) (a ++ b) = a.
Proof. induction a; simpl; congruence. Qed.

(** ** [startswith] and [find] *)

Lemma startswith_iff (sub s : str) :
  startswith sub s = true <-> firstn (List.length sub) s = sub.
Proof.
  revert s. induction sub as [|a sub IH]; intros s; simpl.
  - split; auto.
  - destruct s as [|b s]; simpl.
    + split; discriminate.
    + rewrite andb_true_iff, Z.eqb_eq, IH. split.
      * intros [-> ->]. reflexivity.
      * intros H. injection H as -> H. auto.
Qed.

Lemma startswith_app (sub rest : str) : startswith sub (sub ++ rest) = true.
Proof. apply startswith_iff. apply firstn_app_exact. Qed.

Lemma occurs_at_iff (sub s : str) (i : Z) :
  occurs_at sub s i <-> 0 <= i /\ startswith sub (skipn (Z.to_nat i) s) = true.
Proof. unfold occurs_at. now rewrite startswith_iff. Qed.

Lemma find_from_unfold (sub s : str) (i : Z) :
  find_from sub s i =
  if startswith sub s then i
  else match s with
       | [] => -1
       | _ :: s' => find_from sub s' (i + 1)
       end.
Proof. destruct s; reflexivity. Qed.

(** The scan stops at the first index where [sub] starts. *)
Lemma find_from_first (sub : str) (k : nat) :
  forall (s : str) (i : Z),
    startswith sub (skipn k s) = true ->
    (forall j, (j < k)%nat -> startswith sub (skipn j s) = false) ->
    find_from sub s i = i + Z.of_nat k.
Proof.
  induction k as [|k IH]; intros s i Hk Hbefore.
  - rewrite find_from_unfold. simpl in Hk. rewrite Hk. lia.
  - rewrite find_from_unfold.
    pose proof (Hbefore 0%nat ltac:(lia)) as H0. simpl in H0. rewrite H0.
    destruct s as [|c s].
    + simpl in Hk. rewrite Hk in H0. discriminate.
    + rewrite IH.
      * lia.
      * exact Hk.
      * intros j Hj. apply (Hbefore (S j)). lia.
Qed.

(** Either the scan finds nothing, or it stops at the first occurrence. *)
Lemma find_from_cases (sub : str) :
  forall (s : str) (i : Z),
    0 <= i ->
    (find_from sub s i = -1 /\ forall j, startswith sub (skipn j s) = false)
    \/ (exists k, find_from sub s i = i + Z.of_nat k
                  /\ (k <= List.length s)%nat
                  /\ startswith sub (skipn k s) = true
                  /\ forall j, (j < k)%nat -> startswith sub (skipn j s) = false).
Proof.
  induction s as [|c s IH]; intros i Hi; rewrite find_from_unfold.
  - destruct (startswith sub []) eqn:E.
    + right. exists 0%nat. simpl. repeat split; auto; try lia.
    + left. split; auto. intros j. now rewrite skipn_nil.
  - destruct (startswith sub (c :: s)) eqn:E.
    + right. exists 0%nat. simpl. repeat split; auto; try lia.
    + destruct (IH (i + 1)) as [[Hf Hn] | [k [Hf [Hk [Hs Hb]]]]]; [lia | |].
      * left. split; auto. intros [|j]; simpl; auto.
      * right. exists (S k). simpl. repeat split; auto; try lia.
        intros [|j] Hj; simpl; auto. apply Hb. lia.
Qed.

Lemma find_zero (s sub : str) : find s sub 0 = find_from sub s 0.
Proof.
  unfold find. simpl.
  destruct (len s <? 0) eqn:E.
  - apply Z.ltb_lt in E. pose proof (len_nonneg s). lia.
  - reflexivity.
Qed.

(** [s.find(sub)] is -1 exactly when [sub] does not occur. *)
Lemma find_absent (s sub : str) : find s sub 0 = -1 <-> absent sub s.
Proof.
  rewrite find_zero. split.
  - intros H i Ho. apply occurs_at_iff in Ho as [Hi Ho].
    destruct (find_from_cases sub s 0) as [[_ Hn] | [k [Hf _]]]; [lia | |].
    + rewrite Hn in Ho. discriminate.
    + lia.
  - intros H.
    destruct (find_from_cases sub s 0) as [[Hf _] | [k [_ [_ [Hs _]]]]]; [lia | auto |].
    exfalso. apply (H (Z.of_nat k)). rewrite occurs_at_iff.
    rewrite Nat2Z.id. split; [lia | exact Hs].
Qed.

(** Otherwise it is the index of the first occurrence. *)
Lemma find_first (s sub : str) (i : Z) :
  find s sub 0 = i -> i <> -1 -> first_at sub s i.
Proof.
  rewrite find_zero. intros H Hi.
  destruct (find_from_cases sub s 0) as [[Hf _] | [k [Hf [_ [Hs Hb]]]]]; [lia | lia |].
  assert (Hik : i = Z.of_nat k) by lia. clear H Hf Hi. subst i. split.
  - rewrite occurs_at_iff, Nat2Z.id. split; [lia | exact Hs].
  - intros j Hj Ho. apply occurs_at_iff in Ho as [Hj0 Ho].
    rewrite Hb in Ho by lia. discriminate.
Qed.

Lemma first_at_find (s sub : str) (i : Z) :
  first_at sub s i -> find s sub 0 = i.
Proof.
  intros [Ho Hb]. apply occurs_at_iff in Ho as [Hi Ho].
  rewrite find_zero.
  rewrite (find_from_first sub (Z.to_nat i)); [lia | exact Ho |].
  intros j Hj. destruct (startswith sub (skipn j s)) eqn:E; auto.
  exfalso. apply (Hb (Z.of_nat j)); [lia |].
  rewrite occurs_at_iff, Nat2Z.id. split; [lia | exact E].
Qed.

Lemma find_range (s sub : str) : find s sub 0 = -1 \/ 0 <= find s sub 0 <= len s.
Proof.
  rewrite find_zero.
  destruct (find_from_cases sub s 0) as [[Hf _] | [k [Hf [Hk _]]]]; [lia | auto |].
  right. unfold len. lia.
Qed.

(** ** The monads *)

Lemma inr_inj {A B : Type} (x y : B) : @inr A B x = inr y -> x = y.
Proof. congruence. Qed.

Lemma rbind_ok {A B : Type} (c : res A) (k : A -> res B) (v : B) :
  rbind c k = inr v -> exists a, c = inr a /\ k a = inr v.
Proof. destruct c as [e|a]; simpl; [discriminate | eauto]. Qed.

Lemma rbind_err {A B : Type} (c : res A) (k : A -> res B) (e : exn) :
  c = inl e -> rbind c k = inl e.
Proof. now intros ->. Qed.

Lemma bind_ok {A B : Type} (c : M A) (k : A -> M B) (w w' : world) (v : B) :
  bind c k w = (inr v, w') ->
  exists a w1, c w = (inr a, w1) /\ k a w1 = (inr v, w').
Proof.
  unfold bind. destruct (c w) as [[e|a] w1]; [discriminate | eauto].
Qed.

Lemma bind_step {A B : Type} (c : M A) (k : A -> M B) (w w1 : world) (a : A) :
  c w = (inr a, w1) -> bind c k w = k a w1.
Proof. unfold bind. now intros ->. Qed.

Lemma bind_fail {A B : Type} (c : M A) (k : A -> M B) (w w1 : world) (e : exn) :
  c w = (inl e, w1) -> bind c k w = (inl e, w1).
Proof. unfold bind. now intros ->. Qed.

Lemma lift_ok {A : Type} (c : res A) (w w' : world) (v : A) :
  lift c w = (inr v, w') -> c = inr v /\ w' = w.
Proof. unfold lift. intros H. injection H as -> ->. auto. Qed.

(** A computation either raises or returns. *)
Lemma run_cases {A : Type} (c : M A) (w : world) :
  (exists e w', c w = (inl e, w')) \/ (exists a w', c w = (inr a, w')).
Proof. destruct (c w) as [[e|a] w']; eauto. Qed.

Lemma bind_fails_later {A B : Type} (c : M A) (k : A -> M B) (w : world) :
  (forall a w1, c w = (inr a, w1) -> exists e w', k a w1 = (inl e, w')) ->
  exists e w', bind c k w = (inl e, w').
Proof.
  intros H. unfold bind. destruct (c w) as [[e|a] w1]; eauto.
Qed.

(** *** The file *)

Lemma read_run (file : list Byte.byte) (n : Z) (w : world) :
  fclosed w = false -> 0 <= n ->
  read file n w =
  (inr (file_bytes file (fpos w) n),
   mkWorld (fpos w + len (file_bytes file (fpos w) n)) false (stdout w)).
Proof.
  intros Hc Hn. unfold read, file_bytes. rewrite Hc.
  destruct (n <? 0) eqn:E; [apply Z.ltb_lt in E; lia |].
  now rewrite len_map.
Qed.

Lemma read_closed (file : list Byte.byte) (n : Z) (w : world) :
  fclosed w = true -> read file n w = (inl closed_file, w).
Proof. intros Hc. unfold read. now rewrite Hc. Qed.

Lemma seek_run (p : Z) (w : world) :
  fclosed w = false -> 0 <= p ->
  seek p w = (inr tt, mkWorld p false (stdout w)).
Proof.
  intros Hc Hp. unfold seek. rewrite Hc.
  destruct (p <? 0) eqn:E; [apply Z.ltb_lt in E; lia | reflexivity].
Qed.

Lemma seek_closed (p : Z) (w : world) :
  fclosed w = true -> seek p w = (inl closed_file, w).
Proof. intros Hc. unfold seek. now rewrite Hc. Qed.

Lemma file_bytes_header (file : list Byte.byte) :
  file_bytes file 0 511 = header_bytes file.
Proof. reflexivity. Qed.

Lemma len_file_bytes (file : list Byte.byte) (start n : Z) :
  0 <= start -> 0 <= n ->
  len (file_bytes file start n) = Z.min n (Z.max 0 (len file - start)).
Proof.
  intros Hs Hn. unfold file_bytes.
  now rewrite len_map, len_firstn, len_skipn.
Qed.

Lemma byte_val_range (b : Byte.byte) : 0 <= byte_val b < 256.
Proof.
  unfold byte_val. pose proof (Byte.to_N_bounded b). lia.
Qed.

(** ** Comprehensions *)

Lemma mapM_length {A B : Type} (f : A -> res B) :
  forall (l : list A) (ys : list B),
    mapM f l = inr ys -> List.length ys = List.length l.
Proof.
  induction l as [|x l IH]; intros ys H; simpl in H.
  - injection H as <-. reflexivity.
  - apply rbind_ok in H as (y & Hy & H).
    apply rbind_ok in H as (ys' & Hys & H).
    injection H as <-. simpl. f_equal. auto.
Qed.

Lemma mapM_nth {A B : Type} (f : A -> res B) :
  forall (l : list A) (ys : list B) (i : nat) (x : A),
    mapM f l = inr ys -> nth_error l i = Some x ->
    exists y, nth_error ys i = Some y /\ f x = inr y.
Proof.
  induction l as [|x0 l IH]; intros ys i x H Hx; simpl in H.
  - destruct i; discriminate.
  - apply rbind_ok in H as (y & Hy & H).
    apply rbind_ok in H as (ys' & Hys & H).
    injection H as <-.
    destruct i as [|i]; simpl in *.
    + injection Hx as <-. eauto.
    + eauto.
Qed.

Lemma range_length (n : Z) : List.length (range n) = Z.to_nat n.
Proof. unfold range. now rewrite length_map, length_seq. Qed.

Lemma range_nth (n : Z) (i : nat) :
  (i < Z.to_nat n)%nat -> nth_error (range n) i = Some (Z.of_nat i).
Proof.
  intros Hi. unfold range.
  rewrite nth_error_map, nth_error_seq.
  destruct (Nat.ltb_spec i (Z.to_nat n)); [reflexivity | lia].
Qed.

(** ** Comparison of strings *)

Lemma str_eqb_eq (a b : str) : str_eqb a b = true <-> a = b.
Proof.
  revert b. induction a as [|x a IH]; intros [|y b]; simpl;
    try (split; [discriminate | discriminate]); try tauto.
  rewrite andb_true_iff, Z.eqb_eq, IH. split.
  - intros [-> ->]. reflexivity.
  - intros H. injection H as -> ->. auto.
Qed.

Lemma str_compare_eq (a b : str) : str_compare a b = Eq <-> a = b.
Proof.
  revert b. induction a as [|x a IH]; intros [|y b]; simpl;
    try (split; [discriminate | discriminate]); try tauto.
  destruct (x ?= y) eqn:E.
  - apply Z.compare_eq in E. subst y. rewrite IH. split.
    + now intros ->.
    + intros H. injection H as ->. reflexivity.
  - split; [discriminate |]. intros H. injection H as -> _.
    rewrite Z.compare_refl in E. discriminate.
  - split; [discriminate |]. intros H. injection H as -> _.
    rewrite Z.compare_refl in E. discriminate.
Qed.

(** [cmp(a, b) == 0] says that the two strings are equal. *)
Lemma cmp_zero (a b : str) : (cmp a b =? 0) = true <-> a = b.
Proof.
  rewrite Z.eqb_eq, <- str_compare_eq. unfold cmp, str_gt, str_lt.
  destruct (str_compare a b); simpl; split; intros H; try reflexivity;
    try discriminate; try lia.
Qed.

Lemma cmp_nonzero (a b : str) : (cmp a b =? 0) = false <-> a <> b.
Proof.
  rewrite <- cmp_zero. destruct (cmp a b =? 0); split; congruence.
Qed.

(** ** [dict_endian] *)

Lemma dict_endian_cases (k : str) :
  (k = lit "MSB" /\ dict_get dict_endian k = inr [GREATER])
  \/ (k = lit "LSB" /\ dict_get dict_endian k = inr [LESS])
  \/ (k <> lit "MSB" /\ k <> lit "LSB"
      /\ dict_get dict_endian k = inl (KeyError k)).
Proof.
  unfold dict_endian, dict_get.
  destruct (str_eqb k (lit "MSB")) eqn:E1.
  - left. apply str_eqb_eq in E1. auto.
  - destruct (str_eqb k (lit "LSB")) eqn:E2.
    + right; left. apply str_eqb_eq in E2. auto.
    + right; right. repeat split; auto.
      * intros H. apply str_eqb_eq in H. congruence.
      * intros H. apply str_eqb_eq in H. congruence.
Qed.

(** ** The decimal text of a count, and [struct] *)

Lemma digits_value_acc (ds : str) : digits_value ds = value_acc 0 ds.
Proof. reflexivity. Qed.

Lemma value_acc_app (a : Z) (x y : str) :
  value_acc a (x ++ y) = value_acc (value_acc a x) y.
Proof. unfold value_acc. apply fold_left_app. Qed.

Lemma value_acc_mono (ds : str) :
  Forall (fun c => Py_ISDIGIT c = true) ds ->
  forall a, 0 <= a -> a <= value_acc a ds.
Proof.
  induction 1 as [|d ds Hd _ IH]; intros a Ha.
  - unfold value_acc. simpl. lia.
  - unfold Py_ISDIGIT in Hd. apply andb_true_iff in Hd as [H1 H2].
    apply Z.leb_le in H1, H2.
    change (value_acc a (d :: ds)) with (value_acc (10 * a + (d - 48)) ds).
    specialize (IH (10 * a + (d - 48)) ltac:(lia)). lia.
Qed.

Lemma dec_digits_app (fuel : nat) :
  forall n acc, dec_digits fuel n acc = dec_digits fuel n [] ++ acc.
Proof.
  induction fuel as [|f IH]; intros n acc; cbn [dec_digits].
  - reflexivity.
  - destruct (n <? 10).
    + reflexivity.
    + rewrite IH. rewrite (IH (n / 10) [48 + n mod 10]).
      now rewrite <- app_assoc.
Qed.

Lemma dec_digits_digits (fuel : nat) :
  forall n, 0 <= n ->
    Forall (fun c => Py_ISDIGIT c = true) (dec_digits fuel n []).
Proof.
  assert (Hd : forall n, Py_ISDIGIT (48 + n mod 10) = true).
  { intros n. unfold Py_ISDIGIT. pose proof (Z.mod_pos_bound n 10). lia. }
  induction fuel as [|f IH]; intros n Hn; cbn [dec_digits].
  - constructor.
  - destruct (n <? 10).
    + constructor; [apply Hd | constructor].
    + rewrite dec_digits_app. apply Forall_app. split.
      * apply IH. apply Z.div_pos; lia.
      * constructor; [apply Hd | constructor].
Qed.

Lemma dec_digits_nonempty (fuel : nat) (n : Z) :
  dec_digits (S fuel) n [] <> [].
Proof.
  cbn [dec_digits]. destruct (n <? 10); [discriminate |].
  rewrite dec_digits_app. intros H. apply app_eq_nil in H as [_ H]. discriminate.
Qed.

Lemma dec_digits_value (fuel : nat) :
  forall n, 0 <= n -> n < 10 ^ Z.of_nat fuel ->
    value_acc 0 (dec_digits fuel n []) = n.
Proof.
  induction fuel as [|f IH]; intros n Hn Hlt.
  - simpl in Hlt. simpl. lia.
  - cbn [dec_digits]. destruct (n <? 10) eqn:E.
    + apply Z.ltb_lt in E. unfold value_acc. cbn [fold_left].
      rewrite Z.mod_small by lia. lia.
    + apply Z.ltb_ge in E.
      rewrite dec_digits_app, value_acc_app, IH.
      * unfold value_acc. cbn [fold_left]. pose proof (Z.div_mod n 10). lia.
      * apply Z.div_pos; lia.
      * rewrite Nat2Z.inj_succ, Z.pow_succ_r in Hlt by lia.
        apply Z.div_lt_upper_bound; lia.
Qed.

Lemma enough_fuel (n : Z) :
  0 <= n -> n < 10 ^ Z.of_nat (S (Z.to_nat (Z.log2 n))).
Proof.
  intros Hn. rewrite Nat2Z.inj_succ, Z2Nat.id by apply Z.log2_nonneg.
  destruct (Z.eq_dec n 0) as [-> | Hz].
  - simpl. lia.
  - pose proof (Z.log2_spec n ltac:(lia)) as [_ H].
    eapply Z.lt_le_trans; [exact H |].
    apply Z.pow_le_mono_l. lia.
Qed.

(** The text of a count that is not negative: digits, one at least, whose
    value is the count. *)
Lemma str_int_nonneg (n : Z) :
  0 <= n ->
  exists d ds,
    str_int n = d :: ds
    /\ Forall (fun c => Py_ISDIGIT c = true) (d :: ds)
    /\ value_acc 0 (d :: ds) = n.
Proof.
  intros Hn. unfold str_int.
  destruct (n <? 0) eqn:E; [apply Z.ltb_lt in E; lia |].
  pose proof (dec_digits_nonempty (Z.to_nat (Z.log2 n)) n) as Hne.
  pose proof (dec_digits_digits (S (Z.to_nat (Z.log2 n))) n Hn) as Hd.
  pose proof (dec_digits_value (S (Z.to_nat (Z.log2 n))) n Hn (enough_fuel n Hn)) as Hv.
  destruct (dec_digits (S (Z.to_nat (Z.log2 n))) n []) as [|d ds]; [congruence |].
  eauto.
Qed.

Lemma str_int_neg (n : Z) : n < 0 -> exists ds, str_int n = 45 :: ds.
Proof.
  intros Hn. unfold str_int.
  destruct (n <? 0) eqn:E; [eauto | apply Z.ltb_ge in E; lia].
Qed.

Lemma digit_not_space (c : Z) : Py_ISDIGIT c = true -> Py_ISSPACE c = false.
Proof. unfold Py_ISDIGIT, Py_ISSPACE. lia. Qed.

(** The repeat count of an item is read digit by digit. *)
Lemma prepare_s_count (ds : str) :
  Forall (fun c => Py_ISDIGIT c = true) ds ->
  forall (a size : Z) (c : Z) (rest : str),
    Py_ISDIGIT c = false ->
    0 <= a <= PY_SSIZE_T_MAX ->
    prepare_s (ds ++ c :: rest) (Some a) size =
    if PY_SSIZE_T_MAX <? value_acc a ds then inl struct_error
    else prepare_s (c :: rest) (Some (value_acc a ds)) size.
Proof.
  induction 1 as [|d ds Hd Hds IH]; intros a size c rest Hc Ha.
  - cbn [app value_acc fold_left].
    destruct (PY_SSIZE_T_MAX <? a) eqn:E; [apply Z.ltb_lt in E; lia | reflexivity].
  - cbn [app prepare_s]. rewrite Hd.
    assert (Hd' : 0 <= d - 48 <= 9) by (unfold Py_ISDIGIT in Hd; lia).
    replace (value_acc a (d :: ds)) with (value_acc (a * 10 + (d - 48)) ds)
      by (unfold value_acc; cbn [fold_left]; f_equal; lia).
    destruct (PY_SSIZE_T_MAX <? a * 10 + (d - 48)) eqn:E.
    + apply Z.ltb_lt in E.
      pose proof (value_acc_mono ds Hds (a * 10 + (d - 48)) ltac:(lia)).
      destruct (PY_SSIZE_T_MAX <? value_acc (a * 10 + (d - 48)) ds) eqn:E2;
        [reflexivity | apply Z.ltb_ge in E2; lia].
    + apply Z.ltb_ge in E. apply IH; [exact Hc | lia].
Qed.

(** The size of the format that [isfread] builds for [n] points. *)
Lemma calcsize_fmt (order : Z) (n : Z) :
  order = LESS \/ order = GREATER ->
  calcsize ([order] ++ str_int n ++ lit "h") =
  if (n <? 0) || (PY_SSIZE_T_MAX / 2 <? n) then inl struct_error
  else inr (2 * n).
Proof.
  intros Ho.
  assert (Hm : calcsize ([order] ++ str_int n ++ lit "h")
               = prepare_s (str_int n ++ lit "h") None 0).
  { destruct Ho as [-> | ->]; reflexivity. }
  rewrite Hm. clear Hm Ho.
  destruct (n <? 0) eqn:En.
  - apply Z.ltb_lt in En. destruct (str_int_neg n En) as [ds ->]. reflexivity.
  - apply Z.ltb_ge in En.
    destruct (str_int_nonneg n En) as (d & ds & -> & Hd & Hv).
    inversion Hd as [|? ? Hd1 Hds]; subst.
    cbn [app prepare_s orb]. rewrite (digit_not_space d Hd1), Hd1.
    change (lit "h") with [104].
    assert (Hd' : 0 <= d - 48 <= 9) by (unfold Py_ISDIGIT in Hd1; lia).
    rewrite prepare_s_count; [| exact Hds | reflexivity | unfold PY_SSIZE_T_MAX; lia].
    replace (value_acc (d - 48) ds) with (value_acc 0 (d :: ds))
      by (unfold value_acc; cbn [fold_left]; f_equal; lia).
    set (v := value_acc 0 (d :: ds)) in *.
    assert (Hv0 : 0 <= v).
    { unfold v. apply (value_acc_mono (d :: ds) Hd 0). lia. }
    destruct (PY_SSIZE_T_MAX <? v) eqn:E1.
    + apply Z.ltb_lt in E1.
      destruct (PY_SSIZE_T_MAX / 2 <? v) eqn:E2; [reflexivity |].
      apply Z.ltb_ge in E2. unfold PY_SSIZE_T_MAX in *.
      change ((2 ^ 63 - 1) / 2) with 4611686018427387903 in E2. lia.
    + cbn [prepare_s Py_ISDIGIT]. change (Py_ISDIGIT 104) with false.
      cbn [format_size]. rewrite Z.sub_0_r, Z.add_0_l.
      destruct (PY_SSIZE_T_MAX / 2 <? v); [reflexivity | f_equal; lia].
Qed.

Lemma span_digits (ds : str) (c : Z) (rest : str) :
  Forall (fun c => Py_ISDIGIT c = true) ds -> Py_ISDIGIT c = false ->
  span Py_ISDIGIT (ds ++ c :: rest) = (ds, c :: rest).
Proof.
  intros Hds Hc. induction Hds as [|d ds Hd _ IH]; simpl.
  - now rewrite Hc.
  - now rewrite Hd, IH.
Qed.

Lemma only_h_fmt (n : Z) : 0 <= n -> only_h (str_int n ++ lit "h") = true.
Proof.
  intros Hn. destruct (str_int_nonneg n Hn) as (d & ds & -> & Hd & _).
  unfold only_h. change (lit "h") with [104].
  rewrite span_digits; [reflexivity | exact Hd | reflexivity].
Qed.

Lemma unpack_h_length (big : bool) :
  forall (b : bytes) (n : Z), len b = 2 * n -> len (unpack_h big b) = n.
Proof.
  intros b. remember (List.length b) as k eqn:Hk. revert b Hk.
  induction k as [k IH] using lt_wf_ind. intros b Hk n Hn.
  destruct b as [|x [|y r]].
  - cbn [unpack_h]. rewrite len_nil in *. lia.
  - rewrite len_cons, len_nil in Hn. lia.
  - cbn [unpack_h]. rewrite len_cons. rewrite !len_cons in Hn.
    rewrite (IH (List.length r)) with (n := n - 1); try lia; auto.
    cbn [List.length] in Hk. lia.
Qed.

(** Unpacking the format of [n] points: the buffer must hold [2 n] bytes. *)
Lemma unpack_fmt (order : Z) (n : Z) (buffer : bytes) :
  order = LESS \/ order = GREATER ->
  unpack ([order] ++ str_int n ++ lit "h") buffer =
  if (n <? 0) || (PY_SSIZE_T_MAX / 2 <? n) then inl struct_error
  else if len buffer =? 2 * n then inr (unpack_h (order =? GREATER) buffer)
  else inl struct_error.
Proof.
  intros Ho. unfold unpack. rewrite (calcsize_fmt order n Ho).
  destruct (n <? 0) eqn:En; [reflexivity |]. simpl orb.
  destruct (PY_SSIZE_T_MAX / 2 <? n); [reflexivity |].
  cbn [rbind app]. apply Z.ltb_ge in En. now rewrite only_h_fmt.
Qed.

(** What a sample is: the two bytes as a 16-bit two's complement number. *)
Lemma int16_spec (hi lo : Z) :
  0 <= hi < 256 -> 0 <= lo < 256 ->
  int16 hi lo =
  if hi * 256 + lo <? 32768 then hi * 256 + lo else hi * 256 + lo - 65536.
Proof.
  intros Hh Hl. unfold int16.
  assert (Hu : Z.lor (Z.shiftl hi 8) lo = hi * 256 + lo).
  { rewrite Z.shiftl_mul_pow2 by lia. change (2 ^ 8) with 256.
    assert (Hland : Z.land (hi * 256) lo = 0).
    { apply Z.bits_inj_0. intros k. rewrite Z.land_spec.
      destruct (Z.ltb_spec k 8).
      - destruct (Z.ltb_spec k 0).
        + now rewrite Z.testbit_neg_r.
        + replace 256 with (2 ^ 8) by reflexivity.
          rewrite Z.mul_pow2_bits_low by lia. reflexivity.
      - rewrite (Z.bits_above_log2 lo k); [apply andb_false_r | lia |].
        destruct (Z.eq_dec lo 0) as [-> | Hz]; [simpl; lia |].
        apply Z.log2_lt_pow2; [lia |].
        eapply Z.lt_le_trans with (m := 2 ^ 8); [simpl; lia |].
        apply Z.pow_le_mono_r; lia. }
    rewrite <- (Z.lxor_lor _ _ Hland), <- (Z.add_nocarry_lxor _ _ Hland).
    reflexivity. }
  rewrite Hu. set (u := hi * 256 + lo). assert (0 <= u < 65536) by (unfold u; lia).
  rewrite Z.testbit_eqb by lia. change (2 ^ 15) with 32768.
  destruct (Z.ltb_spec u 32768).
  - rewrite Z.div_small by lia. reflexivity.
  - assert (Hq : u / 32768 = 1)
      by (symmetry; apply Z.div_unique with (r := u - 32768); lia).
    rewrite Hq. reflexivity.
Qed.

(** ** The sign, and [int()] of one character *)

Lemma take_sign_cases (s : str) :
  (exists r, s = 45 :: r /\ take_sign s = (true, r))
  \/ (exists r, s = 43 :: r /\ take_sign s = (false, r))
  \/ (take_sign s = (false, s)
      /\ forall c r, s = c :: r -> c <> 45 /\ c <> 43).
Proof.
  destruct s as [|c r].
  - right; right. split; [reflexivity | discriminate].
  - destruct (Z.eq_dec c 45) as [-> | H45]; [left; eauto |].
    destruct (Z.eq_dec c 43) as [-> | H43]; [right; left; eauto |].
    right; right. split.
    + unfold take_sign.
      destruct c as [|p|p]; try reflexivity.
      do 6 (destruct p as [p|p|]; try reflexivity); congruence.
    + intros c' r' H. injection H as <- <-. auto.
Qed.

Lemma int_ascii_single (c v : Z) :
  int_ascii [c] = inr v -> Py_ISDIGIT c = true /\ v = c - 48.
Proof.
  unfold int_ascii. cbn [lstrip_by].
  destruct (Py_ISSPACE c) eqn:Es.
  - cbn. discriminate.
  - destruct (take_sign_cases [c]) as [(r & Hr & ->) | [(r & Hr & ->) | (-> & Hc)]].
    + injection Hr as -> <-. cbn. discriminate.
    + injection Hr as -> <-. cbn. discriminate.
    + cbn [span]. destruct (Py_ISDIGIT c) eqn:Ed.
      * cbn [orb strip_underscores].
        replace (c =? UNDERSCORE) with false
          by (unfold Py_ISDIGIT, UNDERSCORE in *; lia).
        cbn. intros H. injection H as <-. split; [reflexivity | lia].
      * cbn [orb]. destruct (c =? UNDERSCORE) eqn:Eu.
        -- cbn [strip_underscores]. rewrite Eu. cbn. discriminate.
        -- cbn. discriminate.
Qed.

Lemma transform_single (todecimal : Z -> option Z) (b : Z) :
  exists c, transform_decimal_and_space todecimal [b] = [c].
Proof.
  cbn [transform_decimal_and_space].
  destruct (b <? 127); [eauto |].
  destruct (Py_UNICODE_ISSPACE b); [eauto |].
  destruct (todecimal b) as [d|]; [| eauto].
  destruct ((0 <=? d) && (d <=? 9)); eauto.
Qed.

(** The number of digits of the byte count is a single digit. *)
Lemma int_of_char_range (todecimal : Z -> option Z) (b nd : Z) :
  py_int (python3 todecimal) [b] = inr nd -> 0 <= nd <= 9.
Proof.
  cbn [py_int python3]. destruct (transform_single todecimal b) as [c ->].
  intros H. apply int_ascii_single in H as [Hd ->].
  unfold Py_ISDIGIT in Hd. lia.
Qed.

(** ** The locator *)

Lemma locate_cases (bytesHeader : bytes) :
  (exists i, first_at (lit ":CURV #") bytesHeader i
             /\ isfread_py3.locate bytesHeader = inr (i, 7, false))
  \/ (absent (lit ":CURV #") bytesHeader
      /\ exists i, first_at (lit ":CURVE #") bytesHeader i
                   /\ isfread_py3.locate bytesHeader = inr (i, 8, true))
  \/ (absent (lit ":CURV #") bytesHeader
      /\ absent (lit ":CURVE #") bytesHeader
      /\ isfread_py3.locate bytesHeader = inl (SystemExit isfread_py3.no_marker)).
Proof.
  unfold isfread_py3.locate. cbv zeta.
  destruct (find bytesHeader (lit ":CURV #") 0 =? -1) eqn:E1; cbv beta iota.
  - apply Z.eqb_eq in E1. right.
    destruct (find bytesHeader (lit ":CURVE #") 0 =? -1) eqn:E2.
    + apply Z.eqb_eq in E2. right.
      repeat split; try (now apply find_absent).
    + apply Z.eqb_neq in E2. left. split; [now apply find_absent |].
      eexists. split; [| reflexivity].
      apply find_first; [reflexivity | exact E2].
  - rewrite E1. apply Z.eqb_neq in E1. left. eexists. split; [| reflexivity].
    apply find_first; [reflexivity | exact E1].
Qed.

Lemma locate_ok (bytesHeader : bytes) (loc kl : Z) (older : bool) :
  isfread_py3.locate bytesHeader = inr (loc, kl, older) ->
  0 <= loc /\ (kl = 7 \/ kl = 8)
  /\ occurs_at (if older then lit ":CURVE #" else lit ":CURV #") bytesHeader loc.
Proof.
  intros H.
  destruct (locate_cases bytesHeader)
    as [(i & Hf & Hl) | [(Ha & i & Hf & Hl) | (_ & _ & Hl)]];
    rewrite Hl in H; try discriminate; injection H as <- <- <-;
    destruct Hf as [Ho _]; pose proof Ho as [Hi _]; auto.
Qed.

(** ** The cut of the header *)

Lemma preamble_ok (todecimal : Z -> option Z) (bytesHeader : bytes)
    (loc kl nd : Z) (text : str) :
  isfread_py3.preamble todecimal bytesHeader loc kl = inr (nd, text) ->
  exists b,
    getitem bytesHeader (loc + kl) = Some b
    /\ py_int (python3 todecimal) [b] = inr nd
    /\ 0 <= nd <= 9
    /\ decode (slice bytesHeader 0 (loc + kl + 1 + nd)) = inr text.
Proof.
  unfold isfread_py3.preamble.
  destruct (getitem bytesHeader (loc + kl)) as [b|]; [| discriminate].
  intros H. apply rbind_ok in H as (nd' & Hnd & H).
  apply rbind_ok in H as (t & Ht & H). injection H as <- <-.
  exists b. repeat split; auto; apply (int_of_char_range _ _ _ Hnd).
Qed.

Lemma read_preamble_ok (todecimal : Z -> option Z) (bytesHeader : bytes)
    (loc kl nd : Z) (h : header) :
  isfread_py3.read_preamble todecimal bytesHeader = inr (loc, kl, nd, h) ->
  exists older text,
    isfread_py3.locate bytesHeader = inr (loc, kl, older)
    /\ isfread_py3.preamble todecimal bytesHeader loc kl = inr (nd, text)
    /\ isfread_py3.tupleHeader todecimal older text = inr h.
Proof.
  unfold isfread_py3.read_preamble. intros H.
  apply rbind_ok in H as ([[loc' kl'] older] & Hl & H).
  apply rbind_ok in H as ([nd' text] & Hp & H).
  apply rbind_ok in H as (h' & Hh & H).
  injection H as <- <- <- <-. eauto.
Qed.

Lemma read_preamble_bounds (todecimal : Z -> option Z) (bytesHeader : bytes)
    (loc kl nd : Z) (h : header) :
  isfread_py3.read_preamble todecimal bytesHeader = inr (loc, kl, nd, h) ->
  0 <= loc /\ (kl = 7 \/ kl = 8) /\ 0 <= nd <= 9.
Proof.
  intros H. apply read_preamble_ok in H as (older & text & Hl & Hp & _).
  apply locate_ok in Hl as (H1 & H2 & _).
  apply preamble_ok in Hp as (b & _ & _ & H3 & _). auto.
Qed.

(** ** The run of [isfread] (Python 3), stage by stage *)

Lemma isfread_unfold (todecimal : Z -> option Z) (numpy : numpy_version)
    (file : list Byte.byte) (w : world) :
  isfread_py3.isfread todecimal numpy file w =
  match isfread_py3.read_preamble todecimal (header_bytes file) with
  | inl e => (inl e, after_header file w)
  | inr (loc, kl, nd, h) =>
      bind (isfread_py3.read_block file loc kl nd h)
        (fun data => bind (isfread_py3.convert numpy h data)
                       (fun arr => ret (arr, h)))
        (after_header file w)
  end.
Proof.
  unfold isfread_py3.isfread.
  rewrite (bind_step open _ w (mkWorld 0 false (stdout w)) tt) by reflexivity.
  rewrite (bind_step (read file 511) _ _ (after_header file w) (header_bytes file)).
  - unfold bind at 1, lift.
    destruct (isfread_py3.read_preamble todecimal (header_bytes file))
      as [e | [[[loc kl] nd] h]]; reflexivity.
  - rewrite read_run by (simpl; auto; lia). simpl fpos. simpl stdout.
    rewrite file_bytes_header. reflexivity.
Qed.

Lemma isfread_ok_inv (todecimal : Z -> option Z) (numpy : numpy_version)
    (file : list Byte.byte)
    (w w' : world) (arr : ndarray) (h : header) :
  isfread_py3.isfread todecimal numpy file w = (inr (arr, h), w') ->
  exists loc kl nd data w2,
    isfread_py3.read_preamble todecimal (header_bytes file) = inr (loc, kl, nd, h)
    /\ isfread_py3.read_block file loc kl nd h (after_header file w) = (inr data, w2)
    /\ isfread_py3.convert numpy h data w2 = (inr arr, w').
Proof.
  rewrite isfread_unfold.
  destruct (isfread_py3.read_preamble todecimal (header_bytes file))
    as [e | [[[loc kl] nd] h']]; [discriminate |].
  intros H. apply bind_ok in H as (data & w2 & Hb & H).
  apply bind_ok in H as (arr' & w3 & Hc & H).
  unfold ret in H. injection H as <- <- <-.
  exists loc, kl, nd, data, w2. auto.
Qed.

(** *** The block *)

Lemma read_samples_run (file : list Byte.byte) (fmt : str) (size : Z) (w : world) :
  fclosed w = false -> 0 <= size ->
  bind (read file size)
    (fun string_data =>
       bind (read file size) (fun _ => lift (unpack fmt string_data))) w
  = (unpack fmt (file_bytes file (fpos w) size), after_samples file size w).
Proof.
  intros Hc Hs.
  rewrite (bind_step _ _ _ _ _ (read_run file size w Hc Hs)).
  erewrite bind_step by (apply read_run; [reflexivity | exact Hs]).
  reflexivity.
Qed.

Lemma read_block_unfold (file : list Byte.byte) (loc kl nd : Z) (h : header) (w : world) :
  fclosed w = false -> 0 <= loc + kl + 1 -> 0 <= nd ->
  isfread_py3.read_block file loc kl nd h w =
  let w2 := after_digits file loc kl nd w in
  match int_ascii (count_digits file loc kl nd) with
  | inl e => (inl e, w2)
  | inr d =>
      match dict_get dict_endian (byteorder h) with
      | inl e => (inl e, w2)
      | inr order =>
          match fmt_of order (npts h) with
          | inl e => (inl e, w2)
          | inr fmt =>
              match calcsize fmt with
              | inl e => (inl e, w2)
              | inr size =>
                  if negb (d =? size)
                  then (inl (SystemExit isfread_py3.byte_count_mismatch), w2)
                  else bind (read file size)
                         (fun string_data =>
                            bind (read file size)
                              (fun _ => lift (unpack fmt string_data))) w2
              end
          end
      end
  end.
Proof.
  intros Hc Hp Hn. unfold isfread_py3.read_block.
  rewrite (bind_step _ _ _ _ _ (seek_run _ w Hc Hp)).
  erewrite bind_step by (apply read_run; [reflexivity | exact Hn]).
  cbn [fpos stdout]. fold (count_digits file loc kl nd).
  fold (after_digits file loc kl nd w). cbv zeta.
  unfold bind at 1, lift at 1.
  destruct (int_ascii (count_digits file loc kl nd)) as [e|d]; [reflexivity |].
  unfold bind at 1, lift at 1.
  destruct (dict_get dict_endian (byteorder h)) as [e|order]; [reflexivity |].
  unfold bind at 1, lift at 1.
  destruct (fmt_of order (npts h)) as [e|fmt]; [reflexivity |].
  unfold bind at 1, lift at 1.
  destruct (calcsize fmt) as [e|size]; [reflexivity |].
  destruct (negb (d =? size)); reflexivity.
Qed.

Lemma after_digits_pos (file : list Byte.byte) (loc kl nd : Z) (w : world) :
  0 <= loc + kl + 1 -> 0 <= nd ->
  loc + kl + 1 <= fpos (after_digits file loc kl nd w) <= loc + kl + 1 + nd.
Proof.
  intros Hp Hn. unfold after_digits, count_digits. cbn [fpos].
  rewrite len_file_bytes by lia. lia.
Qed.

(** The samples are the same bytes whether the digits of the count were all
    there or not: when they were not, the file is over. *)
Lemma samples_position (file : list Byte.byte) (loc kl nd n : Z) :
  0 <= loc + kl + 1 -> 0 <= nd -> 0 <= n ->
  len (file_bytes file (loc + kl + 1 + len (count_digits file loc kl nd)) (2 * n)) = 2 * n ->
  file_bytes file (loc + kl + 1 + len (count_digits file loc kl nd)) (2 * n)
  = file_bytes file (loc + kl + 1 + nd) (2 * n).
Proof.
  intros Hp Hn Hn0 Hlen.
  pose proof (len_nonneg (count_digits file loc kl nd)) as Hd0.
  unfold count_digits in *.
  rewrite len_file_bytes in Hlen by lia.
  rewrite (len_file_bytes file (loc + kl + 1) nd) in * by lia.
  destruct (Z.le_gt_cases nd (Z.max 0 (len file - (loc + kl + 1)))) as [Hle | Hgt].
  - rewrite Z.min_l by lia. reflexivity.
  - rewrite Z.min_r in * by lia.
    assert (n = 0) by lia. subst n. reflexivity.
Qed.

(** A block that is read gives as many samples as the header says, the byte
    count is twice that number, and the byte order is one of the two. *)
Lemma read_block_ok_inv (file : list Byte.byte) (loc kl nd : Z) (h : header)
    (w w2 : world) (data : list Z) :
  fclosed w = false -> 0 <= loc + kl + 1 -> 0 <= nd ->
  isfread_py3.read_block file loc kl nd h w = (inr data, w2) ->
  exists n o,
    npts h = PInt n /\ 0 <= n
    /\ (o = LESS \/ o = GREATER)
    /\ dict_get dict_endian (byteorder h) = inr [o]
    /\ int_ascii (count_digits file loc kl nd) = inr (2 * n)
    /\ len (file_bytes file (loc + kl + 1 + nd) (2 * n)) = 2 * n
    /\ data = unpack_h (o =? GREATER) (file_bytes file (loc + kl + 1 + nd) (2 * n))
    /\ len data = n
    /\ fclosed w2 = false /\ stdout w2 = stdout w.
Proof.
  intros Hc Hp Hn. rewrite read_block_unfold by assumption. cbv zeta.
  destruct (int_ascii (count_digits file loc kl nd)) as [e|d]; [discriminate |].
  destruct (dict_endian_cases (byteorder h))
    as [(_ & Hd) | [(_ & Hd) | (_ & _ & Hd)]]; rewrite Hd; try discriminate.
  all: unfold fmt_of; destruct (npts h) as [n | f]; try discriminate.
  all: match goal with
       | |- context [calcsize ([?o] ++ _ ++ _)] =>
           rewrite (calcsize_fmt o n) by auto;
           destruct ((n <? 0) || (PY_SSIZE_T_MAX / 2 <? n)) eqn:En;
             [discriminate |];
           destruct (negb (d =? 2 * n)) eqn:Ed; [discriminate |];
           rewrite read_samples_run by (auto; lia);
           rewrite (unpack_fmt o n) by auto;
           rewrite En;
           destruct (len (file_bytes file
                            (fpos (after_digits file loc kl nd w)) (2 * n)) =? 2 * n) eqn:El;
             [| discriminate];
           intros H;
           match type of H with
           | (inr ?x, ?y) = _ =>
               assert (Hdata : x = data) by congruence;
               assert (Hw : y = w2) by congruence
           end;
           subst data w2; clear H;
           exists n, o
       end.
  all: apply orb_false_iff in En as [En _]; apply Z.ltb_ge in En.
  all: apply negb_false_iff in Ed; apply Z.eqb_eq in Ed; subst d.
  all: apply Z.eqb_eq in El.
  all: unfold after_samples, after_digits in *; cbn [fpos fclosed stdout] in *.
  all: pose proof (samples_position file loc kl nd n Hp Hn En El) as Hs.
  all: rewrite Hs in *.
  all: repeat split; auto.
  all: apply unpack_h_length; exact El.
Qed.

(** *** The conversion *)

Lemma convert_Y (numpy : numpy_version) (h : header) (data : list Z) (w : world) :
  pointformat h = lit "Y" ->
  isfread_py3.convert numpy h data w =
  match (idx <-? range_num (npts h) ;; mapM (time_of h) idx) with
  | inl e => (inl e, w)
  | inr listTime =>
      match mapM (value_of h) data with
      | inl e => (inl e, w)
      | inr listValue =>
          match np_array numpy [listTime; listValue] with
          | inl e => (inl e, w)
          | inr ndarrayValue => (inr ndarrayValue, closed w)
          end
      end
  end.
Proof.
  intros Hy. unfold isfread_py3.convert.
  rewrite (proj2 (cmp_zero _ _) Hy).
  unfold bind at 1, lift at 1.
  destruct (idx <-? range_num (npts h) ;; mapM (time_of h) idx) as [e|t];
    [reflexivity |].
  unfold bind at 1, lift at 1.
  destruct (mapM (value_of h) data) as [e|v]; [reflexivity |].
  unfold bind at 1, lift at 1.
  destruct (np_array numpy [t; v]); reflexivity.
Qed.

Lemma convert_ENV (numpy : numpy_version) (h : header) (data : list Z) (w : world) :
  pointformat h = lit "ENV" ->
  isfread_py3.convert numpy h data w =
  match (half <-? py_div_float (npts h) (float_of_Z 2) ;; int_of_float half) with
  | inl e => (inl e, w)
  | inr n2 =>
      match mapM (env_time_of h) (range n2) with
      | inl e => (inl e, w)
      | inr listTime =>
          match mapM (value_of h) (slice_step data 0 (len data) 2) with
          | inl e => (inl e, w)
          | inr listMinValue =>
              match mapM (value_of h) (slice_step data 1 (len data) 2) with
              | inl e => (inl e, w)
              | inr listMaxValue =>
                  match np_array numpy [listTime; listMinValue; listMaxValue] with
                  | inl e => (inl e, w)
                  | inr ndarrayValue => (inr ndarrayValue, closed w)
                  end
              end
          end
      end
  end.
Proof.
  intros He. unfold isfread_py3.convert.
  assert (Hny : (cmp (pointformat h) (lit "Y") =? 0) = false).
  { apply cmp_nonzero. rewrite He. discriminate. }
  rewrite Hny, (proj2 (cmp_zero _ _) He).
  unfold bind at 1, lift at 1.
  destruct (half <-? py_div_float (npts h) (float_of_Z 2) ;; int_of_float half)
    as [e|n2]; [reflexivity |].
  unfold bind at 1, lift at 1.
  destruct (mapM (env_time_of h) (range n2)) as [e|t]; [reflexivity |].
  unfold bind at 1, lift at 1.
  destruct (mapM (value_of h) (slice_step data 0 (len data) 2)) as [e|mn];
    [reflexivity |].
  unfold bind at 1, lift at 1.
  destruct (mapM (value_of h) (slice_step data 1 (len data) 2)) as [e|mx];
    [reflexivity |].
  unfold bind at 1, lift at 1.
  destruct (np_array numpy [t; mn; mx]); reflexivity.
Qed.

Lemma convert_other (numpy : numpy_version) (h : header) (data : list Z) (w : world) :
  pointformat h <> lit "Y" -> pointformat h <> lit "ENV" ->
  isfread_py3.convert numpy h data w
  = (inl (SystemExit isfread_py3.bad_point_format), w).
Proof.
  intros Hy He. unfold isfread_py3.convert.
  rewrite (proj2 (cmp_nonzero _ _) Hy), (proj2 (cmp_nonzero _ _) He).
  reflexivity.
Qed.

(** *** From the stages to the whole *)

Lemma isfread_run (todecimal : Z -> option Z) (numpy : numpy_version)
    (file : list Byte.byte) (w : world)
    (loc kl nd : Z) (h : header) :
  isfread_py3.read_preamble todecimal (header_bytes file) = inr (loc, kl, nd, h) ->
  isfread_py3.isfread todecimal numpy file w =
  bind (isfread_py3.read_block file loc kl nd h)
    (fun data => bind (isfread_py3.convert numpy h data) (fun arr => ret (arr, h)))
    (after_header file w).
Proof. intros H. rewrite isfread_unfold, H. reflexivity. Qed.

Lemma isfread_preamble_fails (todecimal : Z -> option Z) (numpy : numpy_version)
    (file : list Byte.byte)
    (w : world) (e : exn) :
  isfread_py3.read_preamble todecimal (header_bytes file) = inl e ->
  isfread_py3.isfread todecimal numpy file w = (inl e, after_header file w).
Proof. intros H. rewrite isfread_unfold, H. reflexivity. Qed.

Lemma isfread_block_fails (todecimal : Z -> option Z) (numpy : numpy_version)
    (file : list Byte.byte)
    (w w2 : world) (loc kl nd : Z) (h : header) (e : exn) :
  isfread_py3.read_preamble todecimal (header_bytes file) = inr (loc, kl, nd, h) ->
  isfread_py3.read_block file loc kl nd h (after_header file w) = (inl e, w2) ->
  isfread_py3.isfread todecimal numpy file w = (inl e, w2).
Proof.
  intros H Hb. rewrite (isfread_run _ _ _ _ _ _ _ _ H).
  now apply bind_fail.
Qed.

Lemma isfread_convert_fails (todecimal : Z -> option Z) (numpy : numpy_version)
    (file : list Byte.byte)
    (w w2 w3 : world) (loc kl nd : Z) (h : header) (data : list Z) (e : exn) :
  isfread_py3.read_preamble todecimal (header_bytes file) = inr (loc, kl, nd, h) ->
  isfread_py3.read_block file loc kl nd h (after_header file w) = (inr data, w2) ->
  isfread_py3.convert numpy h data w2 = (inl e, w3) ->
  isfread_py3.isfread todecimal numpy file w = (inl e, w3).
Proof.
  intros H Hb Hc. rewrite (isfread_run _ _ _ _ _ _ _ _ H).
  rewrite (bind_step _ _ _ _ _ Hb). now apply bind_fail.
Qed.

(** With an unknown point format the call always ends in an exception. *)
Lemma isfread_bad_format (todecimal : Z -> option Z) (numpy : numpy_version)
    (file : list Byte.byte)
    (w : world) (loc kl nd : Z) (h : header) :
  isfread_py3.read_preamble todecimal (header_bytes file) = inr (loc, kl, nd, h) ->
  pointformat h <> lit "Y" -> pointformat h <> lit "ENV" ->
  (exists e w', isfread_py3.isfread todecimal numpy file w = (inl e, w'))
  /\ forall data w2,
       isfread_py3.read_block file loc kl nd h (after_header file w) = (inr data, w2) ->
       isfread_py3.isfread todecimal numpy file w
       = (inl (SystemExit isfread_py3.bad_point_format), w2).
Proof.
  intros H Hy He.
  assert (Hlater : forall data w2,
             isfread_py3.read_block file loc kl nd h (after_header file w) = (inr data, w2) ->
             isfread_py3.isfread todecimal numpy file w
             = (inl (SystemExit isfread_py3.bad_point_format), w2)).
  { intros data w2 Hb. eapply isfread_convert_fails; eauto.
    now apply convert_other. }
  split; [| exact Hlater].
  destruct (run_cases (isfread_py3.read_block file loc kl nd h) (after_header file w))
    as [(e & w2 & Hb) | (data & w2 & Hb)].
  - exists e, w2. eapply isfread_block_fails; eauto.
  - eauto.
Qed.

(** With a byte order other than the two of [dict_endian] the call ends in an
    exception once the digits of the byte count are read. *)
Lemma isfread_bad_order (todecimal : Z -> option Z) (numpy : numpy_version)
    (file : list Byte.byte)
    (w : world) (loc kl nd : Z) (h : header) :
  isfread_py3.read_preamble todecimal (header_bytes file) = inr (loc, kl, nd, h) ->
  byteorder h <> lit "MSB" -> byteorder h <> lit "LSB" ->
  exists e,
    isfread_py3.isfread todecimal numpy file w
    = (inl e, after_digits file loc kl nd (after_header file w))
    /\ forall d, int_ascii (count_digits file loc kl nd) = inr d ->
                 e = KeyError (byteorder h).
Proof.
  intros H Hm Hl.
  pose proof (read_preamble_bounds _ _ _ _ _ _ H) as (Hloc & Hkl & Hnd).
  assert (Hb : exists e,
             isfread_py3.read_block file loc kl nd h (after_header file w)
             = (inl e, after_digits file loc kl nd (after_header file w))
             /\ forall d, int_ascii (count_digits file loc kl nd) = inr d ->
                          e = KeyError (byteorder h)).
  { rewrite read_block_unfold by (try reflexivity; lia). cbv zeta.
    destruct (int_ascii (count_digits file loc kl nd)) as [e|d].
    - exists e. split; [reflexivity | discriminate].
    - destruct (dict_endian_cases (byteorder h))
        as [(Hk & _) | [(Hk & _) | (_ & _ & Hd)]]; try contradiction.
      rewrite Hd. eexists. split; [reflexivity | reflexivity]. }
  destruct Hb as (e & Hb & He). exists e. split; [| exact He].
  eapply isfread_block_fails; eauto.
Qed.

Lemma order_flag (k : str) (o : Z) :
  dict_get dict_endian k = inr [o] ->
  (o =? GREATER) = str_eqb k (lit "MSB")
  /\ (k = lit "MSB" \/ k = lit "LSB").
Proof.
  intros H.
  destruct (dict_endian_cases k) as [(Hk & Hd) | [(Hk & Hd) | (_ & _ & Hd)]];
    rewrite Hd in H; try discriminate; injection H as <-; subst k; auto.
Qed.

Lemma unpack_h_nth (big : bool) :
  forall (i : nat) (b : bytes),
    (2 * i + 1 < List.length b)%nat ->
    exists b0 b1,
      nth_error b (2 * i) = Some b0
      /\ nth_error b (2 * i + 1) = Some b1
      /\ nth_error (unpack_h big b) i
         = Some (if big then int16 b0 b1 else int16 b1 b0).
Proof.
  induction i as [|i IH]; intros b Hlen.
  - destruct b as [|x [|y r]]; cbn [List.length] in Hlen; try lia.
    exists x, y. repeat split.
  - destruct b as [|x [|y r]]; cbn [List.length] in Hlen; try lia.
    destruct (IH r) as (b0 & b1 & H0 & H1 & Hn); [lia |].
    exists b0, b1.
    replace (2 * S i)%nat with (S (S (2 * i))) by lia.
    replace (S (S (2 * i)) + 1)%nat with (S (S (2 * i + 1))) by lia.
    cbn [nth_error unpack_h]. auto.
Qed.

(** ** The two formulas, on integers and on floats *)

Lemma time_of_ints (h : header) (a b c i : Z) :
  xzero h = PInt a -> xincr h = PInt b -> ptoff h = PInt c ->
  time_of h i = inr (PInt (a + b * (i - c))).
Proof. intros Ha Hb Hc. unfold time_of. rewrite Ha, Hb, Hc. reflexivity. Qed.

Lemma value_of_ints (h : header) (a b c y : Z) :
  yzero h = PInt a -> ymult h = PInt b -> yoff h = PInt c ->
  value_of h y = inr (PInt (a + b * (y - c))).
Proof. intros Ha Hb Hc. unfold value_of. rewrite Ha, Hb, Hc. reflexivity. Qed.

Lemma time_of_floats (h : header) (a b c : float) (i : Z) :
  xzero h = PFloat a -> xincr h = PFloat b -> ptoff h = PFloat c ->
  time_of h i =
  (fi <-? int_to_float i ;;
   inr (PFloat (SFadd prec emax a (SFmul prec emax b (SFsub prec emax fi c))))).
Proof.
  intros Ha Hb Hc. unfold time_of. rewrite Ha, Hb, Hc.
  cbn [py_sub py_mul py_add arith rbind].
  destruct (int_to_float i); reflexivity.
Qed.

Lemma value_of_floats (h : header) (a b c : float) (y : Z) :
  yzero h = PFloat a -> ymult h = PFloat b -> yoff h = PFloat c ->
  value_of h y =
  (fy <-? int_to_float y ;;
   inr (PFloat (SFadd prec emax a (SFmul prec emax b (SFsub prec emax fy c))))).
Proof.
  intros Ha Hb Hc. unfold value_of. rewrite Ha, Hb, Hc.
  cbn [py_sub py_mul py_add arith rbind].
  destruct (int_to_float y); reflexivity.
Qed.

(** ** The two formulas, in the arithmetic of the statements *)

Lemma int_to_float_value (z : Z) (f : float) :
  int_to_float z = inr f -> f = nearest_double z.
Proof.
  unfold int_to_float. destruct (is_finite (float_of_Z z)); [| discriminate].
  intros H. injection H as <-. reflexivity.
Qed.

(** An operation that does not raise gives the number of [num_op]. *)
Lemma arith_value (iop : Z -> Z -> Z) (fop : float -> float -> float)
    (a b r : pynum) :
  arith iop fop a b = inr r -> r = num_op iop fop a b.
Proof.
  destruct a as [x|x], b as [y|y]; cbn [arith num_op as_double]; intros H.
  - congruence.
  - destruct (int_to_float x) as [e|fx] eqn:E; [discriminate |].
    apply int_to_float_value in E. subst fx. cbn [rbind] in H. congruence.
  - destruct (int_to_float y) as [e|fy] eqn:E; [discriminate |].
    apply int_to_float_value in E. subst fy. cbn [rbind] in H. congruence.
  - congruence.
Qed.

Lemma time_of_value (h : header) (i : Z) (t : pynum) :
  time_of h i = inr t -> t = scaled (xzero h) (xincr h) (ptoff h) i.
Proof.
  unfold time_of, py_sub, py_mul, py_add. intros H.
  apply rbind_ok in H as (d & Hd & H). apply rbind_ok in H as (p & Hp & H).
  apply arith_value in Hd, Hp, H. subst. reflexivity.
Qed.

Lemma value_of_value (h : header) (y : Z) (v : pynum) :
  value_of h y = inr v -> v = scaled (yzero h) (ymult h) (yoff h) y.
Proof.
  unfold value_of, py_sub, py_mul, py_add. intros H.
  apply rbind_ok in H as (d & Hd & H). apply rbind_ok in H as (p & Hp & H).
  apply arith_value in Hd, Hp, H. subst. reflexivity.
Qed.

Lemma env_time_of_value (h : header) (i : Z) (t : pynum) :
  env_time_of h i = inr t -> t = scaled_twice (xzero h) (xincr h) (ptoff h) i.
Proof.
  unfold env_time_of, py_sub, py_mul, py_add. intros H.
  apply rbind_ok in H as (d & Hd & H). apply rbind_ok in H as (p & Hp & H).
  apply rbind_ok in H as (q & Hq & H).
  apply arith_value in Hd, Hp, Hq, H. subst. reflexivity.
Qed.

(** With a float among the three numbers of a scale, every term is a
    float. *)
Lemma scaled_is_float (zero mult off : pynum) (k : Z) :
  is_float zero \/ is_float mult \/ is_float off ->
  is_float (scaled zero mult off k).
Proof.
  destruct zero, mult, off; cbn; tauto.
Qed.

(** The terms of a list comprehension over one of the formulas. *)
Lemma mapM_values {A : Type} (f : A -> res pynum) (g : A -> pynum)
    (l : list A) (ys : list pynum) :
  (forall x y, f x = inr y -> y = g x) ->
  mapM f l = inr ys -> ys = map g l.
Proof.
  intros Hfg. revert ys. induction l as [|x l IH]; intros ys H; simpl in H.
  - injection H as <-. reflexivity.
  - apply rbind_ok in H as (y & Hy & H).
    apply rbind_ok in H as (ys' & Hys & H).
    injection H as <-. cbn [map]. f_equal; auto.
Qed.

(** ** The samples, byte by byte *)

Lemma int16_signed16 (hi lo : Z) :
  0 <= hi < 256 -> 0 <= lo < 256 -> int16 hi lo = signed16 hi lo.
Proof.
  intros Hh Hl. rewrite int16_spec by assumption. unfold signed16.
  destruct (hi <? 128) eqn:E1, (hi * 256 + lo <? 32768) eqn:E2; lia.
Qed.

Lemma file_bytes_nth_range (file : list Byte.byte) (start n : Z) (j : nat) (z : Z) :
  nth_error (file_bytes file start n) j = Some z -> 0 <= z < 256.
Proof.
  unfold file_bytes. rewrite nth_error_map.
  destruct (nth_error _ j); [| discriminate].
  intros H. injection H as <-. apply byte_val_range.
Qed.

(** Sample [i] of a block that is all there: the two bytes of index [2i]
    and [2i+1], the high one first when [big]. *)
Lemma samples_nth (big : bool) (file : list Byte.byte) (pos n i : Z) :
  len (file_bytes file pos (2 * n)) = 2 * n -> 0 <= i < n ->
  exists b0 b1,
    nth_error (file_bytes file pos (2 * n)) (2 * Z.to_nat i) = Some b0
    /\ nth_error (file_bytes file pos (2 * n)) (2 * Z.to_nat i + 1) = Some b1
    /\ nth_error (unpack_h big (file_bytes file pos (2 * n))) (Z.to_nat i)
       = Some (if big then signed16 b0 b1 else signed16 b1 b0).
Proof.
  intros Hlen Hi.
  destruct (unpack_h_nth big (Z.to_nat i) (file_bytes file pos (2 * n)))
    as (b0 & b1 & H0 & H1 & Hn); [unfold len in Hlen; lia |].
  exists b0, b1. split; [exact H0 |]. split; [exact H1 |].
  pose proof (file_bytes_nth_range _ _ _ _ _ H0).
  pose proof (file_bytes_nth_range _ _ _ _ _ H1).
  rewrite Hn. destruct big; now rewrite int16_signed16.
Qed.

(** ** [numpy.array] *)

Lemma cast_held_as (d : dtype) (a : pynum) : cast d a = held_as d a.
Proof. destruct d, a; reflexivity. Qed.

Lemma map_cast (d : dtype) (l : list pynum) : map (cast d) l = map (held_as d) l.
Proof. apply map_ext. apply cast_held_as. Qed.

Lemma np_array_two (v : numpy_version) (t x : list pynum) :
  len x = len t ->
  np_array v [t; x]
  = inr (nd_array (common_dtype (t ++ x))
           [map (held_as (common_dtype (t ++ x))) t;
            map (held_as (common_dtype (t ++ x))) x]).
Proof.
  intros H. unfold np_array. cbn [same_length forallb List.concat].
  rewrite app_nil_r. replace (len x =? len t) with true by lia.
  cbn [andb map]. now rewrite !map_cast.
Qed.

Lemma np_array_three (v : numpy_version) (t x y : list pynum) :
  len x = len t -> len y = len t ->
  np_array v [t; x; y]
  = inr (nd_array (common_dtype (t ++ x ++ y))
           [map (held_as (common_dtype (t ++ x ++ y))) t;
            map (held_as (common_dtype (t ++ x ++ y))) x;
            map (held_as (common_dtype (t ++ x ++ y))) y]).
Proof.
  intros H1 H2. unfold np_array. cbn [same_length forallb List.concat].
  rewrite app_nil_r.
  replace (len x =? len t) with true by lia.
  replace (len y =? len t) with true by lia.
  cbn [andb map]. now rewrite !map_cast.
Qed.

(** Rows of unequal lengths: the rows themselves before NumPy 1.24, an
    exception since. *)
Lemma np_array_ragged (v : numpy_version) (t x y : list pynum) :
  len x <> len t ->
  np_array v [t; x; y]
  = match v with
    | numpy_before_1_24 => inr (nd_ragged [t; x; y])
    | numpy_from_1_24 => inl inhomogeneous
    end.
Proof.
  intros H. unfold np_array. cbn [same_length forallb].
  replace (len x =? len t) with false by lia. reflexivity.
Qed.

Lemma fold_promote_floats (l : list pynum) :
  Forall is_float l ->
  fold_left (fun d b => promote d (scalar_dtype b)) l float64 = float64.
Proof.
  induction 1 as [|a l Ha _ IH]; [reflexivity |].
  destruct a; [contradiction |]. exact IH.
Qed.

(** Rows of floats make an array of [float64], which holds them as they
    are. *)
Lemma common_dtype_floats (l : list pynum) :
  Forall is_float l -> common_dtype l = float64.
Proof.
  intros H. destruct H as [|a l Ha Hl]; [reflexivity |].
  destruct a; [contradiction |]. cbn [common_dtype scalar_dtype].
  now apply fold_promote_floats.
Qed.

(** A float among integers that fit on 64 bits makes an array of
    [float64]. *)
Lemma scalar_dtype_not_object (a : pynum) :
  (forall z, a = PInt z -> - 2 ^ 63 <= z < 2 ^ 64) -> scalar_dtype a <> object.
Proof.
  destruct a as [z|f]; [| discriminate]. intros H.
  specialize (H z eq_refl). cbn [scalar_dtype].
  destruct ((- 2 ^ 63 <=? z) && (z <? 2 ^ 63)) eqn:E1; [discriminate |].
  destruct ((0 <=? z) && (z <? 2 ^ 64)) eqn:E2; [discriminate | lia].
Qed.

Lemma fold_promote_from_float64 (l : list pynum) :
  (forall a, In a l -> scalar_dtype a <> object) ->
  fold_left (fun d b => promote d (scalar_dtype b)) l float64 = float64.
Proof.
  induction l as [|a l IH]; intros H; [reflexivity |].
  cbn [fold_left].
  replace (promote float64 (scalar_dtype a)) with float64.
  - apply IH. intros b Hb. apply H. now right.
  - specialize (H a (or_introl eq_refl)).
    destruct (scalar_dtype a); cbn; congruence.
Qed.

Lemma fold_promote_to_float64 (l : list pynum) (d0 : dtype) :
  d0 <> object ->
  (forall a, In a l -> scalar_dtype a <> object) ->
  (exists a, In a l /\ is_float a) ->
  fold_left (fun d b => promote d (scalar_dtype b)) l d0 = float64.
Proof.
  revert d0. induction l as [|a l IH]; intros d0 Hd H (x & Hx & Hf);
    [contradiction |].
  cbn [fold_left].
  assert (Ha : scalar_dtype a <> object) by (apply H; now left).
  assert (Hl : forall b, In b l -> scalar_dtype b <> object)
    by (intros b Hb; apply H; now right).
  destruct Hx as [<- | Hx].
  - destruct a; [contradiction |]. cbn [scalar_dtype].
    replace (promote d0 float64) with float64 by (destruct d0; cbn; congruence).
    now apply fold_promote_from_float64.
  - apply IH; [| exact Hl | eauto].
    destruct d0, (scalar_dtype a); cbn; congruence.
Qed.

Lemma common_dtype_mixed (l : list pynum) :
  (exists a, In a l /\ is_float a) ->
  (forall z, In (PInt z) l -> - 2 ^ 63 <= z < 2 ^ 64) ->
  common_dtype l = float64.
Proof.
  intros (x & Hx & Hf) Hz.
  assert (Hall : forall a, In a l -> scalar_dtype a <> object).
  { intros a Ha. apply scalar_dtype_not_object. intros z ->. now apply Hz. }
  destruct l as [|a l]; [reflexivity |]. cbn [common_dtype].
  destruct Hx as [<- | Hx].
  - destruct a; [contradiction |]. cbn [scalar_dtype].
    apply fold_promote_from_float64. intros b Hb. apply Hall. now right.
  - apply fold_promote_to_float64.
    + apply Hall. now left.
    + intros b Hb. apply Hall. now right.
    + eauto.
Qed.

Lemma held_as_floats (l : list pynum) :
  Forall is_float l -> map (held_as float64) l = l.
Proof.
  induction 1 as [|a l Ha _ IH]; [reflexivity |].
  destruct a; [contradiction |]. cbn [map held_as]. now rewrite IH.
Qed.

Lemma nth_error_all {A : Type} (P : A -> Prop) (l : list A) :
  (forall i x, nth_error l i = Some x -> P x) -> Forall P l.
Proof.
  intros H. apply Forall_forall. intros x Hx.
  apply In_nth_error in Hx as (i & Hi). eauto.
Qed.

(** The file [sample_Y]: the samples 10, -5, 0, 100 with [YMU 2.0E-2],
    [YOF -5.0E0] and [YZE 0.0E0] give 0.3, 0.0, 0.1 and 2.1; the times, with
    [XZE -1.0E-6], [XIN 4.0E-9] and [PT_O 0], are -1e-06,
    -9.959999999999999e-07, -9.92e-07 and -9.88e-07. *)
Example sample_Y_values :
  exists h w',
    isfread_py3.isfread ascii_only numpy_from_1_24 sample_Y fresh_world
    = (inr (nd_array float64
              [[PFloat (S754_finite true 4722366482869645 (-72));
                PFloat (S754_finite true 4703477016938166 (-72));
                PFloat (S754_finite true 4684587551006688 (-72));
                PFloat (S754_finite true 4665698085075209 (-72))];
               [PFloat (S754_finite false 5404319552844595 (-54));
                PFloat (S754_zero false);
                PFloat (S754_finite false 7205759403792794 (-56));
                PFloat (S754_finite false 4728779608739021 (-51))]], h), w').
Proof.
  eexists _, _. vm_compute. reflexivity.
Qed.

(** * The statements of the specification *)

(** C1.  A file that [isfread] (Python 3) decodes with point format "Y"
    gives two lists of [npts] terms each: [time[i]] is
    [xzero + xincr*(i - ptoff)], and [value[i]] is
    [yzero + ymult*(raw[i] - yoff)], where [raw[i]] is the signed 16-bit
    number of the bytes [2i] and [2i+1] of the block, in the byte order of
    the header.  What is returned is the array of two rows that NumPy makes
    of the two lists: of these very numbers when both lists are of floats,
    and with an [int] held as the nearest double when the element type is
    [float64] for the other list's sake. *)
Theorem isfread_Y_series (todecimal : Z -> option Z) (numpy : numpy_version)
    (file : list Byte.byte) (w w' : world) (arr : ndarray) (h : header) :
  isfread_py3.isfread todecimal numpy file w = (inr (arr, h), w') ->
  pointformat h = lit "Y" ->
  exists n loc kl nd time value d,
    npts h = PInt n /\ 0 <= n
    /\ isfread_py3.read_preamble todecimal (header_bytes file) = inr (loc, kl, nd, h)
    /\ (byteorder h = lit "MSB" \/ byteorder h = lit "LSB")
    /\ len time = n /\ len value = n
    /\ (forall i, 0 <= i < n ->
          nth_error time (Z.to_nat i)
          = Some (scaled (xzero h) (xincr h) (ptoff h) i))
    /\ (forall i, 0 <= i < n ->
          exists b0 b1,
            nth_error (file_bytes file (loc + kl + 1 + nd) (2 * n))
              (2 * Z.to_nat i) = Some b0
            /\ nth_error (file_bytes file (loc + kl + 1 + nd) (2 * n))
                 (2 * Z.to_nat i + 1) = Some b1
            /\ (byteorder h = lit "MSB" ->
                nth_error value (Z.to_nat i)
                = Some (scaled (yzero h) (ymult h) (yoff h) (signed16 b0 b1)))
            /\ (byteorder h = lit "LSB" ->
                nth_error value (Z.to_nat i)
                = Some (scaled (yzero h) (ymult h) (yoff h) (signed16 b1 b0))))
    /\ d = common_dtype (time ++ value)
    /\ arr = nd_array d [map (held_as d) time; map (held_as d) value]
    /\ ((exists a, In a (time ++ value) /\ is_float a) ->
        (forall z, In (PInt z) (time ++ value) -> - 2 ^ 63 <= z < 2 ^ 64) ->
        d = float64)
    /\ ((is_float (xzero h) \/ is_float (xincr h) \/ is_float (ptoff h)) ->
        (is_float (yzero h) \/ is_float (ymult h) \/ is_float (yoff h)) ->
        arr = nd_array float64 [time; value]).
Proof.
  intros Hrun Hy.
  apply isfread_ok_inv in Hrun as (loc & kl & nd & data & w2 & Hpre & Hblk & Hconv).
  pose proof (read_preamble_bounds _ _ _ _ _ _ Hpre) as (Hloc & Hkl & Hnd).
  apply read_block_ok_inv in Hblk
    as (n & o & Hn & Hn0 & Ho & Hd & _ & Hlb & Hdata & Hlen & _);
    try reflexivity; try lia.
  apply order_flag in Hd as [Hflag Hk]. rewrite Hflag in Hdata.
  rewrite (convert_Y numpy h data w2 Hy), Hn in Hconv.
  cbn [range_num rbind] in Hconv.
  destruct (mapM (time_of h) (range n)) as [e|time] eqn:Et; [discriminate |].
  destruct (mapM (value_of h) data) as [e|value] eqn:Ev; [discriminate |].
  pose proof (mapM_length _ _ _ Et) as Lt. rewrite range_length in Lt.
  pose proof (mapM_length _ _ _ Ev) as Lv.
  assert (Ltime : len time = n) by (unfold len; lia).
  assert (Lvalue : len value = n) by (unfold len in *; lia).
  rewrite np_array_two in Hconv by lia.
  apply pair_equal_spec in Hconv as [Harr _]. apply inr_inj in Harr.
  assert (Htime : forall i, 0 <= i < n ->
            nth_error time (Z.to_nat i)
            = Some (scaled (xzero h) (xincr h) (ptoff h) i)).
  { intros i Hi.
    destruct (mapM_nth _ _ _ (Z.to_nat i) i Et) as (t & Ht & Hf).
    { rewrite range_nth by lia. f_equal. lia. }
    apply time_of_value in Hf. now subst t. }
  assert (Hvalue : forall i, 0 <= i < n ->
            exists b0 b1,
              nth_error (file_bytes file (loc + kl + 1 + nd) (2 * n))
                (2 * Z.to_nat i) = Some b0
              /\ nth_error (file_bytes file (loc + kl + 1 + nd) (2 * n))
                   (2 * Z.to_nat i + 1) = Some b1
              /\ nth_error value (Z.to_nat i)
                 = Some (scaled (yzero h) (ymult h) (yoff h)
                           (if str_eqb (byteorder h) (lit "MSB")
                            then signed16 b0 b1 else signed16 b1 b0))).
  { intros i Hi.
    destruct (samples_nth (str_eqb (byteorder h) (lit "MSB")) file
                (loc + kl + 1 + nd) n i Hlb Hi) as (b0 & b1 & H0 & H1 & Hr).
    rewrite <- Hdata in Hr.
    destruct (mapM_nth _ _ _ _ _ Ev Hr) as (v & Hv & Hf).
    apply value_of_value in Hf. subst v. exists b0, b1. auto. }
  exists n, loc, kl, nd, time, value, (common_dtype (time ++ value)).
  split; [exact Hn |]. split; [exact Hn0 |]. split; [exact Hpre |].
  split; [exact Hk |]. split; [exact Ltime |]. split; [exact Lvalue |].
  split; [exact Htime |]. split.
  { intros i Hi. destruct (Hvalue i Hi) as (b0 & b1 & H0 & H1 & Hv).
    exists b0, b1. split; [exact H0 |]. split; [exact H1 |].
    split; intros Ho'; rewrite Ho' in Hv; exact Hv. }
  split; [reflexivity |]. split; [now symmetry |].
  split; [apply common_dtype_mixed |].
  intros Hx Hyf.
  assert (Hall : Forall is_float (time ++ value)).
  { apply Forall_app. split; apply nth_error_all; intros j x Hj.
    - assert (Hlt : (j < List.length time)%nat)
        by (apply nth_error_Some; congruence).
      specialize (Htime (Z.of_nat j) ltac:(lia)).
      rewrite Nat2Z.id, Hj in Htime. injection Htime as ->.
      now apply scaled_is_float.
    - assert (Hlt : (j < List.length value)%nat)
        by (apply nth_error_Some; congruence).
      destruct (Hvalue (Z.of_nat j) ltac:(unfold len in *; lia))
        as (b0 & b1 & _ & _ & Hv).
      rewrite Nat2Z.id, Hj in Hv. injection Hv as ->.
      now apply scaled_is_float. }
  rewrite <- Harr, (common_dtype_floats _ Hall).
  apply Forall_app in Hall as [Ht Hv].
  now rewrite (held_as_floats _ Ht), (held_as_floats _ Hv).
Qed.

Lemma first_at_unique (sub s : str) (i j : Z) :
  first_at sub s i -> first_at sub s j -> i = j.
Proof.
  intros Hi Hj. apply first_at_find in Hi, Hj. congruence.
Qed.


(** C3, for [isfread_py3.py] (the Python 2 script only prints a warning
    there).  When the byte count written after the marker is not twice the
    number of points of the header, [isfread] (Python 3) ends in an exception and
    returns nothing; with a byte order that [dict_endian] knows and a number
    of points that [struct] accepts, the exception is the [sys.exit] of the
    size check, raised when nothing but the digits of the count has been read
    after the header. *)
Theorem byte_count_mismatch_is_fatal (todecimal : Z -> option Z) (numpy : numpy_version)
    (file : list Byte.byte) (w : world) (loc kl nd : Z) (h : header) (d n : Z) :
  isfread_py3.read_preamble todecimal (header_bytes file) = inr (loc, kl, nd, h) ->
  int_ascii (count_digits file loc kl nd) = inr d ->
  npts h = PInt n ->
  d <> 2 * n ->
  (exists e w', isfread_py3.isfread todecimal numpy file w = (inl e, w'))
  /\ ((byteorder h = lit "MSB" \/ byteorder h = lit "LSB") ->
      0 <= n <= PY_SSIZE_T_MAX / 2 ->
      isfread_py3.isfread todecimal numpy file w
      = (inl (SystemExit isfread_py3.byte_count_mismatch),
         after_digits file loc kl nd (after_header file w))).
Proof.
  intros Hpre Hd Hn Hne.
  pose proof (read_preamble_bounds _ _ _ _ _ _ Hpre) as (Hloc & Hkl & Hnd).
  assert (Hblk :
    (exists e, isfread_py3.read_block file loc kl nd h (after_header file w)
               = (inl e, after_digits file loc kl nd (after_header file w)))
    /\ ((byteorder h = lit "MSB" \/ byteorder h = lit "LSB") ->
        0 <= n <= PY_SSIZE_T_MAX / 2 ->
        isfread_py3.read_block file loc kl nd h (after_header file w)
        = (inl (SystemExit isfread_py3.byte_count_mismatch),
           after_digits file loc kl nd (after_header file w)))).
  { rewrite read_block_unfold by (try reflexivity; lia). cbv zeta.
    rewrite Hd. unfold fmt_of. rewrite Hn.
    destruct (dict_endian_cases (byteorder h))
      as [(Hk & Ho) | [(Hk & Ho) | (Hm & Hl & Ho)]]; rewrite Ho.
    1, 2: rewrite calcsize_fmt by auto.
    1, 2: destruct ((n <? 0) || (PY_SSIZE_T_MAX / 2 <? n)) eqn:En.
    1, 3: split; [eauto | intros _ Hr; lia].
    1, 2: replace (d =? 2 * n) with false by lia; cbn [negb];
          split; [eauto | reflexivity].
    split; [eauto |]. intros [Hk | Hk]; contradiction. }
  destruct Hblk as [(e & He) Hexact]. split.
  - exists e. eexists. eapply isfread_block_fails; eauto.
  - intros Ho Hr. eapply isfread_block_fails; eauto.
Qed.


(** C7.  A file that is decoded has the byte order "MSB" or "LSB", and its
    samples are the signed 16-bit numbers of the pairs of bytes of the
    block: with "MSB" the first byte of a pair is the high one (big-endian),
    with "LSB" the second (little-endian).  With any other byte order
    [isfread] ends in an exception before a byte of the block is read (with
    [KeyError] when the byte count could be read). *)
Theorem byte_order_field (todecimal : Z -> option Z) (numpy : numpy_version)
    (file : list Byte.byte) (w : world) :
  (forall arr h w',
      isfread_py3.isfread todecimal numpy file w = (inr (arr, h), w') ->
      exists loc kl nd n data w2,
        isfread_py3.read_preamble todecimal (header_bytes file) = inr (loc, kl, nd, h)
        /\ npts h = PInt n
        /\ (byteorder h = lit "MSB" \/ byteorder h = lit "LSB")
        /\ isfread_py3.convert numpy h data w2 = (inr arr, w')
        /\ len data = n
        /\ forall i, (Z.to_nat i < Z.to_nat n)%nat ->
             exists b0 b1,
               nth_error (file_bytes file (loc + kl + 1 + nd) (2 * n))
                 (2 * Z.to_nat i) = Some b0
               /\ nth_error (file_bytes file (loc + kl + 1 + nd) (2 * n))
                    (2 * Z.to_nat i + 1) = Some b1
               /\ 0 <= b0 < 256 /\ 0 <= b1 < 256
               /\ (byteorder h = lit "MSB" ->
                   nth_error data (Z.to_nat i)
                   = Some (if b0 <? 128 then 256 * b0 + b1
                           else 256 * b0 + b1 - 65536))
               /\ (byteorder h = lit "LSB" ->
                   nth_error data (Z.to_nat i)
                   = Some (if b1 <? 128 then 256 * b1 + b0
                           else 256 * b1 + b0 - 65536)))
  /\ (forall loc kl nd h,
        isfread_py3.read_preamble todecimal (header_bytes file) = inr (loc, kl, nd, h) ->
        byteorder h <> lit "MSB" -> byteorder h <> lit "LSB" ->
        exists e w',
          isfread_py3.isfread todecimal numpy file w = (inl e, w')
          /\ fpos w' <= loc + kl + 1 + nd
          /\ (forall d, int_ascii (count_digits file loc kl nd) = inr d ->
                        e = KeyError (byteorder h))).
Proof.
  split.
  - intros arr h w' Hrun.
    apply isfread_ok_inv in Hrun as (loc & kl & nd & data & w2 & Hpre & Hblk & Hconv).
    pose proof (read_preamble_bounds _ _ _ _ _ _ Hpre) as (Hloc & Hkl & Hnd).
    apply read_block_ok_inv in Hblk
      as (n & o & Hn & Hn0 & Ho & Hd & _ & Hlb & Hdata & Hlen & _);
      try reflexivity; try lia.
    apply order_flag in Hd as [Hflag Hk]. rewrite Hflag in Hdata.
    exists loc, kl, nd, n, data, w2.
    split; [exact Hpre |]. split; [exact Hn |]. split; [exact Hk |].
    split; [exact Hconv |]. split; [exact Hlen |].
    intros i Hi.
    destruct (samples_nth (str_eqb (byteorder h) (lit "MSB")) file
                (loc + kl + 1 + nd) n (Z.of_nat (Z.to_nat i)) Hlb ltac:(lia))
      as (b0 & b1 & H0 & H1 & Hr).
    rewrite Nat2Z.id in H0, H1, Hr. rewrite <- Hdata in Hr.
    exists b0, b1.
    split; [exact H0 |]. split; [exact H1 |].
    split; [exact (file_bytes_nth_range _ _ _ _ _ H0) |].
    split; [exact (file_bytes_nth_range _ _ _ _ _ H1) |].
    split; intros Ho'; rewrite Ho' in Hr; exact Hr.
  - intros loc kl nd h Hpre Hm Hl.
    pose proof (read_preamble_bounds _ _ _ _ _ _ Hpre) as (Hloc & Hkl & Hnd).
    destruct (isfread_bad_order todecimal numpy file w loc kl nd h Hpre Hm Hl)
      as (e & Hrun & He).
    exists e. eexists. split; [exact Hrun |]. split; [| exact He].
    apply after_digits_pos; lia.
Qed.

(** C8.  With a point format other than "Y" and "ENV", [isfread] ends in an
    exception and returns nothing; when the block could be read, the
    exception is the [sys.exit] of the last branch. *)
Theorem unknown_point_format_is_fatal (todecimal : Z -> option Z) (numpy : numpy_version)
    (file : list Byte.byte) (w : world) (loc kl nd : Z) (h : header) :
  isfread_py3.read_preamble todecimal (header_bytes file) = inr (loc, kl, nd, h) ->
  pointformat h <> lit "Y" -> pointformat h <> lit "ENV" ->
  (exists e w', isfread_py3.isfread todecimal numpy file w = (inl e, w'))
  /\ forall data w2,
       isfread_py3.read_block file loc kl nd h (after_header file w) = (inr data, w2) ->
       isfread_py3.isfread todecimal numpy file w
       = (inl (SystemExit isfread_py3.bad_point_format), w2).
Proof. apply isfread_bad_format. Qed.

(** ** Slices and single characters *)

Lemma clamp_inside (i n : Z) : 0 <= i <= n -> clamp i n = i.
Proof. intros H. unfold clamp. destruct (i <? 0) eqn:E; lia. Qed.

Lemma slice_prefix {A : Type} (s : list A) (m : Z) :
  0 <= m -> slice s 0 m = firstn (Z.to_nat m) s.
Proof.
  intros Hm. unfold slice. pose proof (len_nonneg s) as Hs.
  rewrite (clamp_inside 0) by lia. cbn [Z.to_nat skipn]. rewrite Z.sub_0_r.
  unfold clamp. destruct (m <? 0) eqn:E; [lia |].
  destruct (Z.le_gt_cases m (len s)).
  - now rewrite Z.min_l by lia.
  - rewrite Z.min_r by lia. unfold len.
    rewrite Nat2Z.id, firstn_all. symmetry. apply firstn_all2. unfold len in *. lia.
Qed.

Lemma slice_middle {A : Type} (a v b : list A) :
  slice (a ++ v ++ b) (len a) (len a + len v) = v.
Proof.
  unfold slice. pose proof (len_nonneg a). pose proof (len_nonneg v).
  pose proof (len_nonneg b).
  rewrite !clamp_inside by (rewrite !len_app; lia).
  replace (len a + len v - len a) with (len v) by lia.
  unfold len. rewrite !Nat2Z.id, skipn_app_exact. apply firstn_app_exact.
Qed.

Lemma startswith_char_skip (c : Z) (a rest : str) :
  ~ In c a ->
  forall j, (j < List.length a)%nat ->
            startswith [c] (skipn j (a ++ rest)) = false.
Proof.
  intros Hc. induction a as [|x a IH]; intros j Hj; cbn [List.length] in Hj.
  - lia.
  - destruct j as [|j]; cbn [skipn app].
    + cbn [startswith]. destruct (Z.eqb_spec c x) as [-> | Hne]; [| reflexivity].
      exfalso. apply Hc. now left.
    + apply IH; [| lia]. intros Hin. apply Hc. now right.
Qed.

(** [s.find(c, start)] for a character [c] that comes first right after a
    stretch [a] without it. *)
Lemma find_char_after (pre a rest : str) (c : Z) :
  ~ In c a ->
  find (pre ++ a ++ c :: rest) [c] (len pre) = len pre + len a.
Proof.
  intros Hc. unfold find. pose proof (len_nonneg pre) as Hp.
  destruct (len pre <? 0) eqn:E; [lia |].
  destruct (len (pre ++ a ++ c :: rest) <? len pre) eqn:E2.
  - rewrite len_app in E2. pose proof (len_nonneg (a ++ c :: rest)). lia.
  - unfold len at 1. rewrite Nat2Z.id, skipn_app_exact.
    rewrite (find_from_first [c] (List.length a)).
    + reflexivity.
    + rewrite skipn_app_exact. cbn [startswith]. now rewrite Z.eqb_refl.
    + now apply startswith_char_skip.
Qed.

Lemma find_from_char (c : Z) :
  forall (s : str) (i : Z), 0 <= i ->
    (find_from [c] s i =? -1) = negb (existsb (Z.eqb c) s).
Proof.
  induction s as [|x s IH]; intros i Hi; rewrite find_from_unfold.
  - reflexivity.
  - cbn [startswith existsb]. rewrite andb_true_r.
    destruct (c =? x).
    + cbn [orb negb]. lia.
    + cbn [orb]. apply IH. lia.
Qed.

Lemma find_char (s : str) (c : Z) :
  (find s [c] 0 =? -1) = negb (existsb (Z.eqb c) s).
Proof. rewrite find_zero. apply find_from_char. lia. Qed.

Lemma occurs_at_decomposed (pre tag rest : str) :
  occurs_at tag (pre ++ tag ++ rest) (len pre).
Proof.
  split; [apply len_nonneg |].
  unfold len. rewrite Nat2Z.id, skipn_app_exact. apply firstn_app_exact.
Qed.

Lemma tags_without_semicolon (tag : str) :
  In tag (numeric_tags legacy_tags ++ numeric_tags current_tags) ->
  ~ In 59 tag.
Proof.
  intros H. cbn in H.
  repeat (destruct H as [<- | H]; [cbn; intuition discriminate |]).
  contradiction.
Qed.

(** C6.  For a numeric tag of either convention, [getnum] reads the text
    between the end of the first occurrence of the tag and the next [;], as a
    float when that text holds a ['.'] and as an integer otherwise. *)
Theorem getnum_between_tag_and_semicolon (B : builtins)
    (tag pre val post : str) :
  In tag (numeric_tags legacy_tags ++ numeric_tags current_tags) ->
  (forall k, k < len pre -> ~ occurs_at tag (pre ++ tag ++ val ++ 59 :: post) k) ->
  ~ In 59 val ->
  getnum B (pre ++ tag ++ val ++ 59 :: post) tag =
  if existsb (Z.eqb 46) val
  then (x <-? py_float B val ;; inr (PFloat x))
  else (x <-? py_int B val ;; inr (PInt x)).
Proof.
  intros Htag Hfirst Hval.
  pose proof (tags_without_semicolon tag Htag) as Hsemi.
  assert (Hn1 : find (pre ++ tag ++ val ++ 59 :: post) tag 0 = len pre).
  { apply first_at_find. split; [apply occurs_at_decomposed | exact Hfirst]. }
  assert (Hn2 : find (pre ++ tag ++ val ++ 59 :: post) (lit ";") (len pre)
                = len pre + len tag + len val).
  { change (lit ";") with [59].
    replace (pre ++ tag ++ val ++ 59 :: post)
      with (pre ++ (tag ++ val) ++ 59 :: post) by now rewrite <- !app_assoc.
    rewrite find_char_after.
    - rewrite len_app. lia.
    - intros Hin. apply in_app_or in Hin as [Hin | Hin]; auto. }
  assert (Hs : slice (pre ++ tag ++ val ++ 59 :: post)
                 (len pre + len tag) (len pre + len tag + len val) = val).
  { replace (pre ++ tag ++ val ++ 59 :: post)
      with ((pre ++ tag) ++ val ++ 59 :: post) by now rewrite <- !app_assoc.
    rewrite <- len_app. apply slice_middle. }
  unfold getnum. cbv zeta. rewrite Hn1, Hn2, Hs.
  change (lit ".") with [46]. rewrite find_char.
  destruct (existsb (Z.eqb 46) val); reflexivity.
Qed.

(** ** The cut of the header, again *)

Lemma getitem_firstn {A : Type} (s : list A) (i m : Z) :
  0 <= i < m -> getitem (firstn (Z.to_nat m) s) i = getitem s i.
Proof.
  intros Hi. unfold getitem.
  destruct (i <? 0) eqn:E; [lia |].
  rewrite len_firstn by lia. cbn [orb].
  rewrite nth_error_firstn.
  destruct (Nat.ltb_spec (Z.to_nat i) (Z.to_nat m)); [| lia].
  destruct (len s <=? i) eqn:E1, (Z.min m (len s) <=? i) eqn:E2;
    try reflexivity; lia.
Qed.

Lemma firstn_header_bytes (file : list Byte.byte) (m : Z) :
  firstn (Z.to_nat m) (header_bytes file)
  = map byte_val (firstn 511 (firstn (Z.to_nat m) file)).
Proof.
  unfold header_bytes. rewrite firstn_map, !firstn_firstn.
  now rewrite Nat.min_comm.
Qed.


(** * The Python 2 script *)

Lemma py2_unsupported_iff (head : header) :
  isfread_py2.unsupported head = true <->
  (py_ne_int (bytenum head) 2 = true \/ py_ne_int (bitnum head) 16 = true
   \/ encoding head <> lit "BIN" \/ binformat head <> lit "RI"
   \/ pointformat head <> lit "Y").
Proof.
  unfold isfread_py2.unsupported.
  rewrite !orb_true_iff, !negb_true_iff, !cmp_nonzero. tauto.
Qed.

Lemma py2_unsupported_iff_false (head : header) :
  isfread_py2.unsupported head = false -> pointformat head = lit "Y".
Proof.
  unfold isfread_py2.unsupported. rewrite !orb_false_iff, !negb_false_iff.
  intros (_ & H). now apply cmp_zero.
Qed.

Lemma read_ok_open (file : list Byte.byte) (n : Z) (w w' : world) (b : bytes) :
  read file n w = (inr b, w') -> fclosed w' = false.
Proof.
  unfold read. destruct (fclosed w); [discriminate |].
  intros H. injection H as _ <-. reflexivity.
Qed.

(** The run of the Python 2 script up to the check of the supported cases. *)
Lemma isfread_py2_unfold (B : builtins) (file : list Byte.byte) (w : world) :
  isfread_py2.isfread B file w =
  match read_header B legacy_tags (header_bytes file) with
  | inl e => (inl e, after_header file w)
  | inr head =>
      bind (if isfread_py2.unsupported head
            then bind close (fun _ => print isfread_py2.unable)
            else ret tt)
        (fun _ =>
           let ii := find (header_bytes file) (lit ":CURVE #") 0 in
           seek (ii + 8) ;;
           one <- read file 1 ;;
           skip <- lift (py_int B one) ;;
           digits <- read file skip ;;
           n1 <- lift (py_int B digits) ;;
           order <- lift (dict_get dict_endian (byteorder head)) ;;
           fmt <- lift (fmt_of order (npts head)) ;;
           n2 <- lift (calcsize fmt) ;;
           (if negb (n1 =? n2) then print isfread_py2.warning else ret tt) ;;
           string_data <- read file n2 ;;
           data <- lift (unpack fmt string_data) ;;
           v <- lift (mapM (value_of head) data) ;;
           x <- lift (idx <-? range_num (npts head) ;; mapM (time_of head) idx) ;;
           close ;;
           ret (x, v, head))
        (after_header file w)
  end.
Proof.
  unfold isfread_py2.isfread.
  rewrite (bind_step open _ w (mkWorld 0 false (stdout w)) tt) by reflexivity.
  erewrite bind_step by (apply read_run; [reflexivity | lia]).
  cbn [fpos stdout]. rewrite file_bytes_header.
  fold (after_header file w).
  unfold bind at 1, lift at 1.
  destruct (read_header B legacy_tags (header_bytes file)) as [e|head];
    reflexivity.
Qed.

(** C10.  In the Python 2 script, a header outside the supported cases makes
    [isfread] print its message and close the file, and then go on: the next
    call on the file, [seek], raises [ValueError] (I/O operation on closed
    file), so that nothing is returned. *)
Theorem py2_unsupported_file_is_closed_then_used (B : builtins)
    (file : list Byte.byte) (w : world) (head : header) :
  read_header B legacy_tags (header_bytes file) = inr head ->
  (py_ne_int (bytenum head) 2 = true \/ py_ne_int (bitnum head) 16 = true
   \/ encoding head <> lit "BIN" \/ binformat head <> lit "RI"
   \/ pointformat head <> lit "Y") ->
  isfread_py2.isfread B file w =
  (inl closed_file,
   mkWorld (len (header_bytes file)) true (stdout w ++ [isfread_py2.unable])).
Proof.
  intros Hh Hu. apply py2_unsupported_iff in Hu.
  rewrite isfread_py2_unfold, Hh, Hu. reflexivity.
Qed.

(** * What [int()] and [float()] accept *)

Lemma span_split (p : Z -> bool) :
  forall (s a b : str),
    span p s = (a, b) -> s = a ++ b /\ Forall (fun c => p c = true) a.
Proof.
  induction s as [|c s IH]; intros a b H; cbn [span] in H.
  - injection H as <- <-. split; [reflexivity | constructor].
  - destruct (p c) eqn:Ec.
    + destruct (span p s) as [a' b'] eqn:Es. injection H as <- <-.
      destruct (IH a' b' eq_refl) as [-> Hf].
      split; [reflexivity | constructor; assumption].
    + injection H as <- <-. split; [reflexivity | constructor].
Qed.

Lemma lstrip_split (p : Z -> bool) :
  forall s : str,
    exists ws, s = ws ++ lstrip_by p s /\ Forall (fun c => p c = true) ws.
Proof.
  induction s as [|c s (ws & Hs & Hw)]; cbn [lstrip_by].
  - exists []. split; [reflexivity | constructor].
  - destruct (p c) eqn:Ec.
    + exists (c :: ws). split; [cbn; f_equal; exact Hs | constructor; assumption].
    + exists []. split; [reflexivity | constructor].
Qed.

Lemma rstrip_split (p : Z -> bool) (s : str) :
  exists ws, s = rstrip_by p s ++ ws /\ Forall (fun c => p c = true) ws.
Proof.
  unfold rstrip_by. destruct (lstrip_split p (rev s)) as (ws & Hs & Hw).
  exists (rev ws). split.
  - rewrite <- rev_app_distr, <- Hs. now rewrite rev_involutive.
  - apply Forall_rev. exact Hw.
Qed.

(** The characters of a text once its underscores are removed. *)
Lemma strip_underscores_chars :
  forall (s s' : str) (prev : Z),
    strip_underscores prev s = Some s' ->
    forall c, In c s -> c = UNDERSCORE \/ In c s'.
Proof.
  induction s as [|x s IH]; intros s' prev H c Hc; [contradiction |].
  cbn [strip_underscores] in H.
  destruct (x =? UNDERSCORE) eqn:Ex.
  - destruct (Py_ISDIGIT prev); [| discriminate].
    destruct Hc as [<- | Hc]; [left; lia | eauto].
  - destruct ((prev =? UNDERSCORE) && negb (Py_ISDIGIT x)); [discriminate |].
    destruct (strip_underscores x s) as [t|] eqn:Et; [| discriminate].
    injection H as <-.
    destruct Hc as [<- | Hc]; [right; now left |].
    destruct (IH t x Et c Hc); [now left | right; now right].
Qed.

Lemma int_ascii_chars (s : str) (v : Z) :
  int_ascii s = inr v -> Forall (fun c => int_char c = true) s.
Proof.
  unfold int_ascii.
  destruct (lstrip_split Py_ISSPACE s) as (ws & Hs & Hws).
  set (s1 := lstrip_by Py_ISSPACE s) in *.
  destruct (take_sign s1) as [neg s2] eqn:Esg.
  destruct (span (fun c => Py_ISDIGIT c || (c =? UNDERSCORE)) s2)
    as [body rest] eqn:Esp.
  destruct (strip_underscores 0 body) as [[|d ds]|]; try discriminate.
  destruct (forallb Py_ISSPACE rest) eqn:Er; [| discriminate]. intros _.
  apply span_split in Esp as [Hs2 Hbody].
  rewrite forallb_forall in Er.
  assert (H2 : Forall (fun c => int_char c = true) s2).
  { rewrite Hs2. apply Forall_app. split.
    - eapply Forall_impl; [| exact Hbody]. unfold int_char. intros c Hc.
      cbv beta in Hc. lia.
    - apply Forall_forall. intros c Hc. apply Er in Hc. unfold int_char. lia. }
  assert (H1 : Forall (fun c => int_char c = true) s1).
  { destruct (take_sign_cases s1) as [(r & Hr & Ht) | [(r & Hr & Ht) | (Ht & _)]];
      rewrite Ht in Esg; injection Esg as <- <-.
    - rewrite Hr. constructor; [reflexivity | exact H2].
    - rewrite Hr. constructor; [reflexivity | exact H2].
    - exact H2. }
  rewrite Hs. apply Forall_app. split; [| exact H1].
  eapply Forall_impl; [| exact Hws]. unfold int_char. intros c Hc.
  cbv beta in Hc. lia.
Qed.

Lemma take_sign_chars (s r : str) (neg : bool) :
  take_sign s = (neg, r) ->
  Forall (fun c => float_char c = true) r ->
  Forall (fun c => float_char c = true) s.
Proof.
  intros Ht Hr.
  destruct (take_sign_cases s) as [(r' & Hs & Ht') | [(r' & Hs & Ht') | (Ht' & _)]];
    rewrite Ht' in Ht; injection Ht as <- <-; subst; auto;
    constructor; auto.
Qed.

Lemma digits_float_chars (ds : str) :
  Forall (fun c => Py_ISDIGIT c = true) ds ->
  Forall (fun c => float_char c = true) ds.
Proof.
  intros H. eapply Forall_impl; [| exact H].
  unfold float_char. intros c Hc. cbv beta in Hc. lia.
Qed.

Lemma frac_part_cases (s : str) :
  (exists r, s = 46 :: r /\ frac_part s = span Py_ISDIGIT r)
  \/ frac_part s = ([], s).
Proof.
  destruct s as [|c r]; [now right |].
  destruct (Z.eq_dec c 46) as [-> | Hne]; [left; eauto |].
  right. unfold frac_part.
  destruct c as [|p|p]; try reflexivity.
  do 6 (destruct p as [p|p|]; try reflexivity). congruence.
Qed.

Lemma exp_part_chars (s s4 : str) (ex : Z) :
  exp_part s = (ex, s4) -> s4 = [] ->
  Forall (fun c => float_char c = true) s.
Proof.
  destruct s as [|c r]; [constructor |]. unfold exp_part.
  destruct ((c =? 101) || (c =? 69)) eqn:Ee.
  - destruct (take_sign r) as [eneg r1] eqn:Er.
    destruct (span Py_ISDIGIT r1) as [ed r2] eqn:Ed.
    apply span_split in Ed as [Hr1 Hed].
    destruct ed as [|e0 ed].
    + intros H0 ->. discriminate.
    + intros H0 ->.
      assert (r2 = []) by congruence. subst r2.
      constructor; [unfold float_char, is_letter; lia |].
      apply (take_sign_chars _ _ _ Er). rewrite Hr1, app_nil_r.
      now apply digits_float_chars.
  - intros H0 ->. discriminate.
Qed.

Lemma dg_strtod_chars (s : str) (x : float) :
  dg_strtod s = Some (x, []) -> Forall (fun c => float_char c = true) s.
Proof.
  unfold dg_strtod.
  destruct (take_sign s) as [neg s1] eqn:Esg.
  destruct (span Py_ISDIGIT s1) as [ip s2] eqn:Eip.
  apply span_split in Eip as [Hs1 Hip].
  destruct (frac_part s2) as [fp s3] eqn:Efp.
  destruct (ip ++ fp) as [|? ?]; [discriminate |].
  destruct (exp_part s3) as [ex s4] eqn:Eex.
  intros H. assert (s4 = []) by congruence. subst s4.
  apply (take_sign_chars _ _ _ Esg). rewrite Hs1.
  apply Forall_app. split; [now apply digits_float_chars |].
  pose proof (exp_part_chars _ _ _ Eex eq_refl) as Hs3.
  destruct (frac_part_cases s2) as [(r & -> & Hf) | Hf]; rewrite Hf in Efp.
  - apply span_split in Efp as [-> Hfp].
    constructor; [reflexivity |]. apply Forall_app.
    split; [now apply digits_float_chars | exact Hs3].
  - injection Efp as <- <-. exact Hs3.
Qed.

Lemma tolower_letter (c x : Z) :
  Py_TOLOWER c = x -> is_letter x = true -> is_letter c = true.
Proof. unfold Py_TOLOWER, is_letter. intros <-. destruct ((65 <=? c) && (c <=? 90)) eqn:E; lia. Qed.

Lemma ci_match_letters (t : str) :
  Forall (fun c => is_letter c = true) t ->
  forall s, startswith t (map Py_TOLOWER s) = true ->
            Forall (fun c => is_letter c = true) (firstn (List.length t) s).
Proof.
  induction 1 as [|x t Hx _ IH]; intros s Hs; [constructor |].
  destruct s as [|c s]; [discriminate |].
  cbn [map startswith] in Hs. apply andb_true_iff in Hs as [Hc Hs].
  cbn [List.length firstn]. constructor; [| now apply IH].
  apply (tolower_letter c x); [lia | exact Hx].
Qed.

Lemma letters_float_chars (s : str) :
  Forall (fun c => is_letter c = true) s ->
  Forall (fun c => float_char c = true) s.
Proof.
  intros H. eapply Forall_impl; [| exact H].
  unfold float_char. intros c Hc. cbv beta in Hc. lia.
Qed.

Lemma skipn_nil_firstn {A : Type} (n : nat) (s : list A) :
  skipn n s = [] -> firstn n s = s.
Proof. intros H. rewrite <- (firstn_skipn n s) at 2. now rewrite H, app_nil_r. Qed.

Lemma parse_inf_or_nan_chars (s : str) (x : float) :
  parse_inf_or_nan s = Some (x, []) -> Forall (fun c => float_char c = true) s.
Proof.
  unfold parse_inf_or_nan.
  destruct (take_sign s) as [neg s1] eqn:Esg.
  intros H. apply (take_sign_chars _ _ _ Esg). apply letters_float_chars.
  assert (L3 : Forall (fun c => is_letter c = true) (lit "inf"))
    by (repeat constructor).
  assert (L5 : Forall (fun c => is_letter c = true) (lit "inity"))
    by (repeat constructor).
  assert (N3 : Forall (fun c => is_letter c = true) (lit "nan"))
    by (repeat constructor).
  unfold case_insensitive_match in H.
  destruct (startswith (lit "inf") (map Py_TOLOWER s1)) eqn:E1.
  - pose proof (ci_match_letters _ L3 _ E1) as H3.
    change (List.length (lit "inf")) with 3%nat in H3.
    rewrite <- (firstn_skipn 3 s1). apply Forall_app. split; [exact H3 |].
    destruct (startswith (lit "inity") (map Py_TOLOWER (skipn 3 s1))) eqn:E2.
    + pose proof (ci_match_letters _ L5 _ E2) as H5.
      change (List.length (lit "inity")) with 5%nat in H5.
      assert (Hr : skipn 5 (skipn 3 s1) = []) by congruence.
      now rewrite (skipn_nil_firstn _ _ Hr) in H5.
    + assert (Hr : skipn 3 s1 = []) by congruence. rewrite Hr. constructor.
  - destruct (startswith (lit "nan") (map Py_TOLOWER s1)) eqn:E3; [| discriminate].
    pose proof (ci_match_letters _ N3 _ E3) as H3.
    change (List.length (lit "nan")) with 3%nat in H3.
    assert (Hr : skipn 3 s1 = []) by congruence.
    now rewrite (skipn_nil_firstn _ _ Hr) in H3.
Qed.

Lemma float_inner_chars (s : str) (x : float) :
  float_from_string_inner s = inr x ->
  Forall (fun c => float_char c = true) s.
Proof.
  unfold float_from_string_inner.
  destruct (lstrip_split Py_ISSPACE s) as (ws1 & Hs & Hw1).
  destruct (rstrip_split Py_ISSPACE (lstrip_by Py_ISSPACE s)) as (ws2 & Hs2 & Hw2).
  set (core := rstrip_by Py_ISSPACE (lstrip_by Py_ISSPACE s)) in *.
  intros H.
  assert (Hcore : Forall (fun c => float_char c = true) core).
  { destruct (dg_strtod core) as [[y rest]|] eqn:Ed.
    - destruct rest; [| discriminate]. eapply dg_strtod_chars; eauto.
    - destruct (parse_inf_or_nan core) as [[y rest]|] eqn:Ep; [| discriminate].
      destruct rest; [| discriminate]. eapply parse_inf_or_nan_chars; eauto. }
  assert (Hsp : forall ws, Forall (fun c => Py_ISSPACE c = true) ws ->
                           Forall (fun c => float_char c = true) ws).
  { intros ws Hws. eapply Forall_impl; [| exact Hws].
    unfold float_char. intros c Hc. cbv beta in Hc. lia. }
  rewrite Hs, Hs2. repeat (apply Forall_app; split); auto.
Qed.

Lemma float_ascii_chars (s : str) (x : float) :
  float_ascii s = inr x -> Forall (fun c => float_char c = true) s.
Proof.
  unfold float_ascii.
  destruct (existsb (Z.eqb UNDERSCORE) s).
  - destruct (strip_underscores 0 s) as [s'|] eqn:Es; [| discriminate].
    intros H. apply float_inner_chars in H.
    apply Forall_forall. intros c Hc.
    destruct (strip_underscores_chars _ _ _ Es c Hc) as [-> | Hin].
    + reflexivity.
    + rewrite Forall_forall in H. auto.
  - apply float_inner_chars.
Qed.

(** A text with a ['#'] in it is no number: [int()] and [float()] of
    Python 3 raise [ValueError] on it. *)
Lemma transform_keeps_hash (todecimal : Z -> option Z) :
  forall s : str,
    In 35 s ->
    In 35 (transform_decimal_and_space todecimal s)
    \/ In 63 (transform_decimal_and_space todecimal s).
Proof.
  induction s as [|ch s IH]; intros H; [contradiction |].
  cbn [transform_decimal_and_space].
  destruct (ch <? 127) eqn:E.
  - destruct H as [-> | H]; [left; now left |].
    destruct (IH H); [left | right]; now right.
  - assert (Hs : In 35 s) by (destruct H as [-> | H]; [discriminate | exact H]).
    destruct (Py_UNICODE_ISSPACE ch).
    + destruct (IH Hs); [left | right]; now right.
    + destruct (todecimal ch) as [d|]; [| right; now left].
      destruct ((0 <=? d) && (d <=? 9)); [| right; now left].
      destruct (IH Hs); [left | right]; now right.
Qed.

Lemma python3_rejects_hash (todecimal : Z -> option Z) (s : str) :
  In 35 s ->
  (exists e, py_int (python3 todecimal) s = inl e)
  /\ (exists e, py_float (python3 todecimal) s = inl e).
Proof.
  intros H. cbn [py_int py_float python3].
  pose proof (transform_keeps_hash todecimal s H) as Ht.
  split.
  - destruct (int_ascii (transform_decimal_and_space todecimal s)) as [e|v] eqn:E;
      [eauto |].
    apply int_ascii_chars in E. rewrite Forall_forall in E.
    destruct Ht as [Ht | Ht]; apply E in Ht; discriminate.
  - destruct (float_ascii (transform_decimal_and_space todecimal s)) as [e|v] eqn:E;
      [eauto |].
    apply float_ascii_chars in E. rewrite Forall_forall in E.
    destruct Ht as [Ht | Ht]; apply E in Ht; discriminate.
Qed.

(** * The decoded text *)

Lemma utf8_decode_ascii (a : str) :
  Forall (fun c => (c <? 128) = true) a -> utf8_decode a = Some a.
Proof.
  induction 1 as [|c a Hc _ IH]; [reflexivity |].
  cbn [utf8_decode]. now rewrite Hc, IH.
Qed.

Lemma utf8_decode_nonempty (b : Z) (l : bytes) (t : str) :
  utf8_decode (b :: l) = Some t -> t <> [].
Proof.
  cbn [utf8_decode].
  repeat match goal with
  | |- (if ?c then _ else _) = _ -> _ => destruct c
  | |- match ?l with [] => _ | _ :: _ => _ end = _ -> _ => destruct l
  | |- option_map _ ?o = _ -> _ => destruct o; cbn [option_map]
  | |- None = _ -> _ => discriminate
  | |- Some _ = Some _ -> _ => intros H; injection H as <-; discriminate
  end.
Qed.

(** An ASCII byte is a character of its own: the text splits around it. *)
Lemma utf8_decode_ascii_split (c : Z) (y : bytes) :
  (c <? 128) = true ->
  forall (n : nat) (x : bytes) (t : str),
    (List.length x < n)%nat ->
    utf8_decode (x ++ c :: y) = Some t ->
    exists t1 t2,
      utf8_decode x = Some t1 /\ utf8_decode y = Some t2 /\ t = t1 ++ c :: t2.
Proof.
  intros Hc. assert (Hnc : is_cont c = false) by (unfold is_cont; lia).
  induction n as [|n IH]; intros x t Hlen H; [lia |].
  destruct x as [|b0 r0].
  - cbn [app utf8_decode] in H. rewrite Hc in H.
    destruct (utf8_decode y) as [t2|]; [| discriminate].
    injection H as <-. exists [], t2. auto.
  - cbn [List.length] in Hlen. cbn [app] in H.
    assert (Hstep : forall (r : bytes) (cp : Z) (rest : bytes),
               (List.length r < n)%nat ->
               option_map (cons cp) (utf8_decode (r ++ c :: y)) = Some t ->
               exists t1 t2,
                 option_map (cons cp) (utf8_decode r) = Some t1
                 /\ utf8_decode y = Some t2 /\ t = t1 ++ c :: t2).
    { intros r cp _ Hr Ho.
      destruct (utf8_decode (r ++ c :: y)) as [t'|] eqn:Et; [| discriminate].
      injection Ho as <-.
      destruct (IH r t' Hr Et) as (t1 & t2 & H1 & H2 & ->).
      rewrite H1. exists (cp :: t1), t2. auto. }
    cbn [utf8_decode] in H |- *.
    destruct (b0 <? 128).
    { apply (Hstep r0 b0 []); [lia | exact H]. }
    destruct ((194 <=? b0) && (b0 <=? 223)).
    { destruct r0 as [|b1 r1]; cbn [app] in H.
      - rewrite Hnc in H. discriminate.
      - destruct (is_cont b1); [| discriminate].
        cbn [List.length] in Hlen. apply (Hstep r1 _ []); [lia | exact H]. }
    destruct ((224 <=? b0) && (b0 <=? 239)).
    { destruct r0 as [|b1 [|b2 r2]]; cbn [app] in H.
      - destruct y; [discriminate |]. rewrite Hnc in H. discriminate.
      - rewrite Hnc, andb_false_r in H. discriminate.
      - match type of H with (if ?g then _ else _) = _ => destruct g end;
          [| discriminate].
        cbn [List.length] in Hlen. apply (Hstep r2 _ []); [lia | exact H]. }
    destruct ((240 <=? b0) && (b0 <=? 244)); [| discriminate].
    destruct r0 as [|b1 [|b2 [|b3 r3]]]; cbn [app] in H.
    + destruct y as [|? [|? ?]]; try discriminate. rewrite Hnc in H. discriminate.
    + destruct y; [discriminate |]. rewrite Hnc, andb_false_r in H. discriminate.
    + rewrite Hnc, andb_false_r in H. discriminate.
    + match type of H with (if ?g then _ else _) = _ => destruct g end;
        [| discriminate].
      cbn [List.length] in Hlen. apply (Hstep r3 _ []); [lia | exact H].
Qed.

Lemma utf8_decode_ascii_suffix (a : str) :
  Forall (fun c => (c <? 128) = true) a ->
  forall (x : bytes) (t : str),
    utf8_decode (x ++ a) = Some t ->
    exists t1, utf8_decode x = Some t1 /\ t = t1 ++ a.
Proof.
  induction 1 as [|c a Hc Ha IH]; intros x t H.
  - rewrite app_nil_r in H. exists t. now rewrite app_nil_r.
  - destruct (utf8_decode_ascii_split c a Hc (S (List.length x)) x t)
      as (t1 & t2 & H1 & H2 & ->); [lia | exact H |].
    rewrite (utf8_decode_ascii a Ha) in H2. injection H2 as <-. eauto.
Qed.

(** The ['#'] of the marker is in the text of the header, after six
    characters at least and before one more at least. *)
Lemma hash_after_marker (key0 : str) (buf : bytes) (loc k nd : nat) (b : Z) (text : str) :
  Forall (fun c => (c <? 128) = true) key0 ->
  k = List.length (key0 ++ [35]) ->
  firstn k (skipn loc buf) = key0 ++ [35] ->
  nth_error buf (loc + k) = Some b ->
  utf8_decode (firstn (loc + k + 1 + nd) buf) = Some text ->
  exists t1 t2,
    text = t1 ++ 35 :: t2 /\ (List.length key0 <= List.length t1)%nat /\ t2 <> [].
Proof.
  intros Hascii Hk Hkey Hb Hdec.
  assert (Hlen : (loc + k < List.length buf)%nat).
  { apply nth_error_Some. congruence. }
  assert (Hbuf : exists rest, buf = firstn loc buf ++ (key0 ++ [35]) ++ b :: rest).
  { exists (skipn (S k) (skipn loc buf)).
    rewrite <- (firstn_skipn loc buf) at 1. f_equal.
    rewrite <- (firstn_skipn k (skipn loc buf)) at 1. rewrite Hkey. f_equal.
    assert (Hn : nth_error (skipn k (skipn loc buf)) 0 = Some b).
    { rewrite !nth_error_skipn. rewrite <- Hb. f_equal. lia. }
    destruct (skipn k (skipn loc buf)) as [|b' r] eqn:Er; [discriminate |].
    cbn in Hn. injection Hn as ->.
    change (S k) with (1 + k)%nat. rewrite <- skipn_skipn, Er. reflexivity. }
  destruct Hbuf as (rest & Hbuf).
  assert (Hpre : List.length (firstn loc buf) = loc)
    by (rewrite length_firstn; lia).
  set (pre := firstn loc buf) in *.
  assert (Hcut : firstn (loc + k + 1 + nd) buf
                 = (pre ++ key0) ++ 35 :: b :: firstn nd rest).
  { rewrite Hbuf at 1.
    replace (loc + k + 1 + nd)%nat with (List.length pre + (k + (1 + nd)))%nat by lia.
    rewrite firstn_app_2. rewrite Hk, firstn_app_2.
    cbn [firstn Nat.add]. now rewrite <- !app_assoc. }
  rewrite Hcut in Hdec.
  destruct (utf8_decode_ascii_split 35 (b :: firstn nd rest) eq_refl
              (S (List.length (pre ++ key0))) (pre ++ key0) text)
    as (t1 & t2 & H1 & H2 & ->); [lia | exact Hdec |].
  destruct (utf8_decode_ascii_suffix key0 Hascii pre t1 H1) as (tp & _ & ->).
  exists (tp ++ key0), t2. repeat split.
  - rewrite length_app. lia.
  - eapply utf8_decode_nonempty; eauto.
Qed.

Lemma hash_in_text (todecimal : Z -> option Z) (buf : bytes)
    (loc kl nd : Z) (older : bool) (text : str) :
  isfread_py3.locate buf = inr (loc, kl, older) ->
  isfread_py3.preamble todecimal buf loc kl = inr (nd, text) ->
  exists t1 t2, text = t1 ++ 35 :: t2 /\ 6 <= len t1 /\ t2 <> [].
Proof.
  intros Hl Hp.
  apply preamble_ok in Hp as (b & Hb & _ & Hnd & Hdec).
  assert (Hkey : exists key0,
             Forall (fun c => (c <? 128) = true) key0
             /\ (6 <= List.length key0)%nat
             /\ kl = len (key0 ++ [35])
             /\ occurs_at (key0 ++ [35]) buf loc).
  { destruct (locate_cases buf) as [(i & Hf & Hl') | [(_ & i & Hf & Hl') | (_ & _ & Hl')]];
      rewrite Hl' in Hl; try discriminate; injection Hl as <- <- <-;
      destruct Hf as [Ho _].
    - exists (lit ":CURV "). repeat split; try apply Ho; repeat constructor.
    - exists (lit ":CURVE "). repeat split; try apply Ho; cbn; try lia;
        repeat constructor. }
  destruct Hkey as (key0 & Hascii & H6 & Hkl & [Hloc Ho]).
  assert (Hkl0 : 0 <= kl) by (rewrite Hkl; apply len_nonneg).
  unfold getitem in Hb.
  destruct (loc + kl <? 0) eqn:E; [lia |].
  destruct ((loc + kl <? 0) || (len buf <=? loc + kl)); [discriminate |].
  unfold decode in Hdec.
  destruct (utf8_decode (slice buf 0 (loc + kl + 1 + nd))) as [t|] eqn:Ed;
    [| discriminate].
  injection Hdec as ->. rewrite slice_prefix in Ed by lia.
  destruct (hash_after_marker key0 buf (Z.to_nat loc) (Z.to_nat kl) (Z.to_nat nd) b text)
    as (t1 & t2 & Ht & Hlen & Hne); auto.
  - rewrite Hkl. unfold len. now rewrite Nat2Z.id.
  - replace (Z.to_nat kl) with (List.length (key0 ++ [35])); [exact Ho |].
    rewrite Hkl. unfold len. now rewrite Nat2Z.id.
  - rewrite <- Hb. f_equal. lia.
  - rewrite <- Ed. do 2 f_equal. lia.
  - exists t1, t2. repeat split; auto. unfold len. lia.
Qed.

Lemma find_last_char (s : str) (c : Z) :
  1 <= len s -> find s [c] (-1) = -1 \/ find s [c] (-1) = len s - 1.
Proof.
  intros Hs. unfold find. cbn [Z.ltb Z.compare].
  rewrite Z.max_r by lia.
  destruct (len s <? -1 + len s) eqn:E; [lia |].
  assert (Hl : List.length (skipn (Z.to_nat (-1 + len s)) s) = 1%nat).
  { rewrite length_skipn. unfold len in *. lia. }
  destruct (skipn (Z.to_nat (-1 + len s)) s) as [|x [|? ?]]; try discriminate.
  rewrite find_from_unfold. cbn [startswith]. rewrite andb_true_r.
  destruct (c =? x); [right; lia | left].
  rewrite find_from_unfold. reflexivity.
Qed.

(** The text that a tag reader takes for the value of a tag that is not in
    the header holds the ['#'] of the marker. *)
Lemma absent_tag_value_has_hash (text t1 t2 tag : str) :
  text = t1 ++ 35 :: t2 -> 6 <= len t1 -> t2 <> [] ->
  1 <= len tag <= 6 ->
  In 35 (slice text (-1 + len tag) (find text (lit ";") (-1))).
Proof.
  intros Ht H1 H2 Htag.
  assert (Hl2 : 1 <= len t2).
  { destruct t2; [congruence |]. rewrite len_cons. pose proof (len_nonneg t2). lia. }
  assert (HL : len text = len t1 + 1 + len t2).
  { rewrite Ht, len_app, len_cons. lia. }
  unfold slice.
  assert (Hb : clamp (find text (lit ";") (-1)) (len text) = len text - 1).
  { change (lit ";") with [59].
    destruct (find_last_char text 59) as [-> | ->]; [lia | |]; unfold clamp.
    - cbn [Z.ltb Z.compare]. lia.
    - destruct (len text - 1 <? 0) eqn:E; lia. }
  rewrite Hb, clamp_inside by lia.
  set (a := Z.to_nat (-1 + len tag)).
  assert (Ha : (a <= List.length t1)%nat) by (unfold a, len in *; lia).
  assert (Hsk : skipn a text = skipn a t1 ++ 35 :: t2).
  { rewrite Ht, skipn_app. replace (a - List.length t1)%nat with 0%nat by lia.
    reflexivity. }
  rewrite Hsk, firstn_app. apply in_or_app. right.
  rewrite length_skipn.
  replace (Z.to_nat (len text - 1 - (-1 + len tag)) - (List.length t1 - a))%nat
    with (S (Z.to_nat (len t2 - 1))) by (unfold a, len in *; lia).
  now left.
Qed.

(** * A header without one of its tags *)

Lemma checked_tag_len (older : bool) (tag : str) :
  In tag (checked_tags (if older then legacy_tags else current_tags)) ->
  1 <= len tag <= 6.
Proof.
  intros H. destruct older; cbn in H;
    repeat (destruct H as [<- | H]; [cbn; lia |]); contradiction.
Qed.

Lemma getnum_absent_fails (todecimal : Z -> option Z) (text t1 t2 tag : str) :
  text = t1 ++ 35 :: t2 -> 6 <= len t1 -> t2 <> [] ->
  1 <= len tag <= 6 ->
  find text tag 0 = -1 ->
  exists e, getnum (python3 todecimal) text tag = inl e.
Proof.
  intros Ht H1 H2 Htag Hf. unfold getnum. cbv zeta. rewrite Hf.
  pose proof (absent_tag_value_has_hash text t1 t2 tag Ht H1 H2 Htag) as Hh.
  destruct (python3_rejects_hash todecimal _ Hh) as [(e1 & E1) (e2 & E2)].
  destruct (find _ (lit ".") 0 =? -1).
  - rewrite E1. eexists. reflexivity.
  - rewrite E2. eexists. reflexivity.
Qed.

Lemma lstrip_keeps (p : Z -> bool) (c : Z) :
  p c = false -> forall s, In c s -> In c (lstrip_by p s).
Proof.
  intros Hc. induction s as [|x s IH]; intros H; [contradiction |].
  cbn [lstrip_by]. destruct (p x) eqn:Ex; [| exact H].
  destruct H as [-> | H]; [congruence | auto].
Qed.

Lemma getstr_absent_has_hash (todecimal : Z -> option Z) (text t1 t2 tag : str) :
  text = t1 ++ 35 :: t2 -> 6 <= len t1 -> t2 <> [] ->
  1 <= len tag <= 6 ->
  find text tag 0 = -1 ->
  In 35 (getstr (python3 todecimal) text tag).
Proof.
  intros Ht H1 H2 Htag Hf. unfold getstr. cbv zeta. rewrite Hf.
  cbn [py_lstrip python3]. apply lstrip_keeps; [reflexivity |].
  eapply absent_tag_value_has_hash; eauto.
Qed.

(** The dictionary is not built when the number of one tag cannot be read. *)
Lemma read_header_fails (B : builtins) (t : tagset) (hdata tag : str) (e : exn) :
  In tag (numeric_tags t) ->
  getnum B hdata tag = inl e ->
  exists e', read_header B t hdata = inl e'.
Proof.
  intros Hin He. unfold read_header.
  repeat match goal with
  | |- exists _, rbind ?c _ = _ =>
      let E := fresh "E" in
      destruct c as [? | ?] eqn:E; cbn [rbind]; [eauto |]
  end.
  exfalso. unfold numeric_tags in Hin. cbn [In] in Hin.
  repeat (destruct Hin as [<- | Hin]; [congruence |]). contradiction.
Qed.

Lemma read_header_strings (B : builtins) (t : tagset) (hdata : str) (h : header) :
  read_header B t hdata = inr h ->
  byteorder h = getstr B hdata (t_byteorder t)
  /\ pointformat h = getstr B hdata (t_pointformat t).
Proof.
  unfold read_header. intros H.
  repeat match type of H with
  | rbind ?c _ = _ =>
      let a := fresh "a" in
      apply rbind_ok in H as (a & _ & H)
  end.
  apply inr_inj in H. subst h. split; reflexivity.
Qed.

Lemma no_hash_in_orders (s : str) :
  In 35 s -> s <> lit "MSB" /\ s <> lit "LSB" /\ s <> lit "Y" /\ s <> lit "ENV".
Proof.
  intros H. repeat split; intros ->; cbn in H; intuition discriminate.
Qed.

(** C9, as the code has it.  When the tag of a number, of the byte order or
    of the point format is not in the text of the header, [isfread]
    (Python 3) ends in an exception: the text taken for the value holds the
    ['#'] of the marker, which is no number, no byte order and no point
    format.  (Nothing is said of the other tags.) *)
Theorem missing_checked_tag_is_fatal (todecimal : Z -> option Z) (numpy : numpy_version)
    (file : list Byte.byte) (w : world) (loc kl nd : Z) (older : bool)
    (text tag : str) :
  isfread_py3.locate (header_bytes file) = inr (loc, kl, older) ->
  isfread_py3.preamble todecimal (header_bytes file) loc kl = inr (nd, text) ->
  In tag (checked_tags (if older then legacy_tags else current_tags)) ->
  absent tag text ->
  exists e w', isfread_py3.isfread todecimal numpy file w = (inl e, w').
Proof.
  intros Hl Hp Htag Habs.
  destruct (hash_in_text _ _ _ _ _ _ _ Hl Hp) as (t1 & t2 & Ht & H6 & Hne).
  pose proof (checked_tag_len older tag Htag) as Hlen.
  apply find_absent in Habs.
  set (t := if older then legacy_tags else current_tags) in *.
  assert (Hpre : isfread_py3.read_preamble todecimal (header_bytes file)
                 = (h <-? read_header (python3 todecimal) t text ;;
                    inr (loc, kl, nd, h))).
  { unfold isfread_py3.read_preamble. rewrite Hl. cbn [rbind]. rewrite Hp.
    cbn [rbind]. unfold isfread_py3.tupleHeader, isfread_py3.B, t.
    destruct older; reflexivity. }
  destruct (read_header (python3 todecimal) t text) as [e|h] eqn:Eh.
  { exists e. eexists. apply isfread_preamble_fails. rewrite Hpre. reflexivity. }
  cbn [rbind] in Hpre.
  destruct (read_header_strings _ _ _ _ Eh) as [Hbo Hpf].
  unfold checked_tags in Htag. apply in_app_or in Htag as [Hnum | Hstr].
  - destruct (getnum_absent_fails todecimal text t1 t2 tag Ht H6 Hne Hlen Habs)
      as (e & He).
    destruct (read_header_fails _ t text tag e Hnum He) as (e' & He').
    congruence.
  - destruct Hstr as [<- | [<- | []]].
    + pose proof (getstr_absent_has_hash todecimal text t1 t2 _ Ht H6 Hne Hlen Habs)
        as Hh.
      rewrite <- Hbo in Hh. apply no_hash_in_orders in Hh as (Hm & Hls & _).
      destruct (isfread_bad_order todecimal numpy file w loc kl nd h Hpre Hm Hls)
        as (e & He & _).
      eauto.
    + pose proof (getstr_absent_has_hash todecimal text t1 t2 _ Ht H6 Hne Hlen Habs)
        as Hh.
      rewrite <- Hpf in Hh. apply no_hash_in_orders in Hh as (_ & _ & Hy & He).
      apply (isfread_bad_format todecimal numpy file w loc kl nd h Hpre Hy He).
Qed.

(** * The envelope format *)

Lemma slice_full {A : Type} (l : list A) : slice l 0 (len l) = l.
Proof.
  unfold slice. pose proof (len_nonneg l).
  rewrite !clamp_inside by lia. cbn [Z.to_nat skipn].
  rewrite Z.sub_0_r. unfold len. rewrite Nat2Z.id. apply firstn_all.
Qed.

Lemma slice_tail {A : Type} (l : list A) : slice l 1 (len l) = skipn 1 l.
Proof.
  destruct l as [|x l]; [reflexivity |].
  unfold slice. pose proof (len_nonneg l). rewrite len_cons.
  rewrite !clamp_inside by lia. change (Z.to_nat 1) with 1%nat.
  cbn [skipn]. replace (1 + len l - 1) with (len l) by lia.
  unfold len. rewrite Nat2Z.id. apply firstn_all.
Qed.

Lemma stride2_nth {A : Type} :
  forall (i : nat) (l : list A),
    nth_error (stride_aux 2 0 l) i = nth_error l (2 * i).
Proof.
  induction i as [|i IH]; intros l.
  - destruct l; reflexivity.
  - destruct l as [|x [|y l]].
    + reflexivity.
    + cbn [stride_aux Nat.sub]. replace (2 * S i)%nat with (S (S (2 * i))) by lia.
      cbn [nth_error stride_aux]. destruct i; reflexivity.
    + cbn [stride_aux Nat.sub]. replace (2 * S i)%nat with (S (S (2 * i))) by lia.
      cbn [nth_error]. apply IH.
Qed.

Lemma stride2_length {A : Type} :
  forall (k : nat) (l : list A),
    (List.length l < k)%nat ->
    len (stride_aux 2 0 l) = (len l + 1) / 2.
Proof.
  induction k as [|k IH]; intros l Hk; [lia |].
  destruct l as [|x [|y l]].
  - reflexivity.
  - reflexivity.
  - cbn [stride_aux Nat.sub]. rewrite !len_cons.
    cbn [List.length] in Hk. rewrite IH by lia.
    replace (1 + (1 + len l) + 1) with ((len l + 1) + 1 * 2) by lia.
    rewrite Z.div_add by lia. lia.
Qed.

Lemma slice_step_even {A : Type} (l : list A) :
  slice_step l 0 (len l) 2 = stride_aux 2 0 l.
Proof. unfold slice_step. now rewrite slice_full. Qed.

Lemma slice_step_odd {A : Type} (l : list A) :
  slice_step l 1 (len l) 2 = stride_aux 2 0 (skipn 1 l).
Proof. unfold slice_step. now rewrite slice_tail. Qed.

(** [len(l[0:len(l):2])] and [len(l[1:len(l):2])] *)
Lemma slice_step_lengths {A : Type} (l : list A) :
  len (slice_step l 0 (len l) 2) = (len l + 1) / 2
  /\ len (slice_step l 1 (len l) 2) = len l / 2.
Proof.
  rewrite slice_step_even, slice_step_odd.
  rewrite (stride2_length (S (List.length l)) l) by lia.
  rewrite (stride2_length (S (List.length (skipn 1 l))) (skipn 1 l)) by lia.
  split; [reflexivity |].
  assert (Hsk : len (skipn 1 l) = Z.max 0 (len l - 1)).
  { change 1%nat with (Z.to_nat 1). apply len_skipn. lia. }
  rewrite Hsk. pose proof (len_nonneg l).
  destruct (Z.eq_dec (len l) 0) as [-> | Hnz]; [reflexivity |].
  rewrite Z.max_r by lia. f_equal. lia.
Qed.

(** The lists of a file decoded in format ENV, as they are handed to
    [numpy.array]: the times are as many as [int(npts / 2.)], the minima as
    many as the samples of even index, the maxima as many as the samples of
    odd index. *)
Lemma isfread_ENV_rows (todecimal : Z -> option Z) (numpy : numpy_version)
    (file : list Byte.byte) (w w' : world) (arr : ndarray) (h : header) :
  isfread_py3.isfread todecimal numpy file w = (inr (arr, h), w') ->
  pointformat h = lit "ENV" ->
  exists n n2 loc kl nd time mn mx,
    npts h = PInt n /\ 0 <= n
    /\ isfread_py3.read_preamble todecimal (header_bytes file) = inr (loc, kl, nd, h)
    /\ (byteorder h = lit "MSB" \/ byteorder h = lit "LSB")
    /\ int_ascii (count_digits file loc kl nd) = inr (2 * n)
    /\ (half <-? py_div_float (PInt n) (float_of_Z 2) ;; int_of_float half) = inr n2
    /\ np_array numpy [time; mn; mx] = inr arr
    /\ len time = Z.max 0 n2
    /\ len mn = (n + 1) / 2
    /\ len mx = n / 2
    /\ (forall i, (i < List.length time)%nat ->
          nth_error time i
          = Some (scaled_twice (xzero h) (xincr h) (ptoff h) (Z.of_nat i)))
    /\ (forall i, (i < List.length mn)%nat ->
          exists b0 b1,
            nth_error (file_bytes file (loc + kl + 1 + nd) (2 * n)) (4 * i) = Some b0
            /\ nth_error (file_bytes file (loc + kl + 1 + nd) (2 * n)) (4 * i + 1)
               = Some b1
            /\ nth_error mn i
               = Some (scaled (yzero h) (ymult h) (yoff h)
                         (if str_eqb (byteorder h) (lit "MSB")
                          then signed16 b0 b1 else signed16 b1 b0)))
    /\ (forall i, (i < List.length mx)%nat ->
          exists b0 b1,
            nth_error (file_bytes file (loc + kl + 1 + nd) (2 * n)) (4 * i + 2)
            = Some b0
            /\ nth_error (file_bytes file (loc + kl + 1 + nd) (2 * n)) (4 * i + 3)
               = Some b1
            /\ nth_error mx i
               = Some (scaled (yzero h) (ymult h) (yoff h)
                         (if str_eqb (byteorder h) (lit "MSB")
                          then signed16 b0 b1 else signed16 b1 b0))).
Proof.
  intros Hrun He.
  apply isfread_ok_inv in Hrun as (loc & kl & nd & data & w2 & Hpre & Hblk & Hconv).
  pose proof (read_preamble_bounds _ _ _ _ _ _ Hpre) as (Hloc & Hkl & Hnd).
  apply read_block_ok_inv in Hblk
    as (n & o & Hn & Hn0 & Ho & Hd & Hcount & Hlb & Hdata & Hlen & _);
    try reflexivity; try lia.
  apply order_flag in Hd as [Hflag Hk]. rewrite Hflag in Hdata.
  rewrite (convert_ENV numpy h data w2 He), Hn in Hconv.
  destruct (half <-? py_div_float (PInt n) (float_of_Z 2) ;; int_of_float half)
    as [e|n2] eqn:E2; [discriminate |].
  destruct (mapM (env_time_of h) (range n2)) as [e|time] eqn:Et; [discriminate |].
  rewrite slice_step_even, slice_step_odd in Hconv.
  destruct (mapM (value_of h) (stride_aux 2 0 data)) as [e|mn] eqn:Emn;
    [discriminate |].
  destruct (mapM (value_of h) (stride_aux 2 0 (skipn 1 data))) as [e|mx] eqn:Emx;
    [discriminate |].
  destruct (np_array numpy [time; mn; mx]) as [e|arr'] eqn:Enp; [discriminate |].
  apply pair_equal_spec in Hconv as [Harr _]. apply inr_inj in Harr. subst arr'.
  pose proof (mapM_length _ _ _ Et) as Lt. rewrite range_length in Lt.
  pose proof (mapM_length _ _ _ Emn) as Lmn.
  pose proof (mapM_length _ _ _ Emx) as Lmx.
  pose proof (stride2_length (S (List.length data)) data ltac:(lia)) as S0.
  pose proof (stride2_length (S (List.length (skipn 1 data))) (skipn 1 data)
                ltac:(lia)) as S1.
  assert (Hsk : len (skipn 1 data) = Z.max 0 (len data - 1)).
  { change 1%nat with (Z.to_nat 1). apply len_skipn. lia. }
  (* a sample, from its two bytes *)
  assert (Hsample : forall j, (j < List.length data)%nat ->
            exists b0 b1,
              nth_error (file_bytes file (loc + kl + 1 + nd) (2 * n)) (2 * j) = Some b0
              /\ nth_error (file_bytes file (loc + kl + 1 + nd) (2 * n)) (2 * j + 1)
                 = Some b1
              /\ nth_error data j
                 = Some (if str_eqb (byteorder h) (lit "MSB")
                         then signed16 b0 b1 else signed16 b1 b0)).
  { intros j Hj.
    destruct (samples_nth (str_eqb (byteorder h) (lit "MSB")) file
                (loc + kl + 1 + nd) n (Z.of_nat j) Hlb
                ltac:(unfold len in Hlen; lia))
      as (b0 & b1 & H0 & H1 & Hr).
    rewrite Nat2Z.id in H0, H1, Hr. rewrite <- Hdata in Hr. eauto. }
  exists n, n2, loc, kl, nd, time, mn, mx.
  split; [exact Hn |]. split; [exact Hn0 |]. split; [exact Hpre |].
  split; [exact Hk |]. split; [exact Hcount |]. split; [exact E2 |].
  split; [exact Enp |].
  split; [unfold len; lia |].
  split.
  { replace (len mn) with (len (stride_aux 2 0 data))
      by (unfold len; now rewrite Lmn).
    rewrite S0, Hlen. reflexivity. }
  split.
  { replace (len mx) with (len (stride_aux 2 0 (skipn 1 data)))
      by (unfold len; now rewrite Lmx).
    rewrite S1, Hsk, Hlen.
    destruct (Z.eq_dec n 0) as [-> | Hnz]; [reflexivity |].
    rewrite Z.max_r by lia. f_equal. lia. }
  split.
  { intros i Hi.
    destruct (mapM_nth _ _ _ i (Z.of_nat i) Et (range_nth n2 i ltac:(lia)))
      as (t & Ht & Hf).
    apply env_time_of_value in Hf. now subst t. }
  split.
  - intros i Hi.
    destruct (nth_error (stride_aux 2 0 data) i) as [r|] eqn:Er.
    + destruct (mapM_nth _ _ _ _ _ Emn Er) as (v & Hv & Hf).
      apply value_of_value in Hf. subst v.
      rewrite stride2_nth in Er.
      assert (Hj : (2 * i < List.length data)%nat)
        by (apply nth_error_Some; congruence).
      destruct (Hsample _ Hj) as (b0 & b1 & H0 & H1 & Hr).
      rewrite Er in Hr. injection Hr as ->.
      exists b0, b1.
      replace (4 * i)%nat with (2 * (2 * i))%nat by lia.
      replace (2 * (2 * i) + 1)%nat with (2 * (2 * i) + 1)%nat by lia.
      auto.
    + apply nth_error_None in Er. lia.
  - intros i Hi.
    destruct (nth_error (stride_aux 2 0 (skipn 1 data)) i) as [r|] eqn:Er.
    + destruct (mapM_nth _ _ _ _ _ Emx Er) as (v & Hv & Hf).
      apply value_of_value in Hf. subst v.
      rewrite stride2_nth, nth_error_skipn in Er.
      assert (Hj : (1 + 2 * i < List.length data)%nat)
        by (apply nth_error_Some; congruence).
      destruct (Hsample _ Hj) as (b0 & b1 & H0 & H1 & Hr).
      rewrite Er in Hr. injection Hr as ->.
      exists b0, b1.
      replace (4 * i + 2)%nat with (2 * (1 + 2 * i))%nat by lia.
      replace (4 * i + 3)%nat with (2 * (1 + 2 * i) + 1)%nat by lia.
      auto.
    + apply nth_error_None in Er. lia.
Qed.

(** * The statements at sample files *)

(** C2.  The file [sample_ENV_odd] has three points in format ENV.
    [isfread] (Python 3) makes lists of unequal lengths of it: one time and
    one maximum, but two minima, where the specification asks for three rows
    of [floor(3 / 2) = 1] entry each.  Before NumPy 1.24 these three lists
    are what is returned, in an array of one dimension; since NumPy 1.24
    [numpy.array] raises [ValueError] and nothing is returned. *)
Theorem env_odd_count_unequal_rows :
  (exists time mn mx h w',
     isfread_py3.isfread ascii_only numpy_before_1_24 sample_ENV_odd fresh_world
     = (inr (nd_ragged [time; mn; mx], h), w')
     /\ pointformat h = lit "ENV" /\ npts h = PInt 3
     /\ len time = 1 /\ len mn = 2 /\ len mx = 1)
  /\ (exists w',
        isfread_py3.isfread ascii_only numpy_from_1_24 sample_ENV_odd fresh_world
        = (inl inhomogeneous, w')
        /\ fclosed w' = false).
Proof.
  split.
  - eexists _, _, _, _, _. split.
    + vm_compute. reflexivity.
    + repeat split.
  - eexists. split.
    + vm_compute. reflexivity.
    + reflexivity.
Qed.

(** C9, against the statement as the specification words it: the header of
    [sample_no_wfid] has no tag [WFI], and [isfread] (Python 3) returns all the same, with the
    unit of the abscissa in the place of the identifier. *)
Lemma missing_wfid_is_not_detected :
  exists loc kl nd text arr h w',
    isfread_py3.locate (header_bytes sample_no_wfid) = inr (loc, kl, false)
    /\ isfread_py3.preamble ascii_only (header_bytes sample_no_wfid) loc kl
       = inr (nd, text)
    /\ absent (t_wfid current_tags) text
    /\ isfread_py3.isfread ascii_only numpy_from_1_24 sample_no_wfid fresh_world
       = (inr (arr, h), w')
    /\ wfid h = lit "s"
    /\ ~ (exists e w2,
            isfread_py3.isfread ascii_only numpy_from_1_24 sample_no_wfid fresh_world
              = (inl e, w2)).
Proof.
  eexists _, _, _, _, _, _, _.
  split; [vm_compute; reflexivity |].
  split; [vm_compute; reflexivity |].
  split; [apply find_absent; vm_compute; reflexivity |].
  split; [vm_compute; reflexivity |].
  split; [reflexivity |].
  intros (e & w2 & H). vm_compute in H. discriminate H.
Qed.

(** C3, against the statement as the specification words it: the Python 2
    script only prints a warning when the two sizes differ.  The file
    [sample_legacy_mismatch] says nine bytes for four points, that is
    [2 * 4 + 1], and [isfread] (Python 2) returns the two lists of four
    terms all the same. *)
Lemma py2_byte_count_mismatch_only_warns :
  exists x v head w',
    isfread_py2.isfread python2_example sample_legacy_mismatch fresh_world
    = (inr (x, v, head), w')
    /\ npts head = PInt 4
    /\ first_at (lit ":CURVE #") (header_bytes sample_legacy_mismatch) 192
    /\ file_bytes sample_legacy_mismatch (192 + 8) 2 = lit "19"
    /\ int_ascii (file_bytes sample_legacy_mismatch (192 + 8 + 1) 1)
       = inr (2 * 4 + 1)
    /\ len x = 4 /\ len v = 4
    /\ stdout w' = [isfread_py2.warning]
    /\ ~ (exists e w2,
            isfread_py2.isfread python2_example sample_legacy_mismatch fresh_world
            = (inl e, w2)).
Proof.
  eexists _, _, _, _.
  split; [vm_compute; reflexivity |].
  split; [reflexivity |].
  split; [apply find_first; [vm_compute; reflexivity | discriminate] |].
  split; [vm_compute; reflexivity |].
  split; [vm_compute; reflexivity |].
  split; [reflexivity |].
  split; [reflexivity |].
  split; [reflexivity |].
  intros (e & w2 & H). vm_compute in H. discriminate H.
Qed.



Lemma isfread_Y_series_witness :
  exists arr h w' time value,
    isfread_py3.isfread ascii_only numpy_from_1_24 sample_Y fresh_world
    = (inr (arr, h), w')
    /\ pointformat h = lit "Y"
    /\ npts h = PInt 4
    /\ len time = 4 /\ len value = 4
    /\ nth_error time 1 = Some (scaled (xzero h) (xincr h) (ptoff h) 1)
    /\ nth_error time 1 = Some (PFloat (S754_finite true 4703477016938166 (-72)))
    /\ nth_error value 0
       = Some (scaled (yzero h) (ymult h) (yoff h) (256 * 0 + 10))
    /\ nth_error value 0 = Some (PFloat (S754_finite false 5404319552844595 (-54)))
    /\ nth_error value 1
       = Some (scaled (yzero h) (ymult h) (yoff h) (256 * 255 + 251 - 65536))
    /\ nth_error value 1 = Some (PFloat (S754_zero false))
    /\ arr = nd_array float64 [time; value].
Proof.
  destruct (isfread_Y_series ascii_only numpy_from_1_24 sample_Y fresh_world _ _ _
              ltac:(vm_compute; reflexivity) ltac:(reflexivity))
    as (n & loc & kl & nd & time & value & d & Hn & _ & Hpre & _ & Lt & Lv
        & Ht & Hv & _ & _ & _ & Hf).
  vm_compute in Hn. injection Hn as <-.
  vm_compute in Hpre. injection Hpre as <- <- <-.
  destruct (Hv 0 ltac:(lia)) as (a0 & a1 & Ha0 & Ha1 & Hv0 & _).
  vm_compute in Ha0, Ha1. injection Ha0 as <-. injection Ha1 as <-.
  destruct (Hv 1 ltac:(lia)) as (b0 & b1 & Hb0 & Hb1 & Hv1 & _).
  vm_compute in Hb0, Hb1. injection Hb0 as <-. injection Hb1 as <-.
  eexists _, _, _, time, value.
  split; [vm_compute; reflexivity |].
  split; [reflexivity |].
  split; [reflexivity |].
  split; [exact Lt |].
  split; [exact Lv |].
  split; [exact (Ht 1 ltac:(lia)) |].
  split; [exact (Ht 1 ltac:(lia)) |].
  split; [exact (Hv0 eq_refl) |].
  split; [exact (Hv0 eq_refl) |].
  split; [exact (Hv1 eq_refl) |].
  split; [exact (Hv1 eq_refl) |].
  exact (Hf (or_introl I) (or_introl I)).
Defined.

Lemma byte_count_mismatch_is_fatal_witness :
  exists loc kl nd h,
    isfread_py3.read_preamble ascii_only (header_bytes sample_mismatch)
    = inr (loc, kl, nd, h)
    /\ int_ascii (count_digits sample_mismatch loc kl nd) = inr (2 * 4 + 1)
    /\ npts h = PInt 4
    /\ 2 * 4 + 1 <> 2 * 4
    /\ (byteorder h = lit "MSB" \/ byteorder h = lit "LSB")
    /\ 0 <= 4 <= PY_SSIZE_T_MAX / 2
    /\ isfread_py3.isfread ascii_only numpy_from_1_24 sample_mismatch fresh_world
       = (inl (SystemExit isfread_py3.byte_count_mismatch),
          after_digits sample_mismatch loc kl nd
            (after_header sample_mismatch fresh_world)).
Proof.
  eexists _, _, _, _.
  split; [vm_compute; reflexivity |].
  split; [vm_compute; reflexivity |].
  split; [reflexivity |].
  split; [lia |].
  split; [left; reflexivity |].
  split; [vm_compute; split; discriminate |].
  exact (proj2 (byte_count_mismatch_is_fatal ascii_only numpy_from_1_24 sample_mismatch
                  fresh_world _ _ _ _ (2 * 4 + 1) 4
                  ltac:(vm_compute; reflexivity) ltac:(vm_compute; reflexivity)
                  ltac:(reflexivity) ltac:(lia))
           ltac:(left; reflexivity) ltac:(vm_compute; split; discriminate)).
Defined.



Lemma getnum_between_tag_and_semicolon_witness :
  In (lit "NR_P") (numeric_tags legacy_tags ++ numeric_tags current_tags)
  /\ (forall k, k < len (lit "PT_F Y;") ->
        ~ occurs_at (lit "NR_P")
            (lit "PT_F Y;" ++ lit "NR_P" ++ lit " 4" ++ 59 :: lit ":CURV #18") k)
  /\ ~ In 59 (lit " 4")
  /\ getnum (python3 ascii_only)
       (lit "PT_F Y;" ++ lit "NR_P" ++ lit " 4" ++ 59 :: lit ":CURV #18")
       (lit "NR_P")
     = inr (PInt 4).
Proof.
  assert (H1 : In (lit "NR_P") (numeric_tags legacy_tags ++ numeric_tags current_tags)).
  { apply in_or_app. right. unfold numeric_tags. cbn.
    do 8 right. left. reflexivity. }
  assert (H2 : forall k, k < len (lit "PT_F Y;") ->
             ~ occurs_at (lit "NR_P")
                 (lit "PT_F Y;" ++ lit "NR_P" ++ lit " 4" ++ 59 :: lit ":CURV #18") k).
  { apply (find_first _ (lit "NR_P") (len (lit "PT_F Y;")));
      [vm_compute; reflexivity | vm_compute; discriminate]. }
  assert (H3 : ~ In 59 (lit " 4")).
  { cbn. intros [H | [H | []]]; discriminate H. }
  split; [exact H1 |]. split; [exact H2 |]. split; [exact H3 |].
  rewrite (getnum_between_tag_and_semicolon (python3 ascii_only)
             (lit "NR_P") (lit "PT_F Y;") (lit " 4") (lit ":CURV #18") H1 H2 H3).
  vm_compute. reflexivity.
Defined.

Lemma byte_order_field_witness :
  (exists arr h w' data w2,
     isfread_py3.isfread ascii_only numpy_from_1_24 sample_Y fresh_world
     = (inr (arr, h), w')
     /\ byteorder h = lit "MSB"
     /\ isfread_py3.convert numpy_from_1_24 h data w2 = (inr arr, w')
     /\ nth_error (file_bytes sample_Y 173 8) 2 = Some 255
     /\ nth_error (file_bytes sample_Y 173 8) 3 = Some 251
     /\ nth_error data 1 = Some (-5))
  /\ (exists arr h w' data w2,
        isfread_py3.isfread ascii_only numpy_from_1_24 sample_Y_LSB fresh_world
        = (inr (arr, h), w')
        /\ byteorder h = lit "LSB"
        /\ isfread_py3.convert numpy_from_1_24 h data w2 = (inr arr, w')
        /\ nth_error (file_bytes sample_Y_LSB 173 8) 2 = Some 255
        /\ nth_error (file_bytes sample_Y_LSB 173 8) 3 = Some 251
        /\ nth_error data 1 = Some (-1025))
  /\ (exists loc kl nd h,
        isfread_py3.read_preamble ascii_only (header_bytes sample_bad_order)
        = inr (loc, kl, nd, h)
        /\ byteorder h <> lit "MSB" /\ byteorder h <> lit "LSB"
        /\ exists e w',
             isfread_py3.isfread ascii_only numpy_from_1_24 sample_bad_order
               fresh_world = (inl e, w')
             /\ fpos w' <= loc + kl + 1 + nd
             /\ (forall d,
                   int_ascii (count_digits sample_bad_order loc kl nd) = inr d ->
                   e = KeyError (byteorder h))).
Proof.
  split; [| split].
  - destruct (proj1 (byte_order_field ascii_only numpy_from_1_24 sample_Y fresh_world)
                _ _ _ ltac:(vm_compute; reflexivity))
      as (loc & kl & nd & n & data & w2 & Hpre & Hn & _ & Hconv & _ & Hs).
    vm_compute in Hn. injection Hn as <-.
    vm_compute in Hpre. injection Hpre as <- <- <-.
    destruct (Hs 1 ltac:(vm_compute; lia)) as (b0 & b1 & H0 & H1 & _ & _ & Hm & _).
    vm_compute in H0, H1. injection H0 as <-. injection H1 as <-.
    eexists _, _, _, data, w2.
    split; [vm_compute; reflexivity |].
    split; [reflexivity |].
    split; [exact Hconv |].
    split; [reflexivity |].
    split; [reflexivity |].
    exact (Hm eq_refl).
  - destruct (proj1 (byte_order_field ascii_only numpy_from_1_24 sample_Y_LSB
                       fresh_world)
                _ _ _ ltac:(vm_compute; reflexivity))
      as (loc & kl & nd & n & data & w2 & Hpre & Hn & _ & Hconv & _ & Hs).
    vm_compute in Hn. injection Hn as <-.
    vm_compute in Hpre. injection Hpre as <- <- <-.
    destruct (Hs 1 ltac:(vm_compute; lia)) as (b0 & b1 & H0 & H1 & _ & _ & _ & Hl).
    vm_compute in H0, H1. injection H0 as <-. injection H1 as <-.
    eexists _, _, _, data, w2.
    split; [vm_compute; reflexivity |].
    split; [reflexivity |].
    split; [exact Hconv |].
    split; [reflexivity |].
    split; [reflexivity |].
    exact (Hl eq_refl).
  - eexists _, _, _, _.
    split; [vm_compute; reflexivity |].
    split; [vm_compute; intros H; discriminate H |].
    split; [vm_compute; intros H; discriminate H |].
    exact (proj2 (byte_order_field ascii_only numpy_from_1_24 sample_bad_order
                    fresh_world)
             _ _ _ _
             ltac:(vm_compute; reflexivity)
             ltac:(vm_compute; intros H; discriminate H)
             ltac:(vm_compute; intros H; discriminate H)).
Defined.

Lemma unknown_point_format_is_fatal_witness :
  exists loc kl nd h,
    isfread_py3.read_preamble ascii_only (header_bytes sample_bad_format)
    = inr (loc, kl, nd, h)
    /\ pointformat h <> lit "Y" /\ pointformat h <> lit "ENV"
    /\ exists e w',
         isfread_py3.isfread ascii_only numpy_from_1_24 sample_bad_format fresh_world
           = (inl e, w').
Proof.
  eexists _, _, _, _.
  split; [vm_compute; reflexivity |].
  split; [vm_compute; intros H; discriminate H |].
  split; [vm_compute; intros H; discriminate H |].
  exact (proj1 (unknown_point_format_is_fatal ascii_only numpy_from_1_24 sample_bad_format
                  fresh_world _ _ _ _
                  ltac:(vm_compute; reflexivity)
                  ltac:(vm_compute; intros H; discriminate H)
                  ltac:(vm_compute; intros H; discriminate H))).
Defined.

Lemma missing_checked_tag_is_fatal_witness :
  exists loc kl nd text,
    isfread_py3.locate (header_bytes sample_no_npts) = inr (loc, kl, false)
    /\ isfread_py3.preamble ascii_only (header_bytes sample_no_npts) loc kl
       = inr (nd, text)
    /\ In (lit "NR_P") (checked_tags current_tags)
    /\ absent (lit "NR_P") text
    /\ exists e w',
         isfread_py3.isfread ascii_only numpy_from_1_24 sample_no_npts fresh_world
           = (inl e, w').
Proof.
  eexists _, _, _, _.
  split; [vm_compute; reflexivity |].
  split; [vm_compute; reflexivity |].
  assert (H3 : In (lit "NR_P") (checked_tags current_tags)).
  { unfold checked_tags, numeric_tags. cbn. do 8 right. left. reflexivity. }
  split; [exact H3 |].
  split; [apply find_absent; vm_compute; reflexivity |].
  exact (missing_checked_tag_is_fatal ascii_only numpy_from_1_24
             sample_no_npts fresh_world
           _ _ _ false _ (lit "NR_P")
           ltac:(vm_compute; reflexivity) ltac:(vm_compute; reflexivity)
           H3 ltac:(apply find_absent; vm_compute; reflexivity)).
Defined.

Lemma py2_unsupported_file_is_closed_then_used_witness :
  exists head,
    read_header python2_example legacy_tags (header_bytes sample_legacy_ENV)
    = inr head
    /\ pointformat head <> lit "Y"
    /\ isfread_py2.isfread python2_example sample_legacy_ENV fresh_world
       = (inl closed_file,
          mkWorld (len (header_bytes sample_legacy_ENV)) true
            (stdout fresh_world ++ [isfread_py2.unable])).
Proof.
  eexists.
  split; [vm_compute; reflexivity |].
  split; [vm_compute; intros H; discriminate H |].
  exact (py2_unsupported_file_is_closed_then_used python2_example
           sample_legacy_ENV fresh_world _
           ltac:(vm_compute; reflexivity)
           ltac:(do 4 right; vm_compute; intros H; discriminate H)).
Defined.

(** * Further properties of the code *)

(** ** The tag readers *)

Lemma not_in_existsb (c : Z) (s : str) : ~ In c s -> existsb (Z.eqb c) s = false.
Proof.
  intros H. destruct (existsb (Z.eqb c) s) eqn:E; [| reflexivity].
  apply existsb_exists in E as (x & Hx & Hc). apply Z.eqb_eq in Hc. now subst x.
Qed.

(** [s.find(c, start)] when [c] is not in [s] from [start] on. *)
Lemma find_char_absent_from (s : str) (c st : Z) :
  0 <= st -> ~ In c (skipn (Z.to_nat st) s) -> find s [c] st = -1.
Proof.
  intros Hst Hc. unfold find.
  destruct (st <? 0) eqn:E; [lia |].
  destruct (len s <? st); [reflexivity |].
  apply Z.eqb_eq. rewrite find_from_char by exact Hst.
  now rewrite not_in_existsb.
Qed.

Lemma not_in_skipn {A : Type} (c : A) (n : nat) (s : list A) :
  ~ In c s -> ~ In c (skipn n s).
Proof.
  intros H Hin. apply H. rewrite <- (firstn_skipn n s). apply in_or_app. now right.
Qed.

(** The text that [getnum] and [getstr] take for the value of a tag that is
    followed by a [;]. *)
Lemma value_before_semicolon (tag pre val post : str) :
  ~ In 59 tag ->
  (forall k, k < len pre -> ~ occurs_at tag (pre ++ tag ++ val ++ 59 :: post) k) ->
  ~ In 59 val ->
  slice (pre ++ tag ++ val ++ 59 :: post)
    (find (pre ++ tag ++ val ++ 59 :: post) tag 0 + len tag)
    (find (pre ++ tag ++ val ++ 59 :: post) (lit ";")
       (find (pre ++ tag ++ val ++ 59 :: post) tag 0))
  = val.
Proof.
  intros Hsemi Hfirst Hval.
  assert (Hn1 : find (pre ++ tag ++ val ++ 59 :: post) tag 0 = len pre).
  { apply first_at_find. split; [apply occurs_at_decomposed | exact Hfirst]. }
  rewrite Hn1. change (lit ";") with [59].
  replace (pre ++ tag ++ val ++ 59 :: post)
    with (pre ++ (tag ++ val) ++ 59 :: post) at 2 by now rewrite <- !app_assoc.
  rewrite find_char_after
    by (intros Hin; apply in_app_or in Hin as [Hin | Hin]; auto).
  replace (pre ++ tag ++ val ++ 59 :: post)
    with ((pre ++ tag) ++ val ++ 59 :: post) by now rewrite <- !app_assoc.
  rewrite (len_app tag val), Z.add_assoc, <- (len_app pre tag).
  apply slice_middle.
Qed.

(** The same text when no [;] follows the tag: the bound is -1, and the slice
    ends before the last character of the whole text. *)
Lemma value_without_semicolon (tag pre val : str) (c : Z) :
  (forall k, k < len pre -> ~ occurs_at tag (pre ++ tag ++ val ++ [c]) k) ->
  ~ In 59 (tag ++ val ++ [c]) ->
  slice (pre ++ tag ++ val ++ [c])
    (find (pre ++ tag ++ val ++ [c]) tag 0 + len tag)
    (find (pre ++ tag ++ val ++ [c]) (lit ";")
       (find (pre ++ tag ++ val ++ [c]) tag 0))
  = val.
Proof.
  intros Hfirst Hsemi.
  assert (Hn1 : find (pre ++ tag ++ val ++ [c]) tag 0 = len pre).
  { apply first_at_find. split; [apply occurs_at_decomposed | exact Hfirst]. }
  rewrite Hn1. change (lit ";") with [59].
  rewrite find_char_absent_from.
  - unfold slice. pose proof (len_nonneg pre). pose proof (len_nonneg tag).
    pose proof (len_nonneg val).
    assert (HL : len (pre ++ tag ++ val ++ [c]) = len pre + len tag + len val + 1).
    { rewrite !len_app. change (len [c]) with 1. lia. }
    rewrite HL, (clamp_inside (len pre + len tag)) by lia.
    unfold clamp. cbn [Z.ltb Z.compare]. rewrite Z.max_r by lia.
    replace (-1 + (len pre + len tag + len val + 1) - (len pre + len tag))
      with (len val) by lia.
    rewrite <- len_app.
    replace (pre ++ tag ++ val ++ [c]) with ((pre ++ tag) ++ val ++ [c])
      by now rewrite <- !app_assoc.
    unfold len. rewrite !Nat2Z.id, skipn_app_exact. apply firstn_app_exact.
  - apply len_nonneg.
  - unfold len. rewrite Nat2Z.id, skipn_app_exact. exact Hsemi.
Qed.

(** X1.  [getstr] returns the text between the end of the first occurrence
    of the tag and the next [;], without its leading whitespace (and with
    whatever whitespace it ends in). *)
Theorem getstr_between_tag_and_semicolon (B : builtins) (tag pre val post : str) :
  ~ In 59 tag ->
  (forall k, k < len pre -> ~ occurs_at tag (pre ++ tag ++ val ++ 59 :: post) k) ->
  ~ In 59 val ->
  getstr B (pre ++ tag ++ val ++ 59 :: post) tag = py_lstrip B val.
Proof.
  intros Hsemi Hfirst Hval. unfold getstr. cbv zeta.
  now rewrite value_before_semicolon.
Qed.

(** X2.  When no [;] follows the tag, [getnum] does not fail for that: the
    bound of its slice is the -1 of [find], and it reads the number from the
    text after the tag without the last character of the header. *)
Theorem getnum_without_semicolon (B : builtins) (tag pre val : str) (c : Z) :
  (forall k, k < len pre -> ~ occurs_at tag (pre ++ tag ++ val ++ [c]) k) ->
  ~ In 59 (tag ++ val ++ [c]) ->
  getnum B (pre ++ tag ++ val ++ [c]) tag =
  if existsb (Z.eqb 46) val
  then (x <-? py_float B val ;; inr (PFloat x))
  else (x <-? py_int B val ;; inr (PInt x)).
Proof.
  intros Hfirst Hsemi. unfold getnum. cbv zeta.
  rewrite value_without_semicolon by assumption.
  change (lit ".") with [46]. rewrite find_char.
  destruct (existsb (Z.eqb 46) val); reflexivity.
Qed.

(** [s.find(c, start)] for a start inside the text. *)
Lemma find_quote_after (pre a rest : str) (st : Z) :
  st = len pre -> ~ In DQUOTE a ->
  find (pre ++ a ++ DQUOTE :: rest) [DQUOTE] st = st + len a.
Proof. intros ->. apply find_char_after. Qed.

(** X3.  [getquotedstr] returns the text between the first two double quotes
    that come after the first character of the first occurrence of the
    tag. *)
Theorem getquotedstr_between_quotes (t0 : Z) (tag' pre gap val post : str) :
  (forall k, k < len pre ->
     ~ occurs_at (t0 :: tag')
         (pre ++ (t0 :: tag') ++ gap ++ DQUOTE :: val ++ DQUOTE :: post) k) ->
  ~ In DQUOTE (tag' ++ gap) ->
  ~ In DQUOTE val ->
  getquotedstr (pre ++ (t0 :: tag') ++ gap ++ DQUOTE :: val ++ DQUOTE :: post)
    (t0 :: tag')
  = val.
Proof.
  intros Hfirst Hgap Hval. unfold getquotedstr. cbv zeta.
  set (text := pre ++ (t0 :: tag') ++ gap ++ DQUOTE :: val ++ DQUOTE :: post).
  assert (Hn1 : find text (t0 :: tag') 0 = len pre).
  { apply first_at_find. split; [apply occurs_at_decomposed | exact Hfirst]. }
  assert (Hn2 : find text [DQUOTE] (len pre + 1)
                = len pre + 1 + len (tag' ++ gap)).
  { replace text
      with ((pre ++ [t0]) ++ (tag' ++ gap) ++ DQUOTE :: val ++ DQUOTE :: post)
      by (unfold text; rewrite <- ?app_assoc; cbn [app]; rewrite <- ?app_assoc; reflexivity).
    apply find_quote_after; [| exact Hgap].
    rewrite len_app. reflexivity. }
  assert (Hpre2 : len (pre ++ (t0 :: tag') ++ gap ++ [DQUOTE])
                  = len pre + 1 + len (tag' ++ gap) + 1).
  { rewrite !len_app, len_cons. change (len [DQUOTE]) with 1. lia. }
  assert (Hn3 : find text [DQUOTE] (len pre + 1 + len (tag' ++ gap) + 1)
                = len pre + 1 + len (tag' ++ gap) + 1 + len val).
  { replace text
      with ((pre ++ (t0 :: tag') ++ gap ++ [DQUOTE]) ++ val ++ DQUOTE :: post)
      by (unfold text; rewrite <- ?app_assoc; cbn [app]; rewrite <- ?app_assoc; reflexivity).
    apply find_quote_after; [| exact Hval]. now rewrite Hpre2. }
  rewrite Hn1, Hn2, Hn3, <- Hpre2.
  replace text
    with ((pre ++ (t0 :: tag') ++ gap ++ [DQUOTE]) ++ val ++ DQUOTE :: post)
    by (unfold text; rewrite <- ?app_assoc; cbn [app]; rewrite <- ?app_assoc; reflexivity).
  apply slice_middle.
Qed.

(** X4.  When the tag is not in the header, [getquotedstr] does not notice:
    its search for the quotes starts at index 0, and it returns the first
    quoted string of the header, whichever tag that string belongs to. *)
Theorem getquotedstr_absent_tag (tag pre val post : str) :
  absent tag (pre ++ DQUOTE :: val ++ DQUOTE :: post) ->
  ~ In DQUOTE pre ->
  ~ In DQUOTE val ->
  getquotedstr (pre ++ DQUOTE :: val ++ DQUOTE :: post) tag = val.
Proof.
  intros Habs Hpre Hval. unfold getquotedstr. cbv zeta.
  apply find_absent in Habs. rewrite Habs. cbn [Z.add Z.pos_sub].
  set (text := pre ++ DQUOTE :: val ++ DQUOTE :: post).
  assert (Hn2 : find text [DQUOTE] 0 = len pre).
  { apply (find_char_after [] pre (val ++ DQUOTE :: post) DQUOTE Hpre). }
  assert (Hn3 : find text [DQUOTE] (len pre + 1) = len pre + 1 + len val).
  { replace text with ((pre ++ [DQUOTE]) ++ val ++ DQUOTE :: post)
      by (unfold text; rewrite <- ?app_assoc; cbn [app]; rewrite <- ?app_assoc; reflexivity).
    apply find_quote_after; [| exact Hval].
    rewrite len_app. reflexivity. }
  rewrite Hn2, Hn3.
  replace text with ((pre ++ [DQUOTE]) ++ val ++ DQUOTE :: post)
    by (unfold text; rewrite <- ?app_assoc; cbn [app]; rewrite <- ?app_assoc; reflexivity).
  replace (len pre + 1) with (len (pre ++ [DQUOTE]))
    by (rewrite len_app; reflexivity).
  apply slice_middle.
Qed.

(** X5.  In a header without any double quote, [getquotedstr] returns the
    whole header but its last character, for every tag: both searches give
    -1, and the slice is [string[0:-1]]. *)
Theorem getquotedstr_without_quotes (text tag : str) :
  ~ In DQUOTE text ->
  getquotedstr text tag = removelast text.
Proof.
  intros Hq. unfold getquotedstr. cbv zeta.
  assert (Hn2 : find text [DQUOTE] (find text tag 0 + 1) = -1).
  { apply find_char_absent_from.
    - destruct (find_range text tag); lia.
    - now apply not_in_skipn. }
  rewrite Hn2. cbn [Z.add Z.pos_sub].
  rewrite find_char_absent_from by (try lia; now apply not_in_skipn).
  unfold slice. pose proof (len_nonneg text).
  rewrite (clamp_inside 0) by lia. unfold clamp. cbn [Z.ltb Z.compare].
  cbn [Z.to_nat skipn]. rewrite Z.sub_0_r.
  rewrite removelast_firstn_len. f_equal. unfold len. lia.
Qed.

(** *** Numbers that [int()] does not read *)

(** An ASCII character of a text is in what
    [_PyUnicode_TransformDecimalAndSpaceToASCII] makes of it, unless the
    transformation stops before it, at a character that it replaces by ['?']. *)
Lemma transform_keeps_ascii (todecimal : Z -> option Z) (c : Z) :
  c < 127 ->
  forall s : str,
    In c s ->
    In c (transform_decimal_and_space todecimal s)
    \/ In 63 (transform_decimal_and_space todecimal s).
Proof.
  intros Hc. induction s as [|ch s IH]; intros H; [contradiction |].
  cbn [transform_decimal_and_space].
  destruct (ch <? 127) eqn:E.
  - destruct H as [-> | H]; [left; now left |].
    destruct (IH H); [left | right]; now right.
  - assert (Hs : In c s) by (destruct H as [-> | H]; [lia | exact H]).
    destruct (Py_UNICODE_ISSPACE ch).
    + destruct (IH Hs); [left | right]; now right.
    + destruct (todecimal ch) as [d|]; [| right; now left].
      destruct ((0 <=? d) && (d <=? 9)); [| right; now left].
      destruct (IH Hs); [left | right]; now right.
Qed.

(** [int()] has one way to fail. *)
Lemma int_ascii_error (s : str) (e : exn) : int_ascii s = inl e -> e = invalid_int.
Proof.
  unfold int_ascii.
  destruct (take_sign (lstrip_by Py_ISSPACE s)) as [neg s2].
  destruct (span _ s2) as [body rest].
  destruct (strip_underscores 0 body) as [[|d ds]|]; try congruence.
  destruct (forallb Py_ISSPACE rest); congruence.
Qed.

(** X6.  A number without a ['.'] is read by [int()], which takes digits, a
    sign, underscores and blanks only: with any other ASCII character in
    it, the ['E'] of an exponent for one, [getnum] (Python 3) raises
    [ValueError]. *)
Theorem getnum_integer_with_stray_character (todecimal : Z -> option Z)
    (tag pre val post : str) (c : Z) :
  ~ In 59 tag ->
  (forall k, k < len pre -> ~ occurs_at tag (pre ++ tag ++ val ++ 59 :: post) k) ->
  ~ In 59 val ->
  ~ In 46 val ->
  In c val -> c < 127 -> int_char c = false ->
  getnum (python3 todecimal) (pre ++ tag ++ val ++ 59 :: post) tag
  = inl invalid_int.
Proof.
  intros Hsemi Hfirst Hval Hdot Hin Hc Hnot. unfold getnum. cbv zeta.
  rewrite value_before_semicolon by assumption.
  change (lit ".") with [46]. rewrite find_char, (not_in_existsb _ _ Hdot).
  cbn [negb py_int python3].
  destruct (int_ascii (transform_decimal_and_space todecimal val)) as [e|v] eqn:E.
  - apply int_ascii_error in E. now subst e.
  - exfalso. apply int_ascii_chars in E. rewrite Forall_forall in E.
    destruct (transform_keeps_ascii todecimal c Hc val Hin) as [Ht | Ht];
      apply E in Ht; [congruence | discriminate].
Qed.

(** *** The readers at sample headers *)

Lemma getstr_between_tag_and_semicolon_witness :
  ~ In 59 (lit "BYT_O")
  /\ (forall k, k < len (lit "BN_F RI;") ->
        ~ occurs_at (lit "BYT_O")
            (lit "BN_F RI;" ++ lit "BYT_O" ++ lit "  MSB " ++ 59 :: lit "NR_P 4;") k)
  /\ ~ In 59 (lit "  MSB ")
  /\ getstr (python3 ascii_only)
       (lit "BN_F RI;" ++ lit "BYT_O" ++ lit "  MSB " ++ 59 :: lit "NR_P 4;")
       (lit "BYT_O")
     = lit "MSB ".
Proof.
  assert (H1 : ~ In 59 (lit "BYT_O")).
  { cbn. intuition discriminate. }
  assert (H2 : forall k, k < len (lit "BN_F RI;") ->
             ~ occurs_at (lit "BYT_O")
                 (lit "BN_F RI;" ++ lit "BYT_O" ++ lit "  MSB " ++ 59 :: lit "NR_P 4;") k).
  { apply (find_first _ (lit "BYT_O") (len (lit "BN_F RI;")));
      [vm_compute; reflexivity | vm_compute; discriminate]. }
  assert (H3 : ~ In 59 (lit "  MSB ")).
  { cbn. intuition discriminate. }
  split; [exact H1 |]. split; [exact H2 |]. split; [exact H3 |].
  rewrite (getstr_between_tag_and_semicolon (python3 ascii_only)
             (lit "BYT_O") (lit "BN_F RI;") (lit "  MSB ") (lit "NR_P 4;") H1 H2 H3).
  vm_compute. reflexivity.
Defined.

Lemma getnum_without_semicolon_witness :
  (forall k, k < len (lit "XZERO 0;") ->
     ~ occurs_at (lit "NR_PT")
         (lit "XZERO 0;" ++ lit "NR_PT" ++ lit " 50" ++ [48]) k)
  /\ ~ In 59 (lit "NR_PT" ++ lit " 50" ++ [48])
  /\ getnum python2_example
       (lit "XZERO 0;" ++ lit "NR_PT" ++ lit " 50" ++ [48]) (lit "NR_PT")
     = inr (PInt 50).
Proof.
  assert (H1 : forall k, k < len (lit "XZERO 0;") ->
             ~ occurs_at (lit "NR_PT")
                 (lit "XZERO 0;" ++ lit "NR_PT" ++ lit " 50" ++ [48]) k).
  { apply (find_first _ (lit "NR_PT") (len (lit "XZERO 0;")));
      [vm_compute; reflexivity | vm_compute; discriminate]. }
  assert (H2 : ~ In 59 (lit "NR_PT" ++ lit " 50" ++ [48])).
  { cbn. intuition discriminate. }
  split; [exact H1 |]. split; [exact H2 |].
  rewrite (getnum_without_semicolon python2_example
             (lit "NR_PT") (lit "XZERO 0;") (lit " 50") 48 H1 H2).
  vm_compute. reflexivity.
Defined.

Lemma getquotedstr_between_quotes_witness :
  (forall k, k < len (lit "BYT_N 2;") ->
     ~ occurs_at (87 :: lit "FI")
         (lit "BYT_N 2;" ++ (87 :: lit "FI") ++ lit " "
          ++ DQUOTE :: lit "Ch1" ++ DQUOTE :: lit ";NR_P 4;") k)
  /\ ~ In DQUOTE (lit "FI" ++ lit " ")
  /\ ~ In DQUOTE (lit "Ch1")
  /\ getquotedstr
       (lit "BYT_N 2;" ++ (87 :: lit "FI") ++ lit " "
        ++ DQUOTE :: lit "Ch1" ++ DQUOTE :: lit ";NR_P 4;")
       (87 :: lit "FI")
     = lit "Ch1".
Proof.
  assert (H1 : forall k, k < len (lit "BYT_N 2;") ->
             ~ occurs_at (87 :: lit "FI")
                 (lit "BYT_N 2;" ++ (87 :: lit "FI") ++ lit " "
                  ++ DQUOTE :: lit "Ch1" ++ DQUOTE :: lit ";NR_P 4;") k).
  { apply (find_first _ (87 :: lit "FI") (len (lit "BYT_N 2;")));
      [vm_compute; reflexivity | vm_compute; discriminate]. }
  assert (H2 : ~ In DQUOTE (lit "FI" ++ lit " ")).
  { cbn. intuition discriminate. }
  assert (H3 : ~ In DQUOTE (lit "Ch1")).
  { cbn. intuition discriminate. }
  split; [exact H1 |]. split; [exact H2 |]. split; [exact H3 |].
  exact (getquotedstr_between_quotes 87 (lit "FI") (lit "BYT_N 2;") (lit " ")
           (lit "Ch1") (lit ";NR_P 4;") H1 H2 H3).
Defined.

Lemma getquotedstr_absent_tag_witness :
  absent (lit "WFI")
    (lit "XUN " ++ DQUOTE :: lit "s" ++ DQUOTE :: lit ";NR_P 4;")
  /\ ~ In DQUOTE (lit "XUN ")
  /\ ~ In DQUOTE (lit "s")
  /\ getquotedstr (lit "XUN " ++ DQUOTE :: lit "s" ++ DQUOTE :: lit ";NR_P 4;")
       (lit "WFI")
     = lit "s".
Proof.
  assert (H1 : absent (lit "WFI")
                 (lit "XUN " ++ DQUOTE :: lit "s" ++ DQUOTE :: lit ";NR_P 4;")).
  { apply find_absent. vm_compute. reflexivity. }
  assert (H2 : ~ In DQUOTE (lit "XUN ")).
  { cbn. intuition discriminate. }
  assert (H3 : ~ In DQUOTE (lit "s")).
  { cbn. intuition discriminate. }
  split; [exact H1 |]. split; [exact H2 |]. split; [exact H3 |].
  exact (getquotedstr_absent_tag (lit "WFI") (lit "XUN ") (lit "s")
           (lit ";NR_P 4;") H1 H2 H3).
Defined.

Lemma getquotedstr_without_quotes_witness :
  ~ In DQUOTE (lit "NR_P 4;PT_F Y;")
  /\ getquotedstr (lit "NR_P 4;PT_F Y;") (lit "WFI") = lit "NR_P 4;PT_F Y".
Proof.
  assert (H1 : ~ In DQUOTE (lit "NR_P 4;PT_F Y;")).
  { cbn. intuition discriminate. }
  split; [exact H1 |].
  rewrite (getquotedstr_without_quotes (lit "NR_P 4;PT_F Y;") (lit "WFI") H1).
  reflexivity.
Defined.

Lemma getnum_integer_with_stray_character_witness :
  ~ In 59 (lit "XIN")
  /\ (forall k, k < len (lit "XUN s;") ->
        ~ occurs_at (lit "XIN")
            (lit "XUN s;" ++ lit "XIN" ++ lit " 4E-9" ++ 59 :: lit "PT_O 0;") k)
  /\ ~ In 59 (lit " 4E-9")
  /\ ~ In 46 (lit " 4E-9")
  /\ In 69 (lit " 4E-9") /\ 69 < 127 /\ int_char 69 = false
  /\ getnum (python3 ascii_only)
       (lit "XUN s;" ++ lit "XIN" ++ lit " 4E-9" ++ 59 :: lit "PT_O 0;")
       (lit "XIN")
     = inl invalid_int.
Proof.
  assert (H1 : ~ In 59 (lit "XIN")).
  { cbn. intuition discriminate. }
  assert (H2 : forall k, k < len (lit "XUN s;") ->
             ~ occurs_at (lit "XIN")
                 (lit "XUN s;" ++ lit "XIN" ++ lit " 4E-9" ++ 59 :: lit "PT_O 0;") k).
  { apply (find_first _ (lit "XIN") (len (lit "XUN s;")));
      [vm_compute; reflexivity | vm_compute; discriminate]. }
  assert (H3 : ~ In 59 (lit " 4E-9")).
  { cbn. intuition discriminate. }
  assert (H4 : ~ In 46 (lit " 4E-9")).
  { cbn. intuition discriminate. }
  assert (H5 : In 69 (lit " 4E-9")).
  { cbn. auto. }
  assert (H6 : 69 < 127) by lia.
  assert (H7 : int_char 69 = false) by reflexivity.
  split; [exact H1 |]. split; [exact H2 |]. split; [exact H3 |].
  split; [exact H4 |]. split; [exact H5 |]. split; [exact H6 |].
  split; [exact H7 |].
  exact (getnum_integer_with_stray_character ascii_only (lit "XIN") (lit "XUN s;")
           (lit " 4E-9") (lit "PT_O 0;") 69 H1 H2 H3 H4 H5 H6 H7).
Defined.

(** ** The comparison of [isfread_py3.py] *)

Lemma str_compare_opp (a : str) :
  forall b, str_compare b a = CompOpp (str_compare a b).
Proof.
  induction a as [|x a IH]; intros [|y b]; try reflexivity.
  cbn [str_compare]. rewrite (Z.compare_antisym x y).
  destruct (x ?= y); cbn [CompOpp]; auto.
Qed.

(** X7.  [cmp(a, b)] is -1, 0 or 1; it is 0 for equal strings only (no case
    is folded, no blank dropped), and [cmp(b, a)] is its opposite. *)
Theorem cmp_three_way (a b : str) :
  (cmp a b = -1 \/ cmp a b = 0 \/ cmp a b = 1)
  /\ (cmp a b = 0 <-> a = b)
  /\ cmp b a = - cmp a b.
Proof.
  split; [| split].
  - unfold cmp, str_gt, str_lt. destruct (str_compare a b); cbn; auto.
  - rewrite <- cmp_zero. symmetry. apply Z.eqb_eq.
  - unfold cmp, str_gt, str_lt. rewrite (str_compare_opp a b).
    destruct (str_compare a b); reflexivity.
Qed.

(** ** The file and the standard output of [isfread] (Python 3) *)

Lemma read_block_world (file : list Byte.byte) (loc kl nd : Z) (h : header)
    (w w2 : world) (r : res (list Z)) :
  fclosed w = false -> 0 <= loc + kl + 1 -> 0 <= nd ->
  isfread_py3.read_block file loc kl nd h w = (r, w2) ->
  fclosed w2 = false /\ stdout w2 = stdout w.
Proof.
  intros Hc Hp Hn. rewrite read_block_unfold by assumption. cbv zeta.
  destruct (int_ascii (count_digits file loc kl nd)) as [e|d];
    [intros H; injection H as _ <-; auto |].
  destruct (dict_endian_cases (byteorder h))
    as [(_ & Hd) | [(_ & Hd) | (_ & _ & Hd)]]; rewrite Hd;
    try (intros H; injection H as _ <-; auto; fail).
  all: unfold fmt_of; destruct (npts h) as [n | f];
    try (intros H; injection H as _ <-; auto; fail).
  all: rewrite calcsize_fmt by auto.
  all: destruct ((n <? 0) || (PY_SSIZE_T_MAX / 2 <? n)) eqn:En;
    [intros H; injection H as _ <-; auto |].
  all: destruct (negb (d =? 2 * n)); [intros H; injection H as _ <-; auto |].
  all: rewrite read_samples_run by (auto; lia).
  all: intros H; injection H as _ <-; auto.
Qed.

Lemma convert_world (numpy : numpy_version)
    (h : header) (data : list Z) (w w' : world) (r : res ndarray) :
  isfread_py3.convert numpy h data w = (r, w') ->
  stdout w' = stdout w
  /\ fclosed w' = match r with inl _ => fclosed w | inr _ => true end.
Proof.
  unfold isfread_py3.convert.
  destruct (cmp (pointformat h) (lit "Y") =? 0).
  - unfold bind at 1, lift at 1.
    destruct (idx <-? range_num (npts h) ;; mapM (time_of h) idx) as [e|t];
      [intros H; injection H as <- <-; auto |].
    unfold bind at 1, lift at 1.
    destruct (mapM (value_of h) data) as [e|v];
      [intros H; injection H as <- <-; auto |].
    unfold bind at 1, lift at 1.
    destruct (np_array numpy [t; v]) as [e|a];
      intros H; injection H as <- <-; auto.
  - destruct (cmp (pointformat h) (lit "ENV") =? 0).
    + unfold bind at 1, lift at 1.
      destruct (half <-? py_div_float (npts h) (float_of_Z 2) ;; int_of_float half)
        as [e|n2]; [intros H; injection H as <- <-; auto |].
      unfold bind at 1, lift at 1.
      destruct (mapM (env_time_of h) (range n2)) as [e|t];
        [intros H; injection H as <- <-; auto |].
      unfold bind at 1, lift at 1.
      destruct (mapM (value_of h) (slice_step data 0 (len data) 2)) as [e|mn];
        [intros H; injection H as <- <-; auto |].
      unfold bind at 1, lift at 1.
      destruct (mapM (value_of h) (slice_step data 1 (len data) 2)) as [e|mx];
        [intros H; injection H as <- <-; auto |].
      unfold bind at 1, lift at 1.
      destruct (np_array numpy [t; mn; mx]) as [e|a];
        intros H; injection H as <- <-; auto.
    + intros H; injection H as <- <-; auto.
Qed.

(** X8.  [isfread] (Python 3) closes the file if and only if it returns: an
    exception, whichever it is, leaves the file open.  It prints nothing
    in either case (with the default [verbose=False, debug=False]). *)
Theorem isfread_closes_the_file_on_return_only
    (todecimal : Z -> option Z) (numpy : numpy_version)
    (file : list Byte.byte) (w : world) :
  match isfread_py3.isfread todecimal numpy file w with
  | (inr _, w') => fclosed w' = true /\ stdout w' = stdout w
  | (inl _, w') => fclosed w' = false /\ stdout w' = stdout w
  end.
Proof.
  rewrite isfread_unfold.
  destruct (isfread_py3.read_preamble todecimal (header_bytes file))
    as [e | [[[loc kl] nd] h]] eqn:Hpre; [split; reflexivity |].
  pose proof (read_preamble_bounds _ _ _ _ _ _ Hpre) as (Hloc & Hkl & Hnd).
  unfold bind at 1.
  destruct (isfread_py3.read_block file loc kl nd h (after_header file w))
    as [[e|data] w2] eqn:Hb;
    apply read_block_world in Hb as [Hc Ho]; try reflexivity; try lia.
  - split; [exact Hc | exact Ho].
  - unfold bind at 1.
    destruct (isfread_py3.convert numpy h data w2) as [[e|arr] w3] eqn:Hv;
      apply convert_world in Hv as [Ho3 Hc3]; cbn [ret];
      (split; [congruence | rewrite Ho3; exact Ho]).
Qed.

(** ** The number of points of a file that is decoded *)

Lemma strip_underscores_digits :
  forall (s s' : str) (prev : Z),
    Forall (fun c => (Py_ISDIGIT c || (c =? UNDERSCORE)) = true) s ->
    strip_underscores prev s = Some s' ->
    Forall (fun c => Py_ISDIGIT c = true) s' /\ len s' <= len s.
Proof.
  induction s as [|c s IH]; intros s' prev Hs H; cbn [strip_underscores] in H.
  - destruct (prev =? UNDERSCORE); [discriminate |]. injection H as <-.
    split; [constructor | lia].
  - inversion Hs as [|? ? Hc Hs']; subst.
    destruct (c =? UNDERSCORE) eqn:Eu.
    + destruct (Py_ISDIGIT prev); [| discriminate].
      destruct (IH _ _ Hs' H) as [Hd Hl]. split; [exact Hd |].
      rewrite len_cons. lia.
    + rewrite orb_false_r in Hc.
      destruct ((prev =? UNDERSCORE) && negb (Py_ISDIGIT c)); [discriminate |].
      destruct (strip_underscores c s) as [t|] eqn:Et; [| discriminate].
      injection H as <-. destruct (IH _ _ Hs' Et) as [Hd Hl].
      split; [now constructor | rewrite !len_cons; lia].
Qed.

Lemma value_acc_bound (ds : str) :
  Forall (fun c => Py_ISDIGIT c = true) ds ->
  forall a, 0 <= a -> value_acc a ds < (a + 1) * 10 ^ len ds.
Proof.
  induction 1 as [|c ds Hc _ IH]; intros a Ha.
  - cbn. lia.
  - change (value_acc a (c :: ds)) with (value_acc (10 * a + (c - 48)) ds).
    assert (Hd : 0 <= c - 48 <= 9) by (unfold Py_ISDIGIT in Hc; lia).
    specialize (IH (10 * a + (c - 48)) ltac:(lia)).
    rewrite len_cons. pose proof (len_nonneg ds) as Hl.
    replace (1 + len ds) with (Z.succ (len ds)) by lia.
    rewrite Z.pow_succ_r by lia.
    assert (0 < 10 ^ len ds) by (apply Z.pow_pos_nonneg; lia).
    nia.
Qed.

Lemma len_lstrip (p : Z -> bool) (s : str) : len (lstrip_by p s) <= len s.
Proof.
  destruct (lstrip_split p s) as (ws & Hs & _).
  rewrite Hs at 2. rewrite len_app. pose proof (len_nonneg ws). lia.
Qed.

Lemma len_take_sign (s r : str) (neg : bool) :
  take_sign s = (neg, r) -> len r <= len s.
Proof.
  destruct (take_sign_cases s) as [(r' & -> & E) | [(r' & -> & E) | (E & _)]];
    rewrite E; intros H; injection H as _ <-; rewrite ?len_cons; lia.
Qed.

(** [int()] of a text of [k] characters is below [10 ^ k] in absolute value,
    and there is no [int()] of the empty text. *)
Lemma int_ascii_bound (s : str) (v : Z) :
  int_ascii s = inr v -> 1 <= len s /\ - 10 ^ len s < v < 10 ^ len s.
Proof.
  unfold int_ascii.
  pose proof (len_lstrip Py_ISSPACE s) as H1.
  destruct (take_sign (lstrip_by Py_ISSPACE s)) as [neg s2] eqn:Es.
  apply len_take_sign in Es.
  destruct (span (fun c => Py_ISDIGIT c || (c =? UNDERSCORE)) s2)
    as [body rest] eqn:Esp.
  apply span_split in Esp as [Hs2 Hbody].
  assert (Hlb : len body <= len s2).
  { rewrite Hs2, len_app. pose proof (len_nonneg rest). lia. }
  destruct (strip_underscores 0 body) as [[|d ds]|] eqn:Est; try discriminate.
  destruct (forallb Py_ISSPACE rest); [| discriminate].
  apply strip_underscores_digits in Est as [Hd Hl]; [| exact Hbody].
  pose proof (value_acc_bound _ Hd 0 ltac:(lia)) as Hv.
  pose proof (value_acc_mono _ Hd 0 ltac:(lia)) as Hv0.
  rewrite <- digits_value_acc in Hv, Hv0.
  assert (Hlen : 1 <= len (d :: ds))
    by (rewrite len_cons; pose proof (len_nonneg ds); lia).
  assert (Hpow : 10 ^ len (d :: ds) <= 10 ^ len s)
    by (apply Z.pow_le_mono_r; lia).
  intros H. injection H as <-. split; [lia |].
  destruct neg; lia.
Qed.

(** X9.  The byte count of the block is written with as many digits as the
    one character after the marker says, nine at most: a file that
    [isfread] (Python 3) decodes has one to nine such digits, and fewer than
    [10 ^ nd / 2] points, so never more than 499999999. *)
Theorem isfread_point_count_bound (todecimal : Z -> option Z) (numpy : numpy_version)
    (file : list Byte.byte) (w w' : world) (arr : ndarray) (h : header) :
  isfread_py3.isfread todecimal numpy file w = (inr (arr, h), w') ->
  exists n loc kl nd,
    isfread_py3.read_preamble todecimal (header_bytes file) = inr (loc, kl, nd, h)
    /\ npts h = PInt n
    /\ 1 <= nd <= 9
    /\ 0 <= 2 * n < 10 ^ nd
    /\ n <= 499999999.
Proof.
  intros Hrun.
  apply isfread_ok_inv in Hrun as (loc & kl & nd & data & w2 & Hpre & Hblk & _).
  pose proof (read_preamble_bounds _ _ _ _ _ _ Hpre) as (Hloc & Hkl & Hnd).
  apply read_block_ok_inv in Hblk
    as (n & o & Hn & Hn0 & _ & _ & Hd & _); try reflexivity; try lia.
  apply int_ascii_bound in Hd as [Hl Hd].
  assert (Hlen : len (count_digits file loc kl nd) <= nd).
  { unfold count_digits. rewrite len_file_bytes by lia. lia. }
  assert (Hpow : 10 ^ len (count_digits file loc kl nd) <= 10 ^ nd)
    by (apply Z.pow_le_mono_r; lia).
  assert (Hmax : 10 ^ nd <= 10 ^ 9) by (apply Z.pow_le_mono_r; lia).
  exists n, loc, kl, nd. repeat split; auto; lia.
Qed.

(** X10.  A number of points below zero, or above what [struct] can size,
    makes [struct.calcsize] raise [struct.error]: [isfread] (Python 3) ends
    there, with the digits of the byte count read and nothing of the
    block. *)
Theorem point_count_out_of_range_is_fatal
    (todecimal : Z -> option Z) (numpy : numpy_version)
    (file : list Byte.byte) (w : world) (loc kl nd : Z) (h : header) (d n : Z) :
  isfread_py3.read_preamble todecimal (header_bytes file) = inr (loc, kl, nd, h) ->
  int_ascii (count_digits file loc kl nd) = inr d ->
  byteorder h = lit "MSB" \/ byteorder h = lit "LSB" ->
  npts h = PInt n ->
  n < 0 \/ PY_SSIZE_T_MAX / 2 < n ->
  isfread_py3.isfread todecimal numpy file w
  = (inl struct_error, after_digits file loc kl nd (after_header file w)).
Proof.
  intros Hpre Hd Ho Hn Hr.
  pose proof (read_preamble_bounds _ _ _ _ _ _ Hpre) as (Hloc & Hkl & Hnd).
  eapply isfread_block_fails; [exact Hpre |].
  rewrite read_block_unfold by (try reflexivity; lia). cbv zeta.
  rewrite Hd. unfold fmt_of. rewrite Hn.
  destruct (dict_endian_cases (byteorder h))
    as [(Hk & Hg) | [(Hk & Hg) | (Hm & Hl & Hg)]]; rewrite Hg.
  1, 2: rewrite calcsize_fmt by auto.
  1, 2: replace ((n <? 0) || (PY_SSIZE_T_MAX / 2 <? n)) with true by lia.
  1, 2: reflexivity.
  destruct Ho; contradiction.
Qed.

(** X11.  A file that ends before the last sample of its block is not
    decoded in part: [struct.unpack] is given fewer bytes than the format
    asks for and raises [struct.error]. *)
Theorem truncated_block_is_fatal (todecimal : Z -> option Z) (numpy : numpy_version)
    (file : list Byte.byte) (w : world) (loc kl nd : Z) (h : header) (n : Z) :
  isfread_py3.read_preamble todecimal (header_bytes file) = inr (loc, kl, nd, h) ->
  int_ascii (count_digits file loc kl nd) = inr (2 * n) ->
  byteorder h = lit "MSB" \/ byteorder h = lit "LSB" ->
  npts h = PInt n ->
  0 < n <= PY_SSIZE_T_MAX / 2 ->
  len file < loc + kl + 1 + nd + 2 * n ->
  isfread_py3.isfread todecimal numpy file w
  = (inl struct_error,
     after_samples file (2 * n)
       (after_digits file loc kl nd (after_header file w))).
Proof.
  intros Hpre Hd Ho Hn Hr Hshort.
  pose proof (read_preamble_bounds _ _ _ _ _ _ Hpre) as (Hloc & Hkl & Hnd).
  assert (Hblk :
    isfread_py3.read_block file loc kl nd h (after_header file w)
    = (inl struct_error,
       after_samples file (2 * n)
         (after_digits file loc kl nd (after_header file w)))).
  { rewrite read_block_unfold by (try reflexivity; lia). cbv zeta.
    rewrite Hd. unfold fmt_of. rewrite Hn.
    destruct (dict_endian_cases (byteorder h))
      as [(Hk & Hg) | [(Hk & Hg) | (Hm & Hl & Hg)]]; rewrite Hg;
      [| | destruct Ho; contradiction].
    all: rewrite calcsize_fmt by auto.
    all: replace ((n <? 0) || (PY_SSIZE_T_MAX / 2 <? n)) with false by lia.
    all: rewrite Z.eqb_refl; cbn [negb].
    all: rewrite read_samples_run by (try reflexivity; lia).
    all: rewrite unpack_fmt by auto.
    all: replace ((n <? 0) || (PY_SSIZE_T_MAX / 2 <? n)) with false by lia.
    all: match goal with
         | |- context [len ?b =? ?m] =>
             replace (len b =? m) with false; [reflexivity |]
         end.
    all: symmetry; apply Z.eqb_neq.
    all: unfold after_digits, count_digits; cbn [fpos].
    all: rewrite !len_file_bytes by (try lia; rewrite len_file_bytes by lia; lia).
    all: lia. }
  eapply isfread_block_fails; eauto.
Qed.

(** X12.  The character after the marker is read without a look at the
    length of the buffer, and converted without a look at what it is: when
    the marker ends the buffer of 511 bytes, [isfread] (Python 3) raises
    [IndexError]; when an ASCII character other than a digit follows the
    marker, it raises [ValueError]. *)
Theorem digit_count_character (todecimal : Z -> option Z) (numpy : numpy_version)
    (file : list Byte.byte) (w : world) (loc kl : Z) (older : bool) :
  isfread_py3.locate (header_bytes file) = inr (loc, kl, older) ->
  (loc + kl = len (header_bytes file) ->
   isfread_py3.isfread todecimal numpy file w = (inl IndexError, after_header file w))
  /\ (forall b,
        getitem (header_bytes file) (loc + kl) = Some b ->
        0 <= b < 127 -> Py_ISDIGIT b = false ->
        isfread_py3.isfread todecimal numpy file w
        = (inl invalid_int, after_header file w)).
Proof.
  intros Hl. split.
  - intros Hend. apply isfread_preamble_fails.
    unfold isfread_py3.read_preamble. rewrite Hl. cbn [rbind].
    unfold isfread_py3.preamble, getitem.
    apply locate_ok in Hl as (Hloc & Hkl & _).
    destruct (loc + kl <? 0) eqn:E; [lia |].
    replace ((loc + kl <? 0) || (len (header_bytes file) <=? loc + kl))
      with true by lia.
    reflexivity.
  - intros b Hb Hr Hd. apply isfread_preamble_fails.
    unfold isfread_py3.read_preamble. rewrite Hl. cbn [rbind].
    unfold isfread_py3.preamble. rewrite Hb.
    cbn [isfread_py3.B py_int python3 transform_decimal_and_space].
    unfold isfread_py3.B. cbn [py_int python3 transform_decimal_and_space].
    replace (b <? 127) with true by lia.
    destruct (int_ascii [b]) as [e|v] eqn:E.
    + apply int_ascii_error in E. subst e. reflexivity.
    + apply int_ascii_single in E as [E _]. congruence.
Qed.

(** ** The Python 2 script when it returns *)

Lemma seek_ok (p : Z) (w w' : world) (u : unit) :
  seek p w = (inr u, w') ->
  fclosed w = false /\ w' = mkWorld p false (stdout w).
Proof.
  unfold seek. destruct (fclosed w); [discriminate |].
  destruct (p <? 0); [discriminate |].
  intros H. injection H as _ <-. auto.
Qed.

Lemma read_ok (file : list Byte.byte) (n : Z) (w w' : world) (b : bytes) :
  read file n w = (inr b, w') ->
  fclosed w = false /\ fclosed w' = false /\ stdout w' = stdout w
  /\ (0 <= n -> b = file_bytes file (fpos w) n /\ fpos w' = fpos w + len b).
Proof.
  intros H. assert (Hc : fclosed w = false).
  { unfold read in H. destruct (fclosed w); [discriminate | reflexivity]. }
  split; [exact Hc |]. split; [exact (read_ok_open _ _ _ _ _ H) |]. split.
  - unfold read in H. rewrite Hc in H. injection H as _ <-. reflexivity.
  - intros Hn. rewrite read_run in H by assumption.
    injection H as <- <-. split; reflexivity.
Qed.

(** What a call of the Python 2 script that returns has done, step by
    step. *)
Lemma isfread_py2_ok_inv (B : builtins) (file : list Byte.byte)
    (w w' : world) (x v : list pynum) (head : header) :
  isfread_py2.isfread B file w = (inr (x, v, head), w') ->
  exists n skip digits n1 pos,
    read_header B legacy_tags (header_bytes file) = inr head
    /\ isfread_py2.unsupported head = false
    /\ npts head = PInt n /\ 0 <= n
    /\ (byteorder head = lit "MSB" \/ byteorder head = lit "LSB")
    /\ py_int B (file_bytes file
                   (find (header_bytes file) (lit ":CURVE #") 0 + 8) 1)
       = inr skip
    /\ (0 <= skip ->
        digits = file_bytes file
                   (find (header_bytes file) (lit ":CURVE #") 0 + 8
                    + len (file_bytes file
                             (find (header_bytes file) (lit ":CURVE #") 0 + 8) 1))
                   skip)
    /\ pos = find (header_bytes file) (lit ":CURVE #") 0 + 8
             + len (file_bytes file
                      (find (header_bytes file) (lit ":CURVE #") 0 + 8) 1)
             + len digits
    /\ py_int B digits = inr n1
    /\ len (file_bytes file pos (2 * n)) = 2 * n
    /\ mapM (value_of head)
         (unpack_h (str_eqb (byteorder head) (lit "MSB"))
            (file_bytes file pos (2 * n))) = inr v
    /\ mapM (time_of head) (range n) = inr x
    /\ fclosed w' = true
    /\ stdout w'
       = stdout w ++ (if n1 =? 2 * n then [] else [isfread_py2.warning]).
Proof.
  rewrite isfread_py2_unfold.
  destruct (read_header B legacy_tags (header_bytes file)) as [e|head'];
    [discriminate |].
  destruct (isfread_py2.unsupported head') eqn:Eu.
  - intros H. exfalso. revert H.
    rewrite (bind_step _ _ _ (mkWorld (len (header_bytes file)) true
                                (stdout w ++ [isfread_py2.unable])) tt)
      by reflexivity.
    cbv zeta. erewrite bind_fail by (apply seek_closed; reflexivity).
    discriminate.
  - rewrite (bind_step _ _ _ (after_header file w) tt) by reflexivity.
    cbv zeta. intros H.
    assert (Hii : 0 <= find (header_bytes file) (lit ":CURVE #") 0 + 8)
      by (destruct (find_range (header_bytes file) (lit ":CURVE #")); lia).
    set (ii := find (header_bytes file) (lit ":CURVE #") 0) in *.
    apply bind_ok in H as ([] & w1 & Hseek & H).
    apply bind_ok in H as (one & w2 & Hone & H).
    apply bind_ok in H as (skip & w3 & Hskip & H).
    apply bind_ok in H as (digits & w4 & Hdig & H).
    apply bind_ok in H as (n1 & w5 & Hn1 & H).
    apply bind_ok in H as (order & w6 & Hord & H).
    apply bind_ok in H as (fmt & w7 & Hfmt & H).
    apply bind_ok in H as (n2 & w8 & Hn2 & H).
    apply bind_ok in H as ([] & w9 & Hwarn & H).
    apply bind_ok in H as (sd & w10 & Hsd & H).
    apply bind_ok in H as (data & w11 & Hdata & H).
    apply bind_ok in H as (v' & w12 & Hv & H).
    apply bind_ok in H as (x' & w13 & Hx & H).
    apply bind_ok in H as ([] & w14 & Hclose & H).
    unfold ret in H. injection H as <- <- <- <-.
    apply lift_ok in Hskip as [Hskip ->], Hn1 as [Hn1 ->],
      Hord as [Hord ->], Hfmt as [Hfmt ->], Hn2 as [Hn2 ->],
      Hdata as [Hdata ->], Hv as [Hv ->], Hx as [Hx ->].
    apply seek_ok in Hseek as [_ ->].
    apply read_ok in Hone as (_ & Hc2 & Ho2 & Hone).
    destruct (Hone ltac:(lia)) as [-> Hp2]. cbn [fpos stdout] in *.
    (* the digits: as many as [skip] says, or all the rest *)
    assert (Hw4 : fclosed w4 = false /\ stdout w4 = stdout w2
                  /\ fpos w4 = fpos w2 + len digits).
    { unfold read in Hdig. rewrite Hc2 in Hdig.
      injection Hdig as <- <-. cbn [fclosed stdout fpos].
      rewrite len_map. auto. }
    destruct Hw4 as (Hc4 & Ho4 & Hp4).
    apply read_ok in Hdig as (_ & _ & _ & Hdig).
    (* the format and its size *)
    assert (Hsize : exists n o,
               npts head' = PInt n /\ 0 <= n /\ n2 = 2 * n
               /\ (o = LESS \/ o = GREATER)
               /\ dict_get dict_endian (byteorder head') = inr [o]
               /\ fmt = [o] ++ str_int n ++ lit "h").
    { destruct (dict_endian_cases (byteorder head'))
        as [(Hk & Hd) | [(Hk & Hd) | (_ & _ & Hd)]];
        rewrite Hd in Hord; try discriminate;
        apply inr_inj in Hord; subst order.
      all: unfold fmt_of in Hfmt; destruct (npts head') as [n|f];
        try discriminate; apply inr_inj in Hfmt; subst fmt.
      all: rewrite calcsize_fmt in Hn2 by auto.
      all: destruct ((n <? 0) || (PY_SSIZE_T_MAX / 2 <? n)) eqn:En;
        try discriminate.
      all: apply inr_inj in Hn2; exists n; eexists.
      all: repeat split; eauto; lia. }
    destruct Hsize as (n & o & Hn & Hn0 & -> & Ho & Hget & ->).
    assert (Hw9 : fclosed w9 = false /\ fpos w9 = fpos w4
                  /\ stdout w9 = stdout w4
                                 ++ (if n1 =? 2 * n then [] else [isfread_py2.warning])).
    { destruct (n1 =? 2 * n); cbn [negb] in Hwarn; unfold print, ret in Hwarn;
        injection Hwarn as <-; cbn [fclosed stdout fpos];
        rewrite ?app_nil_r; auto. }
    destruct Hw9 as (Hc9 & Hp9 & Ho9).
    apply read_ok in Hsd as (_ & _ & Ho10 & Hsd).
    destruct (Hsd ltac:(lia)) as [-> _].
    rewrite unpack_fmt in Hdata by exact Ho.
    destruct ((n <? 0) || (PY_SSIZE_T_MAX / 2 <? n)); [discriminate |].
    destruct (len (file_bytes file (fpos w9) (2 * n)) =? 2 * n) eqn:El;
      [| discriminate].
    apply inr_inj in Hdata. subst data. apply Z.eqb_eq in El.
    apply order_flag in Hget as [Hflag Hk]. rewrite Hflag in Hv.
    rewrite Hn in Hx. cbn [range_num rbind] in Hx.
    unfold close in Hclose. injection Hclose as <-. cbn [fclosed stdout].
    rewrite Hp9, Hp4, Hp2 in *.
    exists n, skip, digits, n1,
      (ii + 8 + len (file_bytes file (ii + 8) 1) + len digits).
    split; [reflexivity |]. split; [exact Eu |]. split; [exact Hn |].
    split; [exact Hn0 |]. split; [exact Hk |]. split; [exact Hskip |].
    split; [intros Hs; destruct (Hdig Hs) as [-> _]; reflexivity |].
    split; [reflexivity |]. split; [exact Hn1 |]. split; [exact El |].
    split; [exact Hv |]. split; [exact Hx |]. split; [reflexivity |].
    rewrite Ho10, Ho9, Ho4, Ho2. reflexivity.
Qed.

(** X13.  When the Python 2 script returns, the header was one of the
    supported cases (so nothing was said of an unsupported file), the file
    is closed, and the standard output has one line more, the warning, if
    and only if the byte count written after the marker is not twice the
    number of points: a wrong byte count does not stop the script. *)
Theorem py2_return_closed_and_warned (B : builtins) (file : list Byte.byte)
    (w w' : world) (x v : list pynum) (head : header) :
  isfread_py2.isfread B file w = (inr (x, v, head), w') ->
  read_header B legacy_tags (header_bytes file) = inr head
  /\ isfread_py2.unsupported head = false
  /\ fclosed w' = true
  /\ exists n skip digits n1,
       npts head = PInt n
       /\ py_int B (file_bytes file
                      (find (header_bytes file) (lit ":CURVE #") 0 + 8) 1)
          = inr skip
       /\ (0 <= skip ->
           digits = file_bytes file
                      (find (header_bytes file) (lit ":CURVE #") 0 + 8
                       + len (file_bytes file
                                (find (header_bytes file) (lit ":CURVE #") 0 + 8) 1))
                      skip)
       /\ py_int B digits = inr n1
       /\ stdout w'
          = stdout w ++ (if n1 =? 2 * n then [] else [isfread_py2.warning]).
Proof.
  intros H.
  apply isfread_py2_ok_inv in H
    as (n & skip & digits & n1 & pos & Hh & Hu & Hn & _ & _ & Hskip & Hdig
        & _ & Hn1 & _ & _ & _ & Hc & Ho).
  split; [exact Hh |]. split; [exact Hu |]. split; [exact Hc |].
  exists n, skip, digits, n1. auto.
Qed.

(** X19.  The two lists that the Python 2 script returns have [npts]
    terms each: [x[i]] is [xzero + xincr*(i - ptoff)] and [v[i]] is
    [yzero + ymult*(raw[i] - yoff)], where [raw[i]] is the signed 16-bit
    number of the bytes [2i] and [2i+1], in the byte order of the header, of
    the [2*npts] bytes that the script reads where it stands after the byte
    count: eight bytes after the index of the marker, one byte for the
    number of digits, and the digits.  The point format is "Y". *)
Theorem py2_lists (B : builtins) (file : list Byte.byte)
    (w w' : world) (x v : list pynum) (head : header) :
  isfread_py2.isfread B file w = (inr (x, v, head), w') ->
  exists n skip digits pos,
    pointformat head = lit "Y"
    /\ npts head = PInt n /\ 0 <= n
    /\ (byteorder head = lit "MSB" \/ byteorder head = lit "LSB")
    /\ py_int B (file_bytes file
                   (find (header_bytes file) (lit ":CURVE #") 0 + 8) 1)
       = inr skip
    /\ (0 <= skip ->
        digits = file_bytes file
                   (find (header_bytes file) (lit ":CURVE #") 0 + 8
                    + len (file_bytes file
                             (find (header_bytes file) (lit ":CURVE #") 0 + 8) 1))
                   skip)
    /\ pos = find (header_bytes file) (lit ":CURVE #") 0 + 8
             + len (file_bytes file
                      (find (header_bytes file) (lit ":CURVE #") 0 + 8) 1)
             + len digits
    /\ len x = n /\ len v = n
    /\ (forall i, 0 <= i < n ->
          nth_error x (Z.to_nat i)
          = Some (scaled (xzero head) (xincr head) (ptoff head) i))
    /\ (forall i, 0 <= i < n ->
          exists b0 b1,
            nth_error (file_bytes file pos (2 * n)) (2 * Z.to_nat i) = Some b0
            /\ nth_error (file_bytes file pos (2 * n)) (2 * Z.to_nat i + 1) = Some b1
            /\ (byteorder head = lit "MSB" ->
                nth_error v (Z.to_nat i)
                = Some (scaled (yzero head) (ymult head) (yoff head)
                          (signed16 b0 b1)))
            /\ (byteorder head = lit "LSB" ->
                nth_error v (Z.to_nat i)
                = Some (scaled (yzero head) (ymult head) (yoff head)
                          (signed16 b1 b0)))).
Proof.
  intros H.
  apply isfread_py2_ok_inv in H
    as (n & skip & digits & n1 & pos & _ & Hu & Hn & Hn0 & Hk & Hskip & Hdig
        & Hpos & _ & Hlen & Hv & Hx & _).
  apply py2_unsupported_iff_false in Hu.
  pose proof (mapM_length _ _ _ Hx) as Lx. rewrite range_length in Lx.
  pose proof (mapM_length _ _ _ Hv) as Lv.
  pose proof (unpack_h_length (str_eqb (byteorder head) (lit "MSB")) _ n Hlen)
    as Lraw.
  unfold len in Lraw at 1.
  exists n, skip, digits, pos.
  split; [exact Hu |]. split; [exact Hn |]. split; [exact Hn0 |].
  split; [exact Hk |]. split; [exact Hskip |]. split; [exact Hdig |].
  split; [exact Hpos |].
  split; [unfold len; lia |]. split; [unfold len; lia |].
  split.
  - intros i Hi.
    destruct (mapM_nth _ _ _ (Z.to_nat i) i Hx) as (t & Ht & Hf).
    { rewrite range_nth by lia. f_equal. lia. }
    apply time_of_value in Hf. now subst t.
  - intros i Hi.
    destruct (samples_nth (str_eqb (byteorder head) (lit "MSB")) file pos n i
                Hlen Hi) as (b0 & b1 & H0 & H1 & Hr).
    destruct (mapM_nth _ _ _ _ _ Hv Hr) as (y & Hy & Hf).
    apply value_of_value in Hf. subst y.
    exists b0, b1. split; [exact H0 |]. split; [exact H1 |].
    split; intros Ho; rewrite Ho in Hy; exact Hy.
Qed.

(** X14.  The Python 2 script does not check that the marker is found: with
    no [:CURVE #] in the first 511 bytes (and a supported header), [find]
    gives -1 and the script reads the number of digits at the byte of index
    7; when that byte is no number, the exception is the one of [int()]. *)
Theorem py2_marker_not_checked (B : builtins) (file : list Byte.byte)
    (w : world) (head : header) (e : exn) :
  read_header B legacy_tags (header_bytes file) = inr head ->
  isfread_py2.unsupported head = false ->
  absent (lit ":CURVE #") (header_bytes file) ->
  py_int B (file_bytes file 7 1) = inl e ->
  isfread_py2.isfread B file w
  = (inl e, mkWorld (7 + len (file_bytes file 7 1)) false (stdout w)).
Proof.
  intros Hh Hu Ha He. apply find_absent in Ha.
  rewrite isfread_py2_unfold, Hh, Hu.
  rewrite (bind_step _ _ _ (after_header file w) tt) by reflexivity.
  cbv zeta. rewrite Ha. change (-1 + 8) with 7.
  erewrite bind_step by (apply seek_run; [reflexivity | lia]).
  erewrite bind_step by (apply read_run; [reflexivity | lia]).
  cbn [fpos stdout after_header].
  unfold bind at 1, lift at 1. rewrite He. reflexivity.
Qed.

(** ** Bytes that are no UTF-8 *)

(** A byte of 128 or more that no byte of 128 or more follows starts no
    character. *)
Lemma utf8_decode_lone_byte (c : Z) (post : bytes) :
  128 <= c ->
  match post with [] => True | q :: _ => q < 128 end ->
  utf8_decode (c :: post) = None.
Proof.
  intros Hc Hq. cbn [utf8_decode].
  replace (c <? 128) with false by lia.
  assert (Hnc : forall q, q < 128 -> is_cont q = false)
    by (intros q Hlt; unfold is_cont; lia).
  destruct post as [|q r]; [repeat (destruct (_ && _)); reflexivity |].
  rewrite (Hnc q Hq).
  destruct ((194 <=? c) && (c <=? 223)); [reflexivity |].
  destruct ((224 <=? c) && (c <=? 239)); [destruct r; reflexivity |].
  destruct ((240 <=? c) && (c <=? 244)); [| reflexivity].
  destruct r as [|? [|? ?]]; reflexivity.
Qed.

(** X15.  The header is decoded as UTF-8, strictly: a byte of 128 or more
    that stands alone between two ASCII bytes (a letter of Latin-1, say) in
    the part of the buffer that is decoded makes [isfread] (Python 3) raise
    [UnicodeDecodeError], before any tag is looked up. *)
Theorem lone_high_byte_in_header_is_fatal
    (todecimal : Z -> option Z) (numpy : numpy_version)
    (file : list Byte.byte) (w : world) (loc kl nd : Z) (older : bool)
    (b : Z) (pre post : bytes) (p c : Z) :
  isfread_py3.locate (header_bytes file) = inr (loc, kl, older) ->
  getitem (header_bytes file) (loc + kl) = Some b ->
  py_int (python3 todecimal) [b] = inr nd ->
  slice (header_bytes file) 0 (loc + kl + 1 + nd) = pre ++ p :: c :: post ->
  p < 128 -> 128 <= c ->
  match post with [] => True | q :: _ => q < 128 end ->
  isfread_py3.isfread todecimal numpy file w
  = (inl UnicodeDecodeError, after_header file w).
Proof.
  intros Hl Hb Hnd Hs Hp Hc Hq. apply isfread_preamble_fails.
  unfold isfread_py3.read_preamble. rewrite Hl. cbn [rbind].
  unfold isfread_py3.preamble. rewrite Hb.
  unfold isfread_py3.B. rewrite Hnd. cbn [rbind]. rewrite Hs.
  unfold decode.
  destruct (utf8_decode (pre ++ p :: c :: post)) as [t|] eqn:E; [| reflexivity].
  exfalso.
  destruct (utf8_decode_ascii_split p (c :: post) ltac:(lia)
              (S (List.length pre)) pre t ltac:(lia) E)
    as (t1 & t2 & _ & H2 & _).
  rewrite (utf8_decode_lone_byte c post Hc Hq) in H2. discriminate.
Qed.

(** ** The samples as numbers *)

Lemma unpack_h_in_range (big : bool) (l : list Byte.byte) :
  Forall (fun y => -32768 <= y <= 32767) (unpack_h big (map byte_val l)).
Proof.
  assert (Hall : forall (k : nat) (m : list Byte.byte),
             (List.length m < k)%nat ->
             Forall (fun y => -32768 <= y <= 32767)
               (unpack_h big (map byte_val m))).
  { induction k as [|k IH]; intros m Hk; [lia |].
    destruct m as [|x [|y m]]; cbn [map unpack_h]; try constructor.
    - pose proof (byte_val_range x). pose proof (byte_val_range y).
      destruct big; rewrite int16_spec by assumption;
        match goal with |- context [?u <? 32768] => destruct (u <? 32768) eqn:E end;
        lia.
    - apply IH. cbn [List.length] in Hk. lia. }
  apply (Hall (S (List.length l))). lia.
Qed.

(** X16.  The samples that [struct.unpack] gives for the format of
    [isfread] are the 16-bit numbers in two's complement: [256*hi + lo],
    less 65536 when the high byte is 128 or more, so between -32768 and
    32767; the high byte is the first of the two for ['>'] and the second
    for ['<']. *)
Theorem unpack_h_twos_complement (big : bool) (l : list Byte.byte) :
  Forall (fun y => -32768 <= y <= 32767) (unpack_h big (map byte_val l))
  /\ forall (i : nat) (hi lo : Z),
       nth_error (map byte_val l) (2 * i + (if big then 0 else 1)) = Some hi ->
       nth_error (map byte_val l) (2 * i + (if big then 1 else 0)) = Some lo ->
       nth_error (unpack_h big (map byte_val l)) i
       = Some (if hi <? 128 then 256 * hi + lo else 256 * hi + lo - 65536).
Proof.
  assert (Hval : forall hi lo, 0 <= hi < 256 -> 0 <= lo < 256 ->
             int16 hi lo
             = (if hi <? 128 then 256 * hi + lo else 256 * hi + lo - 65536)).
  { intros hi lo Hh Hlo. rewrite int16_spec by assumption.
    destruct (hi <? 128) eqn:E1, (hi * 256 + lo <? 32768) eqn:E2; lia. }
  split.
  - apply unpack_h_in_range.
  - intros i hi lo Hhi Hlo.
    assert (Hlen : (2 * i + 1 < List.length (map byte_val l))%nat).
    { apply nth_error_Some.
      destruct big; [rewrite Hlo | rewrite Hhi]; discriminate. }
    destruct (unpack_h_nth big i _ Hlen) as (b0 & b1 & H0 & H1 & Hn).
    rewrite Hn. f_equal.
    assert (Hr : forall j z, nth_error (map byte_val l) j = Some z -> 0 <= z < 256).
    { intros j z Hj. rewrite nth_error_map in Hj.
      destruct (nth_error l j); [| discriminate]. injection Hj as <-.
      apply byte_val_range. }
    destruct big; rewrite ?Nat.add_0_r in *.
    + assert (b0 = hi) by congruence. assert (b1 = lo) by congruence. subst.
      apply Hval; eauto.
    + assert (b1 = hi) by congruence. assert (b0 = lo) by congruence. subst.
      apply Hval; eauto.
Qed.

(** ** What follows the block *)

Lemma file_bytes_app (file tail : list Byte.byte) (start m : Z) :
  0 <= start -> 0 <= m -> start + m <= len file ->
  file_bytes (file ++ tail) start m = file_bytes file start m.
Proof.
  intros Hs Hm Hle. unfold file_bytes. f_equal.
  rewrite skipn_app, firstn_app, length_skipn.
  replace (Z.to_nat m - (List.length file - Z.to_nat start))%nat with 0%nat
    by (unfold len in Hle; lia).
  cbn [firstn]. apply app_nil_r.
Qed.

Lemma header_bytes_app (file tail : list Byte.byte) :
  exists ext, header_bytes (file ++ tail) = header_bytes file ++ ext.
Proof.
  unfold header_bytes. rewrite firstn_app, map_app. eauto.
Qed.

Lemma header_bytes_app_long (file tail : list Byte.byte) :
  511 <= len file -> header_bytes (file ++ tail) = header_bytes file.
Proof.
  intros H. unfold header_bytes. rewrite firstn_app.
  replace (511 - List.length file)%nat with 0%nat by (unfold len in H; lia).
  cbn [firstn]. now rewrite app_nil_r.
Qed.

Lemma startswith_app_r (sub : str) :
  forall s ext, startswith sub s = true -> startswith sub (s ++ ext) = true.
Proof.
  induction sub as [|a sub IH]; intros s ext H; [reflexivity |].
  destruct s as [|b s]; [discriminate |]. cbn [startswith app] in *.
  apply andb_true_iff in H as [H1 H2]. rewrite H1. cbn [andb]. now apply IH.
Qed.

Lemma startswith_length (sub : str) :
  forall s, startswith sub s = true -> (List.length sub <= List.length s)%nat.
Proof.
  induction sub as [|a sub IH]; intros s H; [cbn; lia |].
  destruct s as [|b s]; [discriminate |]. cbn [startswith] in H.
  apply andb_true_iff in H as [_ H]. apply IH in H. cbn [List.length]. lia.
Qed.

(** An occurrence in a longer text that ends inside the shorter one is an
    occurrence in the shorter one. *)
Lemma startswith_app_inside (sub : str) :
  forall s ext,
    (List.length sub <= List.length s)%nat ->
    startswith sub (s ++ ext) = true -> startswith sub s = true.
Proof.
  induction sub as [|a sub IH]; intros s ext Hlen H; [reflexivity |].
  destruct s as [|b s]; [cbn in Hlen; lia |]. cbn [startswith app] in *.
  apply andb_true_iff in H as [H1 H2]. rewrite H1. cbn [andb].
  apply (IH s ext); [cbn [List.length] in Hlen; lia | exact H2].
Qed.

(** The first occurrence stays the first when the text is made longer. *)
Lemma first_at_app (sub s ext : str) (i : Z) :
  first_at sub s i -> first_at sub (s ++ ext) i.
Proof.
  intros [Ho Hfirst]. pose proof Ho as Ho'.
  apply occurs_at_iff in Ho' as [Hi Hs].
  pose proof (startswith_length _ _ Hs) as Hlen. rewrite length_skipn in Hlen.
  split.
  - apply occurs_at_iff. split; [exact Hi |].
    rewrite skipn_app. now apply startswith_app_r.
  - intros k Hk Hok. apply occurs_at_iff in Hok as [Hk0 Hsk].
    apply (Hfirst k Hk). apply occurs_at_iff. split; [exact Hk0 |].
    rewrite skipn_app in Hsk.
    apply (startswith_app_inside sub _ _) in Hsk; [exact Hsk |].
    rewrite length_skipn. lia.
Qed.

(** The header is a function of the place of the marker and of the bytes
    before the cut. *)
Lemma read_preamble_same_cut (todecimal : Z -> option Z) (hb hb2 : bytes)
    (loc kl nd : Z) (h : header) :
  isfread_py3.read_preamble todecimal hb = inr (loc, kl, nd, h) ->
  isfread_py3.locate hb2 = isfread_py3.locate hb ->
  firstn (Z.to_nat (loc + kl + 1 + nd)) hb2
  = firstn (Z.to_nat (loc + kl + 1 + nd)) hb ->
  isfread_py3.read_preamble todecimal hb2 = inr (loc, kl, nd, h).
Proof.
  intros Hpre Hl2 Hcut.
  pose proof (read_preamble_bounds _ _ _ _ _ _ Hpre) as (Hloc & Hkl & Hnd).
  apply read_preamble_ok in Hpre as (older & text & Hl & Hp & Hh).
  apply preamble_ok in Hp as (b & Hb & Hint & _ & Hdec).
  rewrite slice_prefix in Hdec by lia.
  unfold isfread_py3.read_preamble. rewrite Hl2, Hl. cbn [rbind].
  unfold isfread_py3.preamble.
  rewrite <- (getitem_firstn hb2 (loc + kl) (loc + kl + 1 + nd)) by lia.
  rewrite Hcut, getitem_firstn by lia. rewrite Hb.
  unfold isfread_py3.B. rewrite Hint. cbn [rbind].
  rewrite slice_prefix by lia. rewrite Hcut, Hdec. cbn [rbind].
  rewrite Hh. reflexivity.
Qed.

(** What [convert] returns does not depend on the file. *)
Lemma convert_result (numpy : numpy_version) (h : header) (data : list Z)
    (w w0 : world) :
  fst (isfread_py3.convert numpy h data w0) = fst (isfread_py3.convert numpy h data w).
Proof.
  cbv [isfread_py3.convert bind lift raise ret close].
  destruct (cmp (pointformat h) (lit "Y") =? 0).
  - destruct (idx <-? range_num (npts h) ;; mapM (time_of h) idx) as [e|t];
      [reflexivity |].
    destruct (mapM (value_of h) data) as [e|v]; [reflexivity |].
    destruct (np_array numpy [t; v]); reflexivity.
  - destruct (cmp (pointformat h) (lit "ENV") =? 0); [| reflexivity].
    destruct (half <-? py_div_float (npts h) (float_of_Z 2) ;; int_of_float half)
      as [e|n2]; [reflexivity |].
    destruct (mapM (env_time_of h) (range n2)) as [e|t]; [reflexivity |].
    destruct (mapM (value_of h) (slice_step data 0 (len data) 2)) as [e|mn];
      [reflexivity |].
    destruct (mapM (value_of h) (slice_step data 1 (len data) 2)) as [e|mx];
      [reflexivity |].
    destruct (np_array numpy [t; mn; mx]); reflexivity.
Qed.

(** X17.  What follows the block in the file is not looked at: a file that
    [isfread] (Python 3) decodes gives the same array and the same header
    with any bytes put after it.  This holds for a file with some points
    that is 511 bytes long at least or has the marker [:CURV #]; in a
    shorter file with [:CURVE #] the bytes put after it come into the buffer
    where [:CURV #] is looked for first. *)
Theorem bytes_after_the_block_are_ignored
    (todecimal : Z -> option Z) (numpy : numpy_version)
    (file tail : list Byte.byte) (w w' : world) (arr : ndarray) (h : header) :
  isfread_py3.isfread todecimal numpy file w = (inr (arr, h), w') ->
  npts h <> PInt 0 ->
  511 <= len file \/ ~ absent (lit ":CURV #") (header_bytes file) ->
  exists w'',
    isfread_py3.isfread todecimal numpy (file ++ tail) w = (inr (arr, h), w'').
Proof.
  intros Hrun Hn0 Hcase.
  apply isfread_ok_inv in Hrun as (loc & kl & nd & data & w2 & Hpre & Hblk & Hconv).
  pose proof (read_preamble_bounds _ _ _ _ _ _ Hpre) as (Hloc & Hkl & Hnd).
  apply read_block_ok_inv in Hblk
    as (n & o & Hn & Hnn & Ho & Hd & Hcount & Hlen & Hdata & _);
    try reflexivity; try lia.
  assert (Hpos : 0 < n) by (assert (n <> 0) by congruence; lia).
  assert (Hfile : loc + kl + 1 + nd + 2 * n <= len file).
  { rewrite len_file_bytes in Hlen by lia. lia. }
  (* the header *)
  assert (Hloc2 : isfread_py3.locate (header_bytes (file ++ tail))
                  = isfread_py3.locate (header_bytes file)).
  { destruct Hcase as [Hlong | Hcur].
    - now rewrite header_bytes_app_long.
    - destruct (header_bytes_app file tail) as (ext & ->).
      destruct (locate_cases (header_bytes file))
        as [(i & Hf & Hl) | [(Ha & _) | (Ha & _)]]; try contradiction.
      rewrite Hl.
      destruct (locate_cases (header_bytes file ++ ext))
        as [(j & Hj & Hl') | [(Ha & _) | (Ha & _)]].
      + rewrite Hl'.
        now rewrite (first_at_unique _ _ _ _ Hj (first_at_app _ _ ext _ Hf)).
      + destruct (first_at_app _ _ ext _ Hf) as [Hocc _]. now apply Ha in Hocc.
      + destruct (first_at_app _ _ ext _ Hf) as [Hocc _]. now apply Ha in Hocc. }
  assert (Hpre2 : isfread_py3.read_preamble todecimal (header_bytes (file ++ tail))
                  = inr (loc, kl, nd, h)).
  { apply (read_preamble_same_cut todecimal (header_bytes file)); auto.
    rewrite !firstn_header_bytes. do 2 f_equal.
    rewrite firstn_app.
    replace (Z.to_nat (loc + kl + 1 + nd) - List.length file)%nat with 0%nat
      by (unfold len in Hfile; lia).
    cbn [firstn]. apply app_nil_r. }
  (* the block *)
  assert (Hcd : count_digits (file ++ tail) loc kl nd = count_digits file loc kl nd).
  { unfold count_digits. apply file_bytes_app; lia. }
  assert (Hlcd : len (count_digits file loc kl nd) = nd).
  { unfold count_digits. rewrite len_file_bytes by lia. lia. }
  assert (Hsmall : (n <? 0) || (PY_SSIZE_T_MAX / 2 <? n) = false).
  { apply orb_false_iff. split; [lia |]. apply Z.ltb_ge.
    pose proof Hcount as Hb. apply int_ascii_bound in Hb as [_ Hb].
    rewrite Hlcd in Hb.
    assert (10 ^ nd <= 10 ^ 10) by (apply Z.pow_le_mono_r; lia).
    change (PY_SSIZE_T_MAX / 2) with 4611686018427387903.
    change (10 ^ 10) with 10000000000 in *. lia. }
  assert (Hblk2 : exists w3,
             isfread_py3.read_block (file ++ tail) loc kl nd h
               (after_header (file ++ tail) w) = (inr data, w3)).
  { rewrite read_block_unfold by (try reflexivity; lia). cbv zeta.
    rewrite Hcd, Hcount, Hd. unfold fmt_of. rewrite Hn.
    rewrite calcsize_fmt by exact Ho. rewrite Hsmall.
    rewrite Z.eqb_refl. cbn [negb].
    rewrite read_samples_run by (try reflexivity; lia).
    unfold after_digits at 1. cbn [fpos]. rewrite Hcd, Hlcd.
    rewrite file_bytes_app by lia.
    rewrite unpack_fmt by exact Ho. rewrite Hsmall.
    rewrite Hlen, Z.eqb_refl. rewrite <- Hdata. eauto. }
  destruct Hblk2 as (w3 & Hblk2).
  (* the conversion *)
  pose proof (convert_result numpy h data w2 w3) as Hres. rewrite Hconv in Hres.
  destruct (isfread_py3.convert numpy h data w3) as [r w4] eqn:Hconv2.
  cbn [fst] in Hres. subst r.
  exists w4. rewrite (isfread_run _ _ _ _ _ _ _ _ Hpre2).
  rewrite (bind_step _ _ _ _ _ Hblk2), (bind_step _ _ _ _ _ Hconv2).
  reflexivity.
Qed.

(** ** The halving of the number of points *)

Lemma digits2_iter_xO (k p : positive) :
  digits2_pos (Pos.iter xO p k) = (digits2_pos p + k)%positive.
Proof.
  revert p. induction k using Pos.peano_ind; intros p.
  - cbn. lia.
  - rewrite Pos.iter_succ. cbn [digits2_pos]. rewrite IHk. lia.
Qed.

Lemma iter_xO_value (k p : positive) :
  Zpos (Pos.iter xO p k) = Zpos p * 2 ^ Zpos k.
Proof.
  revert p. induction k using Pos.peano_ind; intros p.
  - cbn. lia.
  - rewrite Pos.iter_succ, Pos2Z.inj_xO, IHk, Pos2Z.inj_succ, Z.pow_succ_r by lia.
    lia.
Qed.

(** A mantissa of 53 bits with an exponent in the range is not rounded. *)
Lemma binary_round_aux_exact (s : bool) (m : positive) (e : Z) :
  Zpos (digits2_pos m) = 53 -> -1074 <= e <= 971 ->
  binary_round_aux prec emax s (Zpos m) e loc_Exact = S754_finite s m e.
Proof.
  intros Hm He.
  assert (Hshift : shr_fexp prec emax (Zpos m) e loc_Exact
                   = (Build_shr_record (Zpos m) false false, e)).
  { unfold shr_fexp, Zdigits2. rewrite Hm.
    replace (fexp prec emax (53 + e) - e) with 0
      by (unfold fexp, emin, prec, emax; lia).
    reflexivity. }
  unfold binary_round_aux. rewrite Hshift.
  cbn [shr_m loc_of_shr_record round_nearest_even]. rewrite Hshift.
  cbn [shr_m]. replace (e <=? emax - prec) with true by (unfold emax, prec; lia).
  reflexivity.
Qed.

(** The rounding of an integer of 53 bits at most: its bits, shifted to the
    left end of the mantissa. *)
Lemma binary_round_small (s : bool) (p : positive) :
  Zpos (digits2_pos p) <= 53 ->
  exists m,
    binary_round prec emax s p 0 = S754_finite s m (Zpos (digits2_pos p) - 53)
    /\ Zpos (digits2_pos m) = 53
    /\ Zpos m = Zpos p * 2 ^ (53 - Zpos (digits2_pos p)).
Proof.
  intros Hd. unfold binary_round.
  set (d := Zpos (digits2_pos p)) in *.
  assert (Hd1 : 1 <= d) by (unfold d; lia).
  replace (fexp prec emax (d + 0)) with (d - 53)
    by (unfold fexp, emin, prec, emax; lia).
  unfold shl_align.
  destruct (d - 53 - 0) as [|q|q] eqn:E; [| lia |].
  - exists p. replace (d - 53) with 0 by lia.
    rewrite binary_round_aux_exact by (fold d; lia).
    split; [reflexivity |]. split; [fold d; lia |].
    replace (53 - d) with 0 by lia. lia.
  - exists (Pos.iter xO p q).
    assert (Hq : Zpos q = 53 - d) by lia.
    rewrite binary_round_aux_exact; [| rewrite digits2_iter_xO; fold d; lia | lia].
    split; [reflexivity |]. split; [rewrite digits2_iter_xO; fold d; lia |].
    now rewrite iter_xO_value, Hq.
Qed.

(** [float(n)] for a positive [n] of 53 bits at most. *)
Lemma float_of_pos (p : positive) :
  Zpos (digits2_pos p) <= 53 ->
  exists m,
    float_of_Z (Zpos p) = S754_finite false m (Zpos (digits2_pos p) - 53)
    /\ Zpos (digits2_pos m) = 53
    /\ Zpos m = Zpos p * 2 ^ (53 - Zpos (digits2_pos p)).
Proof. apply (binary_round_small false). Qed.

Lemma digits2_bound (p : positive) : Zpos p < 2 ^ Zpos (digits2_pos p).
Proof.
  induction p as [p IH | p IH |]; cbn [digits2_pos];
    rewrite ?Pos2Z.inj_succ, ?Z.pow_succ_r by lia; lia.
Qed.

Lemma digits2_le (p : positive) (k : Z) :
  0 <= k -> Zpos p < 2 ^ k -> Zpos (digits2_pos p) <= k.
Proof.
  revert k. induction p as [p IH | p IH |]; intros k Hk Hp; cbn [digits2_pos].
  - destruct (Z.eq_dec k 0) as [-> | Hk0]; [cbn in Hp; lia |].
    replace k with (Z.succ (k - 1)) in Hp by lia.
    rewrite Z.pow_succ_r in Hp by lia.
    specialize (IH (k - 1) ltac:(lia) ltac:(lia)). lia.
  - destruct (Z.eq_dec k 0) as [-> | Hk0]; [cbn in Hp; lia |].
    replace k with (Z.succ (k - 1)) in Hp by lia.
    rewrite Z.pow_succ_r in Hp by lia.
    specialize (IH (k - 1) ltac:(lia) ltac:(lia)). lia.
  - destruct (Z.eq_dec k 0) as [-> | Hk0]; [cbn in Hp; lia |]. lia.
Qed.

(** [float(n) / 2.] for such an [n]: the same mantissa, the exponent one
    less. *)
Lemma half_of_float (m : positive) (e : Z) :
  Zpos (digits2_pos m) = 53 -> -1072 <= e <= 971 ->
  SFdiv prec emax (S754_finite false m e) (float_of_Z 2)
  = S754_finite false m (e - 1).
Proof.
  intros Hm He.
  change (float_of_Z 2) with (S754_finite false 4503599627370496 (-51)).
  unfold SFdiv, SFdiv_core_binary, Zdigits2. rewrite Hm.
  change (Zpos (digits2_pos 4503599627370496)) with 53.
  replace (Z.min (fexp prec emax (53 + e - (53 + -51))) (e - -51)) with (e - 2)
    by (unfold fexp, emin, prec, emax; lia).
  replace (e - -51 - (e - 2)) with 53 by lia.
  assert (Hdiv : Z.div_eucl (Z.shiftl (Zpos m) 53) (Zpos 4503599627370496)
                 = (Zpos (xO m), 0)).
  { rewrite Z.shiftl_mul_pow2 by lia.
    pose proof (Z.div_eucl_eq (Zpos m * 2 ^ 53) 4503599627370496 ltac:(lia)) as Hq.
    pose proof (Z.mod_pos_bound (Zpos m * 2 ^ 53) 4503599627370496 ltac:(lia)) as Hr.
    unfold Z.modulo in Hr.
    destruct (Z.div_eucl (Zpos m * 2 ^ 53) 4503599627370496) as [q r].
    change (2 ^ 53) with 9007199254740992 in Hq.
    f_equal; lia. }
  rewrite Hdiv. cbn [xorb].
  change (new_location 4503599627370496 0) with loc_Exact.
  (* the quotient has 54 bits: one is shifted out, a zero *)
  assert (Hshift : shr_fexp prec emax (Zpos (xO m)) (e - 2) loc_Exact
                   = (Build_shr_record (Zpos m) false false, e - 1)).
  { unfold shr_fexp, Zdigits2. cbn [digits2_pos]. rewrite Pos2Z.inj_succ, Hm.
    replace (fexp prec emax (Z.succ 53 + (e - 2)) - (e - 2)) with 1
      by (unfold fexp, emin, prec, emax; lia).
    cbn [shr_record_of_loc shr iter_pos shr_1 orb]. f_equal. lia. }
  assert (Hshift2 : shr_fexp prec emax (Zpos m) (e - 1) loc_Exact
                    = (Build_shr_record (Zpos m) false false, e - 1)).
  { unfold shr_fexp, Zdigits2. rewrite Hm.
    replace (fexp prec emax (53 + (e - 1)) - (e - 1)) with 0
      by (unfold fexp, emin, prec, emax; lia).
    reflexivity. }
  unfold binary_round_aux. rewrite Hshift.
  cbn [shr_m loc_of_shr_record round_nearest_even]. rewrite Hshift2.
  cbn [shr_m]. replace (e - 1 <=? emax - prec) with true by (unfold emax, prec; lia).
  reflexivity.
Qed.

(** [int(n / 2.)] is [n // 2] for a number of points that a double holds
    exactly. *)
Lemma int_of_half (n : Z) :
  0 <= n < 2 ^ 53 ->
  (half <-? py_div_float (PInt n) (float_of_Z 2) ;; int_of_float half) = inr (n / 2).
Proof.
  intros Hn. destruct n as [|p|p]; [reflexivity | | lia].
  pose proof (digits2_le p 53 ltac:(lia) (proj2 Hn)) as Hd.
  destruct (float_of_pos p Hd) as (m & Hf & Hm & Hv).
  cbn [py_div_float]. unfold int_to_float. rewrite Hf.
  cbn [is_finite rbind].
  assert (Hd1 : 1 <= Zpos (digits2_pos p)) by lia.
  rewrite half_of_float by (auto; lia).
  cbn [int_of_float].
  set (d := Zpos (digits2_pos p)) in *.
  replace (0 <=? d - 53 - 1) with false by lia.
  f_equal. rewrite Z.shiftr_div_pow2 by lia. rewrite Hv.
  replace (- (d - 53 - 1)) with (Z.succ (53 - d)) by lia.
  rewrite Z.pow_succ_r by lia.
  rewrite (Z.mul_comm 2), <- Z.div_div by (try lia; apply Z.pow_pos_nonneg; lia).
  rewrite Z.div_mul by (apply Z.pow_nonzero; lia). reflexivity.
Qed.

(** X18.  A file that [isfread] (Python 3) decodes with point format "ENV"
    gives three lists: the times [xzero + xincr*(i - ptoff)*2], [npts // 2]
    of them; the minima [yzero + ymult*(raw[2i] - yoff)], from the samples
    of even index, [npts // 2 + npts % 2] of them; the maxima
    [yzero + ymult*(raw[2i+1] - yoff)], from the samples of odd index,
    [npts // 2] of them.  ([raw[j]] is the signed 16-bit number of the bytes
    [2j] and [2j+1] of the block, in the byte order of the header.)  With an
    even number of points the three lists have the same length and the array
    has them as its three rows; with an odd number the list of the minima
    has one term more than the two others: the file is decoded only by a
    NumPy before 1.24, into an array of one dimension that holds the three
    lists. *)
Theorem isfread_ENV_series (todecimal : Z -> option Z) (numpy : numpy_version)
    (file : list Byte.byte) (w w' : world) (arr : ndarray) (h : header) :
  isfread_py3.isfread todecimal numpy file w = (inr (arr, h), w') ->
  pointformat h = lit "ENV" ->
  exists n loc kl nd time mn mx,
    npts h = PInt n /\ 0 <= n
    /\ isfread_py3.read_preamble todecimal (header_bytes file) = inr (loc, kl, nd, h)
    /\ (byteorder h = lit "MSB" \/ byteorder h = lit "LSB")
    /\ len time = n / 2
    /\ len mn = n / 2 + n mod 2
    /\ len mx = n / 2
    /\ (forall i, 0 <= i < n / 2 ->
          nth_error time (Z.to_nat i)
          = Some (scaled_twice (xzero h) (xincr h) (ptoff h) i))
    /\ (forall i, 0 <= i < n / 2 + n mod 2 ->
          exists b0 b1,
            nth_error (file_bytes file (loc + kl + 1 + nd) (2 * n))
              (4 * Z.to_nat i) = Some b0
            /\ nth_error (file_bytes file (loc + kl + 1 + nd) (2 * n))
                 (4 * Z.to_nat i + 1) = Some b1
            /\ (byteorder h = lit "MSB" ->
                nth_error mn (Z.to_nat i)
                = Some (scaled (yzero h) (ymult h) (yoff h) (signed16 b0 b1)))
            /\ (byteorder h = lit "LSB" ->
                nth_error mn (Z.to_nat i)
                = Some (scaled (yzero h) (ymult h) (yoff h) (signed16 b1 b0))))
    /\ (forall i, 0 <= i < n / 2 ->
          exists b0 b1,
            nth_error (file_bytes file (loc + kl + 1 + nd) (2 * n))
              (4 * Z.to_nat i + 2) = Some b0
            /\ nth_error (file_bytes file (loc + kl + 1 + nd) (2 * n))
                 (4 * Z.to_nat i + 3) = Some b1
            /\ (byteorder h = lit "MSB" ->
                nth_error mx (Z.to_nat i)
                = Some (scaled (yzero h) (ymult h) (yoff h) (signed16 b0 b1)))
            /\ (byteorder h = lit "LSB" ->
                nth_error mx (Z.to_nat i)
                = Some (scaled (yzero h) (ymult h) (yoff h) (signed16 b1 b0))))
    /\ (n mod 2 = 0 ->
        exists d,
          d = common_dtype (time ++ mn ++ mx)
          /\ arr = nd_array d [map (held_as d) time; map (held_as d) mn;
                               map (held_as d) mx]
          /\ ((exists a, In a (time ++ mn ++ mx) /\ is_float a) ->
              (forall z, In (PInt z) (time ++ mn ++ mx) ->
                         - 2 ^ 63 <= z < 2 ^ 64) ->
              d = float64)
          /\ ((is_float (xzero h) \/ is_float (xincr h) \/ is_float (ptoff h)) ->
              (is_float (yzero h) \/ is_float (ymult h) \/ is_float (yoff h)) ->
              arr = nd_array float64 [time; mn; mx]))
    /\ (n mod 2 = 1 ->
        numpy = numpy_before_1_24 /\ arr = nd_ragged [time; mn; mx]).
Proof.
  intros Hrun He.
  destruct (isfread_ENV_rows todecimal numpy file w w' arr h Hrun He)
    as (n & n2 & loc & kl & nd & time & mn & mx
        & Hn & Hnn & Hpre & Hk & Hcount & Hhalf & Hnp & Lt & Lmn & Lmx
        & Ht & Hmn & Hmx).
  pose proof (read_preamble_bounds _ _ _ _ _ _ Hpre) as (Hloc & Hkl & Hnd).
  assert (Hsmall : n < 2 ^ 53).
  { apply int_ascii_bound in Hcount as [_ Hb].
    assert (Hl : len (count_digits file loc kl nd) <= nd).
    { unfold count_digits. rewrite len_file_bytes by lia. lia. }
    assert (10 ^ len (count_digits file loc kl nd) <= 10 ^ 9)
      by (apply Z.pow_le_mono_r; lia).
    change (10 ^ 9) with 1000000000 in *.
    change (2 ^ 53) with 9007199254740992. lia. }
  rewrite int_of_half in Hhalf by lia. apply inr_inj in Hhalf. subst n2.
  pose proof (Z.div_pos n 2 Hnn ltac:(lia)) as Hq.
  pose proof (Z.div_mod n 2 ltac:(lia)) as Hdm.
  pose proof (Z.mod_pos_bound n 2 ltac:(lia)) as Hm.
  assert (Ltime : len time = n / 2) by lia.
  assert (Lmin : len mn = n / 2 + n mod 2).
  { rewrite Lmn.
    replace (n + 1) with ((n mod 2 + 1) + (n / 2) * 2) by lia.
    rewrite Z.div_add by lia.
    assert (n mod 2 = 0 \/ n mod 2 = 1) as [-> | ->] by lia;
      [change ((0 + 1) / 2) with 0 | change ((1 + 1) / 2) with 1]; lia. }
  assert (Htime : forall i, 0 <= i < n / 2 ->
            nth_error time (Z.to_nat i)
            = Some (scaled_twice (xzero h) (xincr h) (ptoff h) i)).
  { intros i Hi. rewrite (Ht (Z.to_nat i)) by (unfold len in Ltime; lia).
    now rewrite Z2Nat.id by lia. }
  assert (Hmin : forall i, 0 <= i < n / 2 + n mod 2 ->
            exists b0 b1,
              nth_error (file_bytes file (loc + kl + 1 + nd) (2 * n))
                (4 * Z.to_nat i) = Some b0
              /\ nth_error (file_bytes file (loc + kl + 1 + nd) (2 * n))
                   (4 * Z.to_nat i + 1) = Some b1
              /\ nth_error mn (Z.to_nat i)
                 = Some (scaled (yzero h) (ymult h) (yoff h)
                           (if str_eqb (byteorder h) (lit "MSB")
                            then signed16 b0 b1 else signed16 b1 b0))).
  { intros i Hi. apply Hmn. unfold len in Lmin. lia. }
  assert (Hmax : forall i, 0 <= i < n / 2 ->
            exists b0 b1,
              nth_error (file_bytes file (loc + kl + 1 + nd) (2 * n))
                (4 * Z.to_nat i + 2) = Some b0
              /\ nth_error (file_bytes file (loc + kl + 1 + nd) (2 * n))
                   (4 * Z.to_nat i + 3) = Some b1
              /\ nth_error mx (Z.to_nat i)
                 = Some (scaled (yzero h) (ymult h) (yoff h)
                           (if str_eqb (byteorder h) (lit "MSB")
                            then signed16 b0 b1 else signed16 b1 b0))).
  { intros i Hi. apply Hmx. unfold len in Lmx. lia. }
  exists n, loc, kl, nd, time, mn, mx.
  split; [exact Hn |]. split; [exact Hnn |]. split; [exact Hpre |].
  split; [exact Hk |]. split; [exact Ltime |]. split; [exact Lmin |].
  split; [exact Lmx |]. split; [exact Htime |].
  split.
  { intros i Hi. destruct (Hmin i Hi) as (b0 & b1 & H0 & H1 & Hv).
    exists b0, b1. split; [exact H0 |]. split; [exact H1 |].
    split; intros Ho'; rewrite Ho' in Hv; exact Hv. }
  split.
  { intros i Hi. destruct (Hmax i Hi) as (b0 & b1 & H0 & H1 & Hv).
    exists b0, b1. split; [exact H0 |]. split; [exact H1 |].
    split; intros Ho'; rewrite Ho' in Hv; exact Hv. }
  split.
  - intros Heven.
    rewrite np_array_three in Hnp by lia. apply inr_inj in Hnp.
    exists (common_dtype (time ++ mn ++ mx)).
    split; [reflexivity |]. split; [now symmetry |].
    split; [apply common_dtype_mixed |].
    intros Hx Hyf.
    assert (Hall : Forall is_float time /\ Forall is_float mn /\ Forall is_float mx).
    { split; [| split]; apply nth_error_all; intros j x Hj.
      - assert (Hlt : (j < List.length time)%nat)
          by (apply nth_error_Some; congruence).
        rewrite (Ht j Hlt) in Hj. injection Hj as <-.
        destruct (xzero h), (xincr h), (ptoff h); cbn in *; tauto.
      - assert (Hlt : (j < List.length mn)%nat)
          by (apply nth_error_Some; congruence).
        destruct (Hmn j Hlt) as (b0 & b1 & _ & _ & Hv).
        rewrite Hj in Hv. injection Hv as ->. now apply scaled_is_float.
      - assert (Hlt : (j < List.length mx)%nat)
          by (apply nth_error_Some; congruence).
        destruct (Hmx j Hlt) as (b0 & b1 & _ & _ & Hv).
        rewrite Hj in Hv. injection Hv as ->. now apply scaled_is_float. }
    destruct Hall as (At & Amn & Amx).
    rewrite <- Hnp, common_dtype_floats
      by (apply Forall_app; split; [| apply Forall_app; split]; assumption).
    now rewrite (held_as_floats _ At), (held_as_floats _ Amn), (held_as_floats _ Amx).
  - intros Hodd.
    rewrite np_array_ragged in Hnp by lia.
    destruct numpy; [| discriminate].
    apply inr_inj in Hnp. auto.
Qed.

(** ** What the array depends on *)

Lemma mapM_ext {A B : Type} (f g : A -> res B) (l : list A) :
  (forall x, f x = g x) -> mapM f l = mapM g l.
Proof.
  intros H. induction l as [|x l IH]; [reflexivity |].
  cbn [mapM]. now rewrite H, IH.
Qed.

Lemma convert_fields (numpy : numpy_version)
    (h1 h2 : header) (data : list Z) (w1 w2 : world) :
  decoding_fields h1 = decoding_fields h2 ->
  fst (isfread_py3.convert numpy h1 data w1) = fst (isfread_py3.convert numpy h2 data w2).
Proof.
  unfold decoding_fields. intros H.
  injection H as Hbo Hpf Hn Hxz Hxi Hpo Hym Hyz Hyo.
  assert (Ht : forall i, time_of h1 i = time_of h2 i)
    by (intros i; unfold time_of; now rewrite Hxz, Hxi, Hpo).
  assert (Hv : forall y, value_of h1 y = value_of h2 y)
    by (intros y; unfold value_of; now rewrite Hym, Hyz, Hyo).
  assert (Het : forall i, env_time_of h1 i = env_time_of h2 i)
    by (intros i; unfold env_time_of; now rewrite Hxz, Hxi, Hpo).
  rewrite (convert_result numpy h1 data w2 w1).
  unfold isfread_py3.convert. rewrite Hpf, Hn.
  rewrite (mapM_ext _ _ data Hv).
  rewrite (mapM_ext _ _ (slice_step data 0 (len data) 2) Hv).
  rewrite (mapM_ext _ _ (slice_step data 1 (len data) 2) Hv).
  destruct (cmp (pointformat h2) (lit "Y") =? 0).
  - destruct (range_num (npts h2)) as [e|idx]; [reflexivity |].
    cbn [rbind]. now rewrite (mapM_ext _ _ idx Ht).
  - destruct (cmp (pointformat h2) (lit "ENV") =? 0); [| reflexivity].
    unfold bind at 1 5, lift at 1 5.
    destruct (half <-? py_div_float (npts h2) (float_of_Z 2) ;; int_of_float half)
      as [e|n2]; [reflexivity |].
    now rewrite (mapM_ext _ _ (range n2) Het).
Qed.

(** X20.  The array that [isfread] (Python 3) returns is a function of the
    bytes of the block and of nine fields of the header: the byte order, the
    point format, the number of points and the six numbers of the two
    scales.  The other fields ([bytenum], [bitnum], [encoding], [binformat],
    [wfid], [xunit], [yunit]), the convention of the tags and the place of
    the block in the file have no part in it. *)
Theorem array_depends_on_block_and_scales
    (todecimal : Z -> option Z) (numpy : numpy_version)
    (file1 file2 : list Byte.byte) (w1 w1' w2 w2' : world)
    (arr1 arr2 : ndarray) (h1 h2 : header)
    (loc1 kl1 nd1 loc2 kl2 nd2 n : Z) :
  isfread_py3.isfread todecimal numpy file1 w1 = (inr (arr1, h1), w1') ->
  isfread_py3.isfread todecimal numpy file2 w2 = (inr (arr2, h2), w2') ->
  isfread_py3.read_preamble todecimal (header_bytes file1)
  = inr (loc1, kl1, nd1, h1) ->
  isfread_py3.read_preamble todecimal (header_bytes file2)
  = inr (loc2, kl2, nd2, h2) ->
  decoding_fields h1 = decoding_fields h2 ->
  npts h1 = PInt n ->
  file_bytes file1 (loc1 + kl1 + 1 + nd1) (2 * n)
  = file_bytes file2 (loc2 + kl2 + 1 + nd2) (2 * n) ->
  arr1 = arr2.
Proof.
  intros Hrun1 Hrun2 Hpre1 Hpre2 Hf Hn Hblock.
  apply isfread_ok_inv in Hrun1
    as (la & ka & na & data1 & wa & Hpa & Hblk1 & Hconv1).
  apply isfread_ok_inv in Hrun2
    as (lb & kb & nb & data2 & wb & Hpb & Hblk2 & Hconv2).
  assert (Ea : (la, ka, na) = (loc1, kl1, nd1)) by congruence.
  assert (Eb : (lb, kb, nb) = (loc2, kl2, nd2)) by congruence.
  injection Ea as -> -> ->. injection Eb as -> -> ->.
  pose proof (read_preamble_bounds _ _ _ _ _ _ Hpre1) as (Hl1 & Hk1 & Hd1).
  pose proof (read_preamble_bounds _ _ _ _ _ _ Hpre2) as (Hl2 & Hk2 & Hd2).
  apply read_block_ok_inv in Hblk1
    as (n1 & o1 & Hn1 & _ & _ & Ho1 & _ & _ & Hdata1 & _);
    try reflexivity; try lia.
  apply read_block_ok_inv in Hblk2
    as (n2 & o2 & Hn2 & _ & _ & Ho2 & _ & _ & Hdata2 & _);
    try reflexivity; try lia.
  pose proof Hf as Hf0. unfold decoding_fields in Hf0.
  injection Hf0 as Hbo _ Hnp _ _ _ _ _ _.
  assert (n1 = n) by congruence. assert (n2 = n) by congruence. subst n1 n2.
  apply order_flag in Ho1 as [Hg1 _]. apply order_flag in Ho2 as [Hg2 _].
  assert (Hdata : data1 = data2).
  { rewrite Hdata1, Hdata2, Hg1, Hg2, Hbo, Hblock. reflexivity. }
  rewrite <- Hdata in Hconv2.
  pose proof (convert_fields numpy h1 h2 data1 wa wb Hf) as Hc.
  rewrite Hconv1, Hconv2 in Hc. cbn [fst] in Hc. congruence.
Qed.

(** ** The exceptions of [isfread] (Python 3) *)

Lemma float_ascii_error (s : str) (e : exn) :
  float_ascii s = inl e -> e = invalid_float.
Proof.
  assert (Hin : forall t, float_from_string_inner t = inl e -> e = invalid_float).
  { intros t. unfold float_from_string_inner.
    destruct (match dg_strtod _ with Some r => Some r | None => _ end)
      as [[x [|c r]]|]; congruence. }
  unfold float_ascii. destruct (existsb (Z.eqb UNDERSCORE) s); [| apply Hin].
  destruct (strip_underscores 0 s); [apply Hin | congruence].
Qed.

Lemma getnum_error (todecimal : Z -> option Z) (text tag : str) (e : exn) :
  getnum (python3 todecimal) text tag = inl e ->
  e = invalid_int \/ e = invalid_float.
Proof.
  unfold getnum. cbv zeta. cbn [py_int py_float python3].
  destruct (find _ (lit ".") 0 =? -1).
  - destruct (int_ascii _) as [e'|v] eqn:E; [| discriminate].
    cbn [rbind]. intros H. injection H as <-.
    left. now apply int_ascii_error in E.
  - destruct (float_ascii _) as [e'|v] eqn:E; [| discriminate].
    cbn [rbind]. intros H. injection H as <-.
    right. now apply float_ascii_error in E.
Qed.

Lemma read_header_error (B : builtins) (t : tagset) (hdata : str) (e : exn) :
  read_header B t hdata = inl e ->
  exists tag, getnum B hdata tag = inl e.
Proof.
  unfold read_header.
  repeat match goal with
  | |- rbind ?c _ = _ -> _ =>
      let E := fresh "E" in
      destruct c as [? | ?] eqn:E; cbn [rbind];
        [intros H; injection H as <-; eauto |]
  end.
  discriminate.
Qed.

Lemma mapM_error {A B : Type} (f : A -> res B) (l : list A) (e : exn) :
  mapM f l = inl e -> exists x, In x l /\ f x = inl e.
Proof.
  induction l as [|x l IH]; [discriminate |]. cbn [mapM].
  destruct (f x) as [e'|y] eqn:Ex; cbn [rbind].
  - intros H. injection H as <-. exists x. split; [now left | exact Ex].
  - destruct (mapM f l) as [e'|ys]; cbn [rbind]; [| discriminate].
    intros H. injection H as <-.
    destruct (IH eq_refl) as (x' & Hin & Hx). exists x'. split; [now right | exact Hx].
Qed.

Lemma arith_error (iop : Z -> Z -> Z) (fop : float -> float -> float)
    (a b : pynum) (e : exn) :
  arith iop fop a b = inl e -> e = OverflowError.
Proof.
  unfold arith, int_to_float.
  destruct a as [x|x], b as [y|y]; try discriminate.
  - destruct (is_finite (float_of_Z x)); cbn [rbind]; congruence.
  - destruct (is_finite (float_of_Z y)); cbn [rbind]; congruence.
Qed.

Lemma formula_error (a b c d : pynum) (e : exn) :
  (x <-? py_sub a b ;; p <-? py_mul c x ;; py_add d p) = inl e ->
  e = OverflowError.
Proof.
  destruct (py_sub a b) as [e1|x] eqn:E1; cbn [rbind].
  - intros H. injection H as <-. now apply arith_error in E1.
  - destruct (py_mul c x) as [e2|p] eqn:E2; cbn [rbind].
    + intros H. injection H as <-. now apply arith_error in E2.
    + apply arith_error.
Qed.

Lemma env_time_error (h : header) (i : Z) (e : exn) :
  env_time_of h i = inl e -> e = OverflowError.
Proof.
  unfold env_time_of.
  destruct (py_sub (PInt i) (ptoff h)) as [e1|x] eqn:E1; cbn [rbind].
  - intros H. injection H as <-. now apply arith_error in E1.
  - destruct (py_mul (xincr h) x) as [e2|p] eqn:E2; cbn [rbind].
    + intros H. injection H as <-. now apply arith_error in E2.
    + destruct (py_mul p (PInt 2)) as [e3|q] eqn:E3; cbn [rbind].
      * intros H. injection H as <-. now apply arith_error in E3.
      * apply arith_error.
Qed.

Lemma read_preamble_error (todecimal : Z -> option Z) (numpy : numpy_version)
    (bytesHeader : bytes) (e : exn) :
  isfread_py3.read_preamble todecimal bytesHeader = inl e ->
  raised_by_isfread numpy e.
Proof.
  unfold isfread_py3.read_preamble, raised_by_isfread.
  destruct (locate_cases bytesHeader)
    as [(i & _ & Hl) | [(_ & i & _ & Hl) | (_ & _ & Hl)]]; rewrite Hl;
    cbn [rbind]; [| | intros H; injection H as <-; auto].
  all: unfold isfread_py3.preamble.
  all: destruct (getitem bytesHeader _) as [b|];
    [| cbn [rbind]; intros H; injection H as <-; tauto].
  all: destruct (py_int (isfread_py3.B todecimal) [b]) as [e1|nd] eqn:E1;
    cbn [rbind];
    [intros H; injection H as <-; apply int_ascii_error in E1; tauto |].
  all: unfold decode; destruct (utf8_decode _) as [text|]; cbn [rbind];
    [| intros H; injection H as <-; tauto].
  all: unfold isfread_py3.tupleHeader; cbv iota.
  all: match goal with
       | |- rbind ?c _ = _ -> _ => destruct c as [e2|h] eqn:E2
       end; cbn [rbind]; [| discriminate].
  all: intros H; injection H as <-.
  all: apply read_header_error in E2 as (tag & E2).
  all: apply getnum_error in E2 as [-> | ->]; tauto.
Qed.

Lemma read_block_error (numpy : numpy_version) (file : list Byte.byte)
    (loc kl nd : Z) (h : header) (w w2 : world) (e : exn) :
  fclosed w = false -> 0 <= loc + kl + 1 -> 0 <= nd ->
  isfread_py3.read_block file loc kl nd h w = (inl e, w2) ->
  raised_by_isfread numpy e.
Proof.
  intros Hc Hp Hn. rewrite read_block_unfold by assumption. cbv zeta.
  unfold raised_by_isfread.
  destruct (int_ascii (count_digits file loc kl nd)) as [e1|d] eqn:E1;
    [intros H; injection H as <- _; apply int_ascii_error in E1; tauto |].
  destruct (dict_endian_cases (byteorder h))
    as [(_ & Hd) | [(_ & Hd) | (_ & _ & Hd)]]; rewrite Hd;
    [| | intros H; injection H as <- _; do 7 right; left; eauto].
  all: unfold fmt_of; destruct (npts h) as [n | f];
    [| intros H; injection H as <- _; tauto].
  all: rewrite calcsize_fmt by auto.
  all: destruct ((n <? 0) || (PY_SSIZE_T_MAX / 2 <? n)) eqn:En;
    [intros H; injection H as <- _; tauto |].
  all: destruct (negb (d =? 2 * n)); [intros H; injection H as <- _; tauto |].
  all: rewrite read_samples_run by (auto; lia).
  all: rewrite unpack_fmt by auto; rewrite En.
  all: destruct (len _ =? 2 * n); [discriminate |].
  all: intros H; injection H as <- _; tauto.
Qed.

(** [numpy.array] raises on rows of unequal lengths only, and only since
    NumPy 1.24. *)
Lemma np_array_error (v : numpy_version) (rows : list (list pynum)) (e : exn) :
  np_array v rows = inl e ->
  v = numpy_from_1_24 /\ e = inhomogeneous /\ same_length rows = false.
Proof.
  unfold np_array. destruct (same_length rows); [discriminate |].
  destruct v; [discriminate |]. intros H. injection H as <-. auto.
Qed.

Lemma convert_error (numpy : numpy_version) (h : header) (data : list Z)
    (w w' : world) (e : exn) (n : Z) :
  npts h = PInt n -> 0 <= n < 2 ^ 53 ->
  isfread_py3.convert numpy h data w = (inl e, w') ->
  raised_by_isfread numpy e.
Proof.
  intros Hn Hr. unfold isfread_py3.convert, raised_by_isfread.
  assert (Hval : forall l e0, mapM (value_of h) l = inl e0 -> e0 = OverflowError).
  { intros l e0 H. apply mapM_error in H as (y & _ & H).
    now apply formula_error in H. }
  destruct (cmp (pointformat h) (lit "Y") =? 0).
  - rewrite Hn. cbn [range_num rbind].
    unfold bind at 1, lift at 1.
    destruct (mapM (time_of h) (range n)) as [e1|t] eqn:E1.
    + intros H. injection H as <- _.
      apply mapM_error in E1 as (i & _ & E1). apply formula_error in E1. tauto.
    + unfold bind at 1, lift at 1.
      destruct (mapM (value_of h) data) as [e2|v] eqn:E2;
        [intros H; injection H as <- _; apply Hval in E2; tauto |].
      unfold bind at 1, lift at 1.
      destruct (np_array numpy [t; v]) as [e3|a] eqn:E3; [| discriminate].
      intros H. injection H as <- _.
      apply np_array_error in E3 as (-> & -> & _). tauto.
  - destruct (cmp (pointformat h) (lit "ENV") =? 0);
      [| intros H; injection H as <- _; tauto].
    rewrite Hn, int_of_half by exact Hr.
    unfold bind at 1, lift at 1. unfold bind at 1, lift at 1.
    destruct (mapM (env_time_of h) (range (n / 2))) as [e1|t] eqn:E1.
    + intros H. injection H as <- _.
      apply mapM_error in E1 as (i & _ & E1). apply env_time_error in E1. tauto.
    + unfold bind at 1, lift at 1.
      destruct (mapM (value_of h) (slice_step data 0 (len data) 2))
        as [e2|mn] eqn:E2;
        [intros H; injection H as <- _; apply Hval in E2; tauto |].
      unfold bind at 1, lift at 1.
      destruct (mapM (value_of h) (slice_step data 1 (len data) 2))
        as [e3|mx] eqn:E3;
        [intros H; injection H as <- _; apply Hval in E3; tauto |].
      unfold bind at 1, lift at 1.
      destruct (np_array numpy [t; mn; mx]) as [e4|a] eqn:E4; [| discriminate].
      intros H. injection H as <- _.
      apply np_array_error in E4 as (-> & -> & _). tauto.
Qed.

(** X21.  The exceptions that [isfread] (Python 3) ends in are these: the
    three [sys.exit] of the code, [IndexError] (no character after the
    marker), [ValueError] (of [int()] or [float()] on a text that is no
    number), [UnicodeDecodeError], [KeyError] (the byte order),
    [struct.error], [OverflowError] (an integer of the header too large
    for a float) and, since NumPy 1.24, the [ValueError] of [numpy.array]
    on lists of unequal lengths.  It never fails on a closed file or on a
    seek, and never with [TypeError]. *)
Theorem isfread_exceptions (todecimal : Z -> option Z) (numpy : numpy_version)
    (file : list Byte.byte) (w w' : world) (e : exn) :
  isfread_py3.isfread todecimal numpy file w = (inl e, w') ->
  raised_by_isfread numpy e.
Proof.
  rewrite isfread_unfold.
  destruct (isfread_py3.read_preamble todecimal (header_bytes file))
    as [e0 | [[[loc kl] nd] h]] eqn:Hpre.
  - intros H. injection H as <- _.
    now apply (read_preamble_error _ numpy) in Hpre.
  - pose proof (read_preamble_bounds _ _ _ _ _ _ Hpre) as (Hloc & Hkl & Hnd).
    unfold bind at 1.
    destruct (isfread_py3.read_block file loc kl nd h (after_header file w))
      as [[e1|data] w2] eqn:Hb.
    + intros H. injection H as <- _.
      apply (read_block_error numpy) in Hb; auto; lia.
    + unfold bind at 1.
      destruct (isfread_py3.convert numpy h data w2) as [[e2|arr] w3] eqn:Hv;
        [| discriminate].
      intros H. injection H as <- _.
      apply read_block_ok_inv in Hb
        as (n & o & Hn & Hn0 & _ & _ & Hcount & _); try reflexivity; try lia.
      apply (convert_error numpy h data w2 w3 e2 n Hn); [| exact Hv].
      apply int_ascii_bound in Hcount as [_ Hbd].
      assert (Hl : len (count_digits file loc kl nd) <= nd).
      { unfold count_digits. rewrite len_file_bytes by lia. lia. }
      assert (10 ^ len (count_digits file loc kl nd) <= 10 ^ 9)
        by (apply Z.pow_le_mono_r; lia).
      change (10 ^ 9) with 1000000000 in *.
      change (2 ^ 53) with 9007199254740992. lia.
Qed.

(** ** A file in order is decoded *)

(** [float(z)] for an integer of 53 bits at most is finite. *)
Lemma int_to_float_exact (z : Z) :
  - 2 ^ 53 < z < 2 ^ 53 -> exists f, int_to_float z = inr f.
Proof.
  intros Hz. unfold int_to_float, float_of_Z, binary_normalize.
  destruct z as [|p|p].
  - eexists. reflexivity.
  - destruct (binary_round_small false p) as (m & -> & _);
      [apply digits2_le; lia | eexists; reflexivity].
  - destruct (binary_round_small true p) as (m & -> & _);
      [apply digits2_le; lia | eexists; reflexivity].
Qed.

Lemma arith_with_float_l (iop : Z -> Z -> Z) (fop : float -> float -> float)
    (a b : pynum) :
  is_float a -> float_or_exact b ->
  exists f, arith iop fop a b = inr (PFloat f).
Proof.
  destruct a as [x|x]; [contradiction |]. intros _.
  destruct b as [y|y]; cbn [float_or_exact arith].
  - intros Hy. destruct (int_to_float_exact y Hy) as (f & ->). cbn [rbind]. eauto.
  - eauto.
Qed.

Lemma arith_with_float_r (iop : Z -> Z -> Z) (fop : float -> float -> float)
    (a b : pynum) :
  float_or_exact a -> is_float b ->
  exists f, arith iop fop a b = inr (PFloat f).
Proof.
  destruct b as [y|y]; [contradiction |]. intros Ha _.
  destruct a as [x|x]; cbn [float_or_exact arith] in *.
  - destruct (int_to_float_exact x Ha) as (f & ->). cbn [rbind]. eauto.
  - eauto.
Qed.

Lemma sub_small (i : Z) (b : pynum) :
  - 2 ^ 52 < i < 2 ^ 52 -> float_or_small b ->
  exists r, py_sub (PInt i) b = inr r /\ float_or_exact r.
Proof.
  intros Hi Hb. destruct b as [y|y]; cbn [float_or_small] in Hb.
  - exists (PInt (i - y)). split; [reflexivity |]. cbn [float_or_exact].
    change (2 ^ 52) with 4503599627370496 in *.
    change (2 ^ 53) with 9007199254740992. lia.
  - destruct (arith_with_float_r Z.sub (SFsub prec emax) (PInt i) (PFloat y))
      as (f & Hf); [| exact I |].
    + cbn [float_or_exact]. change (2 ^ 52) with 4503599627370496 in *.
      change (2 ^ 53) with 9007199254740992. lia.
    + exists (PFloat f). split; [exact Hf | exact I].
Qed.

Lemma small_is_exact (a : pynum) : float_or_small a -> float_or_exact a.
Proof.
  destruct a as [z|f]; cbn; [| auto].
  change (2 ^ 52) with 4503599627370496.
  change (2 ^ 53) with 9007199254740992. lia.
Qed.

(** [zero + mult*(i - off)] is computed when the multiplier is a float. *)
Lemma formula_runs (zero mult off : pynum) (i : Z) :
  is_float mult -> float_or_small zero -> float_or_small off ->
  - 2 ^ 52 < i < 2 ^ 52 ->
  exists r, (d <-? py_sub (PInt i) off ;; p <-? py_mul mult d ;; py_add zero p)
            = inr r.
Proof.
  intros Hm Hz Ho Hi.
  destruct (sub_small i off Hi Ho) as (d & -> & Hd). cbn [rbind].
  destruct (arith_with_float_l Z.mul (SFmul prec emax) mult d Hm Hd) as (p & Hp).
  unfold py_mul. rewrite Hp. cbn [rbind].
  destruct (arith_with_float_r Z.add (SFadd prec emax) zero (PFloat p)
              (small_is_exact _ Hz) I) as (r & Hr).
  unfold py_add. rewrite Hr. eauto.
Qed.

Lemma env_time_runs (h : header) (i : Z) :
  is_float (xincr h) -> float_or_small (xzero h) -> float_or_small (ptoff h) ->
  - 2 ^ 52 < i < 2 ^ 52 ->
  exists r, env_time_of h i = inr r.
Proof.
  intros Hm Hz Ho Hi. unfold env_time_of.
  destruct (sub_small i (ptoff h) Hi Ho) as (d & -> & Hd). cbn [rbind].
  destruct (arith_with_float_l Z.mul (SFmul prec emax) (xincr h) d Hm Hd)
    as (p & Hp).
  unfold py_mul at 1. rewrite Hp. cbn [rbind].
  destruct (arith_with_float_l Z.mul (SFmul prec emax) (PFloat p) (PInt 2) I)
    as (q & Hq); [cbn; lia |].
  unfold py_mul. rewrite Hq. cbn [rbind].
  destruct (arith_with_float_r Z.add (SFadd prec emax) (xzero h) (PFloat q)
              (small_is_exact _ Hz) I) as (r & Hr).
  unfold py_add. rewrite Hr. eauto.
Qed.

Lemma mapM_runs {A B : Type} (f : A -> res B) (l : list A) :
  (forall x, In x l -> exists y, f x = inr y) ->
  exists ys, mapM f l = inr ys.
Proof.
  induction l as [|x l IH]; intros H; [eexists; reflexivity |].
  cbn [mapM]. destruct (H x (or_introl eq_refl)) as (y & ->). cbn [rbind].
  destruct IH as (ys & ->); [intros x' Hx'; apply H; now right |].
  cbn [rbind]. eauto.
Qed.

Lemma in_range (n i : Z) : In i (range n) -> 0 <= i < n.
Proof.
  unfold range. intros H. apply in_map_iff in H as (k & <- & Hk).
  apply in_seq in Hk. lia.
Qed.

Lemma in_slice_step {A : Type} (x : A) (l : list A) (a b : Z) (k : nat) :
  In x (slice_step l a b k) -> In x l.
Proof.
  unfold slice_step, slice.
  set (s := firstn _ (skipn _ l)).
  assert (Hs : forall y, In y s -> In y l).
  { intros y Hy. unfold s in Hy.
    match type of Hy with
    | In _ (firstn ?a (skipn ?b l)) =>
        rewrite <- (firstn_skipn b l); apply in_or_app; right;
        rewrite <- (firstn_skipn a (skipn b l)); apply in_or_app; now left
    end. }
  clearbody s. intros H. apply Hs. clear Hs. revert H.
  generalize 0%nat as j. induction s as [|y s IH]; intros j H; [contradiction |].
  cbn [stride_aux] in H. destruct j as [|j].
  - destruct H as [<- | H]; [now left | right; eauto].
  - right; eauto.
Qed.

(** X22.  A file in order is decoded.  When the header is read, the byte
    order is known, the byte count is twice the number of points, the file
    holds the block, the point format is "Y", or "ENV" with an even number
    of points, the two multipliers are floats and the zeros and offsets are
    floats or integers below [2 ^ 52], then [isfread] (Python 3) returns: no
    exception is left that it could raise.  (With "ENV" and an odd number of
    points the rows are of unequal lengths, and what [numpy.array] makes of
    them depends on its version.) *)
Theorem file_in_order_is_decoded (todecimal : Z -> option Z) (numpy : numpy_version)
    (file : list Byte.byte) (w : world) (loc kl nd : Z) (h : header) (n : Z) :
  isfread_py3.read_preamble todecimal (header_bytes file) = inr (loc, kl, nd, h) ->
  int_ascii (count_digits file loc kl nd) = inr (2 * n) ->
  byteorder h = lit "MSB" \/ byteorder h = lit "LSB" ->
  npts h = PInt n -> 0 <= n ->
  loc + kl + 1 + nd + 2 * n <= len file ->
  pointformat h = lit "Y" \/ (pointformat h = lit "ENV" /\ Z.even n = true) ->
  is_float (xincr h) -> is_float (ymult h) ->
  float_or_small (xzero h) -> float_or_small (ptoff h) ->
  float_or_small (yzero h) -> float_or_small (yoff h) ->
  exists arr w',
    isfread_py3.isfread todecimal numpy file w = (inr (arr, h), w').
Proof.
  intros Hpre Hcount Ho Hn Hn0 Hfile Hpf Hxi Hym Hxz Hpo Hyz Hyo.
  pose proof (read_preamble_bounds _ _ _ _ _ _ Hpre) as (Hloc & Hkl & Hnd).
  assert (Hlcd : len (count_digits file loc kl nd) = nd).
  { unfold count_digits. rewrite len_file_bytes by lia. lia. }
  assert (Hn9 : 2 * n < 10 ^ 9).
  { pose proof Hcount as Hb. apply int_ascii_bound in Hb as [_ Hb].
    rewrite Hlcd in Hb.
    assert (10 ^ nd <= 10 ^ 9) by (apply Z.pow_le_mono_r; lia). lia. }
  change (10 ^ 9) with 1000000000 in Hn9.
  (* the block *)
  assert (Hblk : exists data w2,
             isfread_py3.read_block file loc kl nd h (after_header file w)
             = (inr data, w2)
             /\ Forall (fun y => -32768 <= y <= 32767) data).
  { rewrite read_block_unfold by (try reflexivity; lia). cbv zeta.
    rewrite Hcount. unfold fmt_of. rewrite Hn.
    assert (Hsmall : (n <? 0) || (PY_SSIZE_T_MAX / 2 <? n) = false).
    { apply orb_false_iff. split; [lia |]. apply Z.ltb_ge.
      change (PY_SSIZE_T_MAX / 2) with 4611686018427387903. lia. }
    destruct (dict_endian_cases (byteorder h))
      as [(Hk & Hg) | [(Hk & Hg) | (Hm & Hl & Hg)]]; rewrite Hg;
      [| | destruct Ho; contradiction].
    all: rewrite calcsize_fmt by auto; rewrite Hsmall.
    all: rewrite Z.eqb_refl; cbn [negb].
    all: rewrite read_samples_run by (try reflexivity; lia).
    all: rewrite unpack_fmt by auto; rewrite Hsmall.
    all: unfold after_digits at 1; cbn [fpos]; rewrite Hlcd.
    all: replace (len (file_bytes file (loc + kl + 1 + nd) (2 * n)) =? 2 * n)
           with true by (rewrite len_file_bytes by lia; lia).
    all: eexists _, _; split; [reflexivity |].
    all: unfold file_bytes; apply unpack_h_in_range. }
  destruct Hblk as (data & w2 & Hblk & Hrange).
  rewrite Forall_forall in Hrange.
  assert (Hlen : len data = n).
  { pose proof Hblk as Hb.
    apply read_block_ok_inv in Hb as (n' & _ & Hn' & _ & _ & _ & _ & _ & _ & Hl & _);
      try reflexivity; try lia.
    congruence. }
  (* the two formulas *)
  assert (Hval : forall l, (forall y, In y l -> In y data) ->
             exists vs, mapM (value_of h) l = inr vs).
  { intros l Hl. apply mapM_runs. intros y Hy.
    apply formula_runs; auto.
    specialize (Hrange y (Hl y Hy)).
    change (2 ^ 52) with 4503599627370496. lia. }
  assert (Hconv : exists arr w3, isfread_py3.convert numpy h data w2 = (inr arr, w3)).
  { destruct Hpf as [Hy | [He Heven]].
    - rewrite (convert_Y numpy h data w2 Hy), Hn. cbn [range_num rbind].
      destruct (mapM_runs (time_of h) (range n)) as (t & Et).
      { intros i Hi. apply in_range in Hi. apply formula_runs; auto.
        change (2 ^ 52) with 4503599627370496. lia. }
      destruct (Hval data (fun y Hy => Hy)) as (v & Ev).
      rewrite Et, Ev.
      pose proof (mapM_length _ _ _ Et) as Lt. rewrite range_length in Lt.
      pose proof (mapM_length _ _ _ Ev) as Lv.
      rewrite np_array_two by (unfold len in *; lia). eauto.
    - pose proof (Zmod_even n) as Hmod. rewrite Heven in Hmod.
      pose proof (Z.div_mod n 2 ltac:(lia)) as Hdm.
      rewrite (convert_ENV numpy h data w2 He), Hn.
      rewrite int_of_half by (change (2 ^ 53) with 9007199254740992; lia).
      destruct (mapM_runs (env_time_of h) (range (n / 2))) as (t & Et).
      { intros i Hi. apply in_range in Hi. apply env_time_runs; auto.
        assert (n / 2 <= n) by (apply Z.div_le_upper_bound; lia).
        change (2 ^ 52) with 4503599627370496. lia. }
      destruct (Hval (slice_step data 0 (len data) 2)) as (mn & Emn).
      { intros y. apply in_slice_step. }
      destruct (Hval (slice_step data 1 (len data) 2)) as (mx & Emx).
      { intros y. apply in_slice_step. }
      rewrite Et, Emn, Emx.
      pose proof (mapM_length _ _ _ Et) as Lt. rewrite range_length in Lt.
      pose proof (mapM_length _ _ _ Emn) as Lmn.
      pose proof (mapM_length _ _ _ Emx) as Lmx.
      destruct (slice_step_lengths data) as [L0 L1].
      assert (Hhalf : (n + 1) / 2 = n / 2).
      { replace (n + 1) with (1 + (n / 2) * 2) by lia.
        rewrite Z.div_add by lia. reflexivity. }
      assert (Ltime : len t = n / 2) by (unfold len; lia).
      assert (Lmin : len mn = n / 2).
      { replace (len mn) with (len (slice_step data 0 (len data) 2))
          by (unfold len at 1 3; now rewrite Lmn).
        now rewrite L0, Hlen. }
      assert (Lmax : len mx = n / 2).
      { replace (len mx) with (len (slice_step data 1 (len data) 2))
          by (unfold len at 1 3; now rewrite Lmx).
        now rewrite L1, Hlen. }
      rewrite np_array_three by lia. eauto. }
  destruct Hconv as (arr & w3 & Hconv).
  exists arr, w3. rewrite (isfread_run _ _ _ _ _ _ _ _ Hpre).
  rewrite (bind_step _ _ _ _ _ Hblk), (bind_step _ _ _ _ _ Hconv).
  reflexivity.
Qed.

(** ** The further properties at sample files *)

Lemma isfread_point_count_bound_witness :
  exists arr h w',
    isfread_py3.isfread ascii_only numpy_from_1_24 sample_Y fresh_world
      = (inr (arr, h), w')
    /\ exists n nd, npts h = PInt n /\ 1 <= nd <= 9 /\ 0 <= 2 * n < 10 ^ nd.
Proof.
  eexists _, _, _.
  split; [vm_compute; reflexivity |].
  destruct (isfread_point_count_bound ascii_only numpy_from_1_24
             sample_Y fresh_world _ _ _
              ltac:(vm_compute; reflexivity))
    as (n & loc & kl & nd & _ & Hn & Hnd & Hb & _).
  exists n, nd. auto.
Defined.

Lemma point_count_out_of_range_is_fatal_witness :
  exists loc kl nd h,
    isfread_py3.read_preamble ascii_only (header_bytes sample_negative_count)
    = inr (loc, kl, nd, h)
    /\ int_ascii (count_digits sample_negative_count loc kl nd) = inr 8
    /\ byteorder h = lit "MSB"
    /\ npts h = PInt (-4)
    /\ isfread_py3.isfread ascii_only numpy_from_1_24 sample_negative_count fresh_world
       = (inl struct_error,
          after_digits sample_negative_count loc kl nd
            (after_header sample_negative_count fresh_world)).
Proof.
  eexists _, _, _, _.
  split; [vm_compute; reflexivity |].
  split; [vm_compute; reflexivity |].
  split; [reflexivity |].
  split; [reflexivity |].
  exact (point_count_out_of_range_is_fatal ascii_only numpy_from_1_24 sample_negative_count
           fresh_world _ _ _ _ 8 (-4)
           ltac:(vm_compute; reflexivity) ltac:(vm_compute; reflexivity)
           ltac:(left; reflexivity) ltac:(reflexivity) ltac:(left; lia)).
Defined.

Lemma truncated_block_is_fatal_witness :
  exists loc kl nd h,
    isfread_py3.read_preamble ascii_only (header_bytes sample_truncated)
    = inr (loc, kl, nd, h)
    /\ int_ascii (count_digits sample_truncated loc kl nd) = inr (2 * 4)
    /\ byteorder h = lit "MSB"
    /\ npts h = PInt 4
    /\ len sample_truncated < loc + kl + 1 + nd + 2 * 4
    /\ isfread_py3.isfread ascii_only numpy_from_1_24 sample_truncated fresh_world
       = (inl struct_error,
          after_samples sample_truncated (2 * 4)
            (after_digits sample_truncated loc kl nd
               (after_header sample_truncated fresh_world))).
Proof.
  eexists _, _, _, _.
  split; [vm_compute; reflexivity |].
  split; [vm_compute; reflexivity |].
  split; [reflexivity |].
  split; [reflexivity |].
  split; [vm_compute; reflexivity |].
  exact (truncated_block_is_fatal ascii_only numpy_from_1_24 sample_truncated fresh_world
           _ _ _ _ 4
           ltac:(vm_compute; reflexivity) ltac:(vm_compute; reflexivity)
           ltac:(left; reflexivity) ltac:(reflexivity)
           ltac:(vm_compute; split; [reflexivity | discriminate])
           ltac:(vm_compute; reflexivity)).
Defined.

Lemma digit_count_character_witness :
  (exists loc kl,
      isfread_py3.locate (header_bytes sample_marker_at_end) = inr (loc, kl, false)
      /\ loc + kl = len (header_bytes sample_marker_at_end)
      /\ isfread_py3.isfread ascii_only numpy_from_1_24 sample_marker_at_end fresh_world
         = (inl IndexError, after_header sample_marker_at_end fresh_world))
  /\ (exists loc kl,
        isfread_py3.locate (header_bytes sample_no_digit_count) = inr (loc, kl, false)
        /\ getitem (header_bytes sample_no_digit_count) (loc + kl) = Some 88
        /\ isfread_py3.isfread ascii_only numpy_from_1_24 sample_no_digit_count fresh_world
           = (inl invalid_int, after_header sample_no_digit_count fresh_world)).
Proof.
  split.
  - eexists _, _.
    split; [vm_compute; reflexivity |].
    split; [vm_compute; reflexivity |].
    exact (proj1 (digit_count_character ascii_only numpy_from_1_24 sample_marker_at_end
                    fresh_world _ _ false ltac:(vm_compute; reflexivity))
             ltac:(vm_compute; reflexivity)).
  - eexists _, _.
    split; [vm_compute; reflexivity |].
    split; [vm_compute; reflexivity |].
    exact (proj2 (digit_count_character ascii_only numpy_from_1_24 sample_no_digit_count
                    fresh_world _ _ false ltac:(vm_compute; reflexivity))
             88 ltac:(vm_compute; reflexivity) ltac:(lia) ltac:(reflexivity)).
Defined.

Lemma py2_return_closed_and_warned_witness :
  exists x v head w',
    isfread_py2.isfread python2_example sample_legacy_mismatch fresh_world
    = (inr (x, v, head), w')
    /\ isfread_py2.unsupported head = false
    /\ fclosed w' = true
    /\ exists n n1,
         npts head = PInt n
         /\ stdout w'
            = stdout fresh_world
              ++ (if n1 =? 2 * n then [] else [isfread_py2.warning]).
Proof.
  eexists _, _, _, _.
  split; [vm_compute; reflexivity |].
  destruct (py2_return_closed_and_warned python2_example sample_legacy_mismatch
              fresh_world _ _ _ _ ltac:(vm_compute; reflexivity))
    as (_ & Hu & Hc & n & skip & digits & n1 & Hn & _ & _ & _ & Ho).
  split; [exact Hu |]. split; [exact Hc |].
  exists n, n1. split; [exact Hn | exact Ho].
Defined.

Lemma py2_marker_not_checked_witness :
  exists head,
    read_header python2_example legacy_tags (header_bytes sample_legacy_no_marker)
    = inr head
    /\ isfread_py2.unsupported head = false
    /\ absent (lit ":CURVE #") (header_bytes sample_legacy_no_marker)
    /\ py_int python2_example (file_bytes sample_legacy_no_marker 7 1)
       = inl invalid_int
    /\ isfread_py2.isfread python2_example sample_legacy_no_marker fresh_world
       = (inl invalid_int,
          mkWorld (7 + len (file_bytes sample_legacy_no_marker 7 1)) false
            (stdout fresh_world)).
Proof.
  eexists.
  split; [vm_compute; reflexivity |].
  split; [vm_compute; reflexivity |].
  assert (Ha : absent (lit ":CURVE #") (header_bytes sample_legacy_no_marker)).
  { apply find_absent. vm_compute. reflexivity. }
  split; [exact Ha |].
  split; [vm_compute; reflexivity |].
  exact (py2_marker_not_checked python2_example sample_legacy_no_marker
           fresh_world _ invalid_int
           ltac:(vm_compute; reflexivity) ltac:(vm_compute; reflexivity)
           Ha ltac:(vm_compute; reflexivity)).
Defined.

Lemma lone_high_byte_in_header_is_fatal_witness :
  exists pre post,
    isfread_py3.locate (header_bytes sample_latin1) = inr (165, 7, false)
    /\ getitem (header_bytes sample_latin1) (165 + 7) = Some 49
    /\ py_int (python3 ascii_only) [49] = inr 1
    /\ slice (header_bytes sample_latin1) 0 (165 + 7 + 1 + 1)
       = pre ++ DQUOTE :: 181 :: post
    /\ match post with [] => True | q :: _ => q < 128 end
    /\ isfread_py3.isfread ascii_only numpy_from_1_24 sample_latin1 fresh_world
       = (inl UnicodeDecodeError, after_header sample_latin1 fresh_world).
Proof.
  exists (firstn 60 (header_bytes sample_latin1)),
         (skipn 62 (firstn 174 (header_bytes sample_latin1))).
  split; [vm_compute; reflexivity |].
  split; [vm_compute; reflexivity |].
  split; [vm_compute; reflexivity |].
  split; [vm_compute; reflexivity |].
  split; [vm_compute; reflexivity |].
  exact (lone_high_byte_in_header_is_fatal ascii_only numpy_from_1_24
             sample_latin1 fresh_world
           165 7 1 false 49
           (firstn 60 (header_bytes sample_latin1))
           (skipn 62 (firstn 174 (header_bytes sample_latin1)))
           DQUOTE 181
           ltac:(vm_compute; reflexivity) ltac:(vm_compute; reflexivity)
           ltac:(vm_compute; reflexivity) ltac:(vm_compute; reflexivity)
           ltac:(vm_compute; reflexivity) ltac:(vm_compute; discriminate)
           ltac:(vm_compute; reflexivity)).
Defined.

Lemma bytes_after_the_block_are_ignored_witness :
  exists arr h w' w'',
    isfread_py3.isfread ascii_only numpy_from_1_24 sample_Y fresh_world
      = (inr (arr, h), w')
    /\ npts h <> PInt 0
    /\ ~ absent (lit ":CURV #") (header_bytes sample_Y)
    /\ isfread_py3.isfread ascii_only numpy_from_1_24 (sample_Y ++ file_of [13; 10]) fresh_world
       = (inr (arr, h), w'').
Proof.
  assert (Hm : ~ absent (lit ":CURV #") (header_bytes sample_Y)).
  { intros Ha. apply find_absent in Ha. vm_compute in Ha. discriminate Ha. }
  destruct (bytes_after_the_block_are_ignored ascii_only numpy_from_1_24 sample_Y (file_of [13; 10])
              fresh_world _ _ _
              ltac:(vm_compute; reflexivity)
              ltac:(vm_compute; intros H; discriminate H)
              (or_intror Hm))
    as (w'' & Hrun).
  eexists _, _, _, w''.
  split; [vm_compute; reflexivity |].
  split; [vm_compute; intros H; discriminate H |].
  split; [exact Hm |].
  exact Hrun.
Defined.

Lemma isfread_ENV_series_witness :
  (exists arr h w' time mn mx,
     isfread_py3.isfread ascii_only numpy_before_1_24 sample_ENV_odd fresh_world
     = (inr (arr, h), w')
     /\ pointformat h = lit "ENV"
     /\ npts h = PInt 3
     /\ len time = 1 /\ len mn = 2 /\ len mx = 1
     /\ nth_error time 0 = Some (scaled_twice (xzero h) (xincr h) (ptoff h) 0)
     /\ nth_error mn 1
        = Some (scaled (yzero h) (ymult h) (yoff h) (256 * 0 + 0))
     /\ nth_error mx 0
        = Some (scaled (yzero h) (ymult h) (yoff h) (256 * 255 + 251 - 65536))
     /\ arr = nd_ragged [time; mn; mx])
  /\ (exists arr h w' time mn mx,
        isfread_py3.isfread ascii_only numpy_from_1_24 sample_ENV_even fresh_world
        = (inr (arr, h), w')
        /\ pointformat h = lit "ENV"
        /\ npts h = PInt 4
        /\ len time = 2 /\ len mn = 2 /\ len mx = 2
        /\ nth_error time 1 = Some (scaled_twice (xzero h) (xincr h) (ptoff h) 1)
        /\ nth_error time 1
           = Some (PFloat (S754_finite true 4684587551006688 (-72)))
        /\ nth_error mn 1
           = Some (scaled (yzero h) (ymult h) (yoff h) (256 * 0 + 0))
        /\ nth_error mx 1
           = Some (scaled (yzero h) (ymult h) (yoff h) (256 * 0 + 100))
        /\ nth_error mx 1
           = Some (PFloat (S754_finite false 4728779608739021 (-51)))
        /\ arr = nd_array float64 [time; mn; mx]).
Proof.
  split.
  - destruct (isfread_ENV_series ascii_only numpy_before_1_24 sample_ENV_odd
                fresh_world _ _ _
                ltac:(vm_compute; reflexivity) ltac:(reflexivity))
      as (n & loc & kl & nd & time & mn & mx & Hn & _ & Hpre & _ & Lt & Lmn & Lmx
          & Ht & Hmn & Hmx & _ & Hodd).
    vm_compute in Hn. injection Hn as <-.
    vm_compute in Hpre. injection Hpre as <- <- <-.
    destruct (Hmn 1 ltac:(vm_compute; split; [discriminate | reflexivity]))
      as (a0 & a1 & Ha0 & Ha1 & Hmn1 & _).
    vm_compute in Ha0, Ha1. injection Ha0 as <-. injection Ha1 as <-.
    destruct (Hmx 0 ltac:(vm_compute; split; [discriminate | reflexivity]))
      as (b0 & b1 & Hb0 & Hb1 & Hmx0 & _).
    vm_compute in Hb0, Hb1. injection Hb0 as <-. injection Hb1 as <-.
    eexists _, _, _, time, mn, mx.
    split; [vm_compute; reflexivity |].
    split; [reflexivity |].
    split; [reflexivity |].
    split; [exact Lt |].
    split; [exact Lmn |].
    split; [exact Lmx |].
    split; [exact (Ht 0 ltac:(vm_compute; split; [discriminate | reflexivity])) |].
    split; [exact (Hmn1 eq_refl) |].
    split; [exact (Hmx0 eq_refl) |].
    exact (proj2 (Hodd eq_refl)).
  - destruct (isfread_ENV_series ascii_only numpy_from_1_24 sample_ENV_even
                fresh_world _ _ _
                ltac:(vm_compute; reflexivity) ltac:(reflexivity))
      as (n & loc & kl & nd & time & mn & mx & Hn & _ & Hpre & _ & Lt & Lmn & Lmx
          & Ht & Hmn & Hmx & Heven & _).
    vm_compute in Hn. injection Hn as <-.
    vm_compute in Hpre. injection Hpre as <- <- <-.
    destruct (Hmn 1 ltac:(vm_compute; split; [discriminate | reflexivity]))
      as (a0 & a1 & Ha0 & Ha1 & Hmn1 & _).
    vm_compute in Ha0, Ha1. injection Ha0 as <-. injection Ha1 as <-.
    destruct (Hmx 1 ltac:(vm_compute; split; [discriminate | reflexivity]))
      as (b0 & b1 & Hb0 & Hb1 & Hmx1 & _).
    vm_compute in Hb0, Hb1. injection Hb0 as <-. injection Hb1 as <-.
    destruct (Heven eq_refl) as (d & _ & _ & _ & Hf).
    eexists _, _, _, time, mn, mx.
    split; [vm_compute; reflexivity |].
    split; [reflexivity |].
    split; [reflexivity |].
    split; [exact Lt |].
    split; [exact Lmn |].
    split; [exact Lmx |].
    split; [exact (Ht 1 ltac:(vm_compute; split; [discriminate | reflexivity])) |].
    split; [exact (Ht 1 ltac:(vm_compute; split; [discriminate | reflexivity])) |].
    split; [exact (Hmn1 eq_refl) |].
    split; [exact (Hmx1 eq_refl) |].
    split; [exact (Hmx1 eq_refl) |].
    exact (Hf (or_introl I) (or_introl I)).
Defined.

Lemma py2_lists_witness :
  exists x v head w',
    isfread_py2.isfread python2_example sample_legacy_Y fresh_world
    = (inr (x, v, head), w')
    /\ pointformat head = lit "Y"
    /\ byteorder head = lit "MSB"
    /\ npts head = PInt 4
    /\ find (header_bytes sample_legacy_Y) (lit ":CURVE #") 0 = 192
    /\ len x = 4 /\ len v = 4
    /\ nth_error x 1 = Some (scaled (xzero head) (xincr head) (ptoff head) 1)
    /\ nth_error x 1 = Some (PFloat (S754_finite true 4703477016938166 (-72)))
    /\ nth_error (file_bytes sample_legacy_Y 202 8) 2 = Some 255
    /\ nth_error (file_bytes sample_legacy_Y 202 8) 3 = Some 251
    /\ nth_error v 1
       = Some (scaled (yzero head) (ymult head) (yoff head)
                 (256 * 255 + 251 - 65536))
    /\ nth_error v 1 = Some (PFloat (S754_zero false)).
Proof.
  destruct (py2_lists python2_example sample_legacy_Y fresh_world
              _ _ _ _ ltac:(vm_compute; reflexivity))
    as (n & skip & digits & pos & Hpf & Hn & _ & _ & Hskip & Hdig & Hpos
        & Lx & Lv & Hx & Hv).
  vm_compute in Hn. injection Hn as <-.
  vm_compute in Hskip. injection Hskip as <-.
  specialize (Hdig ltac:(lia)). vm_compute in Hdig. subst digits.
  vm_compute in Hpos. subst pos.
  destruct (Hv 1 ltac:(lia)) as (b0 & b1 & H0 & H1 & Hm & _).
  vm_compute in H0, H1. injection H0 as <-. injection H1 as <-.
  eexists _, _, _, _.
  split; [vm_compute; reflexivity |].
  split; [reflexivity |].
  split; [reflexivity |].
  split; [reflexivity |].
  split; [vm_compute; reflexivity |].
  split; [exact Lx |].
  split; [exact Lv |].
  split; [exact (Hx 1 ltac:(lia)) |].
  split; [exact (Hx 1 ltac:(lia)) |].
  split; [vm_compute; reflexivity |].
  split; [vm_compute; reflexivity |].
  split; [exact (Hm eq_refl) |].
  exact (Hm eq_refl).
Defined.

Lemma array_depends_on_block_and_scales_witness :
  exists arr1 h1 w1' arr2 h2 w2',
    isfread_py3.isfread ascii_only numpy_from_1_24 sample_Y fresh_world
      = (inr (arr1, h1), w1')
    /\ isfread_py3.isfread ascii_only numpy_from_1_24 sample_legacy_Y fresh_world
       = (inr (arr2, h2), w2')
    /\ decoding_fields h1 = decoding_fields h2
    /\ arr1 = arr2.
Proof.
  eexists _, _, _, _, _, _.
  split; [vm_compute; reflexivity |].
  split; [vm_compute; reflexivity |].
  split; [vm_compute; reflexivity |].
  exact (array_depends_on_block_and_scales ascii_only numpy_from_1_24 sample_Y sample_legacy_Y
           fresh_world _ fresh_world _ _ _ _ _ _ _ _ _ _ _ 4
           ltac:(vm_compute; reflexivity) ltac:(vm_compute; reflexivity)
           ltac:(vm_compute; reflexivity) ltac:(vm_compute; reflexivity)
           ltac:(vm_compute; reflexivity) ltac:(vm_compute; reflexivity)
           ltac:(vm_compute; reflexivity)).
Defined.

Lemma isfread_exceptions_witness :
  (exists w',
     isfread_py3.isfread ascii_only numpy_from_1_24 sample_truncated fresh_world
     = (inl struct_error, w')
     /\ raised_by_isfread numpy_from_1_24 struct_error)
  /\ (exists w',
        isfread_py3.isfread ascii_only numpy_from_1_24 sample_ENV_odd fresh_world
        = (inl inhomogeneous, w')
        /\ raised_by_isfread numpy_from_1_24 inhomogeneous).
Proof.
  split; eexists.
  - split; [vm_compute; reflexivity |].
    exact (isfread_exceptions ascii_only numpy_from_1_24 sample_truncated
             fresh_world _ _ ltac:(vm_compute; reflexivity)).
  - split; [vm_compute; reflexivity |].
    exact (isfread_exceptions ascii_only numpy_from_1_24 sample_ENV_odd
             fresh_world _ _ ltac:(vm_compute; reflexivity)).
Defined.

Lemma file_in_order_is_decoded_witness :
  exists loc kl nd h,
    isfread_py3.read_preamble ascii_only (header_bytes sample_Y)
    = inr (loc, kl, nd, h)
    /\ int_ascii (count_digits sample_Y loc kl nd) = inr (2 * 4)
    /\ byteorder h = lit "MSB"
    /\ npts h = PInt 4
    /\ loc + kl + 1 + nd + 2 * 4 <= len sample_Y
    /\ pointformat h = lit "Y"
    /\ is_float (xincr h) /\ is_float (ymult h)
    /\ float_or_small (xzero h) /\ float_or_small (ptoff h)
    /\ float_or_small (yzero h) /\ float_or_small (yoff h)
    /\ exists arr w',
         isfread_py3.isfread ascii_only numpy_from_1_24 sample_Y fresh_world
           = (inr (arr, h), w').
Proof.
  eexists _, _, _, _.
  split; [vm_compute; reflexivity |].
  split; [vm_compute; reflexivity |].
  split; [reflexivity |].
  split; [reflexivity |].
  split; [vm_compute; discriminate |].
  split; [reflexivity |].
  split; [exact I |]. split; [exact I |].
  split; [exact I |]. split; [vm_compute; split; reflexivity |].
  split; [exact I |]. split; [exact I |].
  exact (file_in_order_is_decoded ascii_only numpy_from_1_24
             sample_Y fresh_world _ _ _ _ 4
           ltac:(vm_compute; reflexivity) ltac:(vm_compute; reflexivity)
           ltac:(left; reflexivity) ltac:(reflexivity) ltac:(lia)
           ltac:(vm_compute; discriminate) ltac:(left; reflexivity)
           I I I ltac:(vm_compute; split; reflexivity) I I).
Defined.
